(** * BIM-Audit QA/QC: the rule-matching and reconciliation engine

    A shallow embedding of the deterministic checks of the application:
    - [Text.cleanText]             (src/utils/text.ts),
    - [Qaqc]: the vocabulary and the row checkers of [handleAnalysis]
      (the QA/QC page),
    - [Midp]: the ingestion of a manifest and [handleCompare]
      (src/pages/MIDPCheckPage.tsx),
    - [Loin]: the compliance part of [handleAnalyze] (the parameter page).

    JavaScript strings are sequences of UTF-16 code units; they are modelled
    as [list N].  What the host gives and the sources only call (case mapping,
    the printing of numbers, locale comparison) is the interface [Runtime]. *)

From Stdlib Require Import String Ascii DecimalString.
From Stdlib Require Import List NArith ZArith Bool Lia Permutation PeanoNat.
From Stdlib Require Import Uint63 PrimFloat Sorted.
Import ListNotations.

Set Implicit Arguments.

(* ================================================================== *)
(** * JavaScript values, strings and collections *)
(* ================================================================== *)

Module JS.

(** A string is the list of its UTF-16 code units. *)
Definition jsstring := list N.

(** String literals of the sources (all of them are ASCII). *)
Definition lit (s : string) : jsstring :=
  map N_of_ascii (list_ascii_of_string s).

Fixpoint eqb (a b : jsstring) : bool :=
  match a, b with
  | [], [] => true
  | x :: a', y :: b' => N.eqb x y && eqb a' b'
  | _, _ => false
  end.

Definition isEmpty (s : jsstring) : bool :=
  match s with [] => true | _ => false end.

Definition inRange (lo hi c : N) : bool := N.leb lo c && N.leb c hi.

(** ECMAScript WhiteSpace and LineTerminator: what [trim] strips and what
    the pattern [\s] matches. *)
Definition isWhiteSpace (c : N) : bool :=
  inRange 9 13 c || N.eqb c 32 || N.eqb c 160 || N.eqb c 5760
  || inRange 8192 8202 c || N.eqb c 8232 || N.eqb c 8233
  || N.eqb c 8239 || N.eqb c 8287 || N.eqb c 12288 || N.eqb c 65279.

Fixpoint dropWhile (p : N -> bool) (s : jsstring) : jsstring :=
  match s with
  | [] => []
  | c :: t => if p c then dropWhile p t else s
  end.

Definition trimStart (s : jsstring) : jsstring := dropWhile isWhiteSpace s.
Definition trimEnd (s : jsstring) : jsstring :=
  rev (dropWhile isWhiteSpace (rev s)).

(** [s.trim()] *)
Definition trim (s : jsstring) : jsstring := trimEnd (trimStart s).

(** [s.startsWith(p)] *)
Fixpoint startsWith (p s : jsstring) : bool :=
  match p, s with
  | [], _ => true
  | x :: p', y :: s' => N.eqb x y && startsWith p' s'
  | _ :: _, [] => false
  end.

(** [s.includes(sub)] *)
Fixpoint includes (s sub : jsstring) : bool :=
  startsWith sub s ||
  match s with
  | [] => false
  | _ :: t => includes t sub
  end.

(** [s.split(sep)] for a string separator.  [skip] counts the code units
    of a separator just matched that are still to be passed over. *)
Fixpoint splitFrom (sep : jsstring) (skip : nat) (s acc : jsstring)
  : list jsstring :=
  match s with
  | [] => [rev acc]
  | c :: t =>
    match skip with
    | S k => splitFrom sep k t acc
    | O =>
      if startsWith sep s
      then rev acc :: splitFrom sep (Nat.pred (length sep)) t []
      else splitFrom sep 0 t (c :: acc)
    end
  end.

Definition split (sep s : jsstring) : list jsstring :=
  match sep with
  | [] => map (fun c => [c]) s
  | _ => splitFrom sep 0 s []
  end.

(** [s.split(/[...]+/)] for a pattern that is one character class repeated:
    the separators are the maximal runs of characters of the class. *)
Fixpoint splitRuns (isSep : N -> bool) (inRun : bool) (s acc : jsstring)
  : list jsstring :=
  match s with
  | [] => [rev acc]
  | c :: t =>
    if isSep c
    then (if inRun then splitRuns isSep true t []
          else rev acc :: splitRuns isSep true t [])
    else splitRuns isSep false t (c :: acc)
  end.

Definition splitClass (isSep : N -> bool) (s : jsstring) : list jsstring :=
  splitRuns isSep false s [].

(** [xs.join(sep)] *)
Fixpoint join (sep : jsstring) (xs : list jsstring) : jsstring :=
  match xs with
  | [] => []
  | [x] => x
  | x :: rest => x ++ sep ++ join sep rest
  end.

(** [xs.slice(0, -1)] *)
Definition sliceInit (A : Type) (xs : list A) : list A := removelast xs.

(** [/^\d{6}$/.test(s)] *)
Definition isDigit (c : N) : bool := inRange 48 57 c.
Definition testSixDigits (s : jsstring) : bool :=
  Nat.eqb (length s) 6 && forallb isDigit s.

(** A [Set] of strings, in insertion order. *)
Definition StrSet := list jsstring.
Definition setHas (s : StrSet) (x : jsstring) : bool := existsb (eqb x) s.
Definition setAdd (s : StrSet) (x : jsstring) : StrSet :=
  if setHas s x then s else s ++ [x].

(** A [Map] with string keys, in insertion order. *)
Definition StrMap (V : Type) := list (jsstring * V).

Fixpoint mapGet (V : Type) (m : StrMap V) (k : jsstring) : option V :=
  match m with
  | [] => None
  | (k', v) :: rest => if eqb k k' then Some v else mapGet rest k
  end.

Definition mapHas (V : Type) (m : StrMap V) (k : jsstring) : bool :=
  match mapGet m k with Some _ => true | None => false end.

Fixpoint mapSet (V : Type) (m : StrMap V) (k : jsstring) (v : V) : StrMap V :=
  match m with
  | [] => [(k, v)]
  | (k', v') :: rest =>
    if eqb k k' then (k', v) :: rest else (k', v') :: mapSet rest k v
  end.

Definition mapKeys (V : Type) (m : StrMap V) : list jsstring := map fst m.

(** What the sources take from the host: numbers and their printing, the
    Unicode case mappings and the locale's collation. *)
Class Runtime : Type := {
  number : Type;
  numberToString : number -> jsstring;
  numberToBoolean : number -> bool;
  toUpperCase : jsstring -> jsstring;
  toLowerCase : jsstring -> jsstring;
  localeCompare : jsstring -> jsstring -> Z
}.

Section Values.
Context {RT : Runtime}.

(** The values a cell of a parsed sheet can hold. *)
Inductive value : Type :=
| VUndefined
| VNull
| VBoolean (b : bool)
| VNumber (n : number)
| VString (s : jsstring).

(** [String(v)] *)
Definition toString (v : value) : jsstring :=
  match v with
  | VUndefined => lit "undefined"
  | VNull => lit "null"
  | VBoolean true => lit "true"
  | VBoolean false => lit "false"
  | VNumber n => numberToString n
  | VString s => s
  end.

(** Truthiness *)
Definition toBoolean (v : value) : bool :=
  match v with
  | VUndefined | VNull => false
  | VBoolean b => b
  | VNumber n => numberToBoolean n
  | VString s => negb (isEmpty s)
  end.

(** [v || ''] *)
Definition orEmpty (v : value) : value :=
  if toBoolean v then v else VString [].

(** [v ?? ''] *)
Definition nullishEmpty (v : value) : value :=
  match v with
  | VUndefined | VNull => VString []
  | _ => v
  end.

(** An object used as a record of cells: its own properties in the order
    in which [for in] and [Object.keys] visit them, the keys that are array
    indices first, in ascending order, then the other keys in the order of
    their creation (the keys of a sheet's row are its headers). *)
Definition object := list (jsstring * value).

(** [row[h]] *)
Definition prop (row : object) (h : jsstring) : value :=
  match mapGet row h with Some v => v | None => VUndefined end.

(** [Object.keys(row)] *)
Definition keys (row : object) : list jsstring := mapKeys row.

End Values.

(** [xs.find(p)] followed by the test [if (h)]: a header that is found and
    is not the empty string. *)
Definition findTruthy (p : jsstring -> bool) (xs : list jsstring)
  : option jsstring :=
  match find p xs with
  | Some h => if isEmpty h then None else Some h
  | None => None
  end.

End JS.

(* ================================================================== *)
(** * src/utils/text.ts *)
(* ================================================================== *)

Module Text.
Import JS.

(** General category Cc: U+0000..U+001F and U+007F..U+009F. *)
Definition isCc (c : N) : bool := inRange 0 31 c || inRange 127 159 c.

(** General category Cf.  The table is the Unicode Character Database's
    (version 15.1); the source names the category only. *)
Definition isCf (c : N) : bool :=
  N.eqb c 173 || inRange 1536 1541 c || N.eqb c 1564 || N.eqb c 1757
  || N.eqb c 1807 || inRange 2192 2193 c || N.eqb c 2274 || N.eqb c 6158
  || inRange 8203 8207 c || inRange 8234 8238 c || inRange 8288 8292 c
  || inRange 8294 8303 c || N.eqb c 65279 || inRange 65529 65531 c
  || N.eqb c 69821 || N.eqb c 69837 || inRange 78896 78911 c
  || inRange 113824 113827 c || inRange 119155 119162 c
  || N.eqb c 917505 || inRange 917536 917631 c.

(** The class [[\p{Cc}\p{Cf}]] *)
Definition isCcCf (c : N) : bool := isCc c || isCf c.

Definition isHighSurrogate (c : N) : bool := inRange 55296 56319 c.
Definition isLowSurrogate (c : N) : bool := inRange 56320 57343 c.

(** The code point of a surrogate pair. *)
Definition codePoint (hi lo : N) : N :=
  (65536 + (hi - 55296) * 1024 + (lo - 56320))%N.

(** [s.replace(/[\p{Cc}\p{Cf}]/gu, '')]: with the [u] flag the pattern
    advances by code point, a surrogate pair being one. *)
Fixpoint removeCcCf (s : jsstring) : jsstring :=
  match s with
  | [] => []
  | c :: t =>
    match t with
    | d :: t' =>
      if isHighSurrogate c && isLowSurrogate d
      then (if isCcCf (codePoint c d) then removeCcCf t'
            else c :: d :: removeCcCf t')
      else (if isCcCf c then removeCcCf t else c :: removeCcCf t)
    | [] => if isCcCf c then [] else [c]
    end
  end.

Section CleanText.
Context {RT : Runtime}.

(** [cleanText] *)
Definition cleanText (input : value) : value :=
  match input with
  | VString s => VString (removeCcCf s)
  | _ => input
  end.

End CleanText.
End Text.

(* ================================================================== *)
(** * The QA/QC page: [handleAnalysis] *)
(* ================================================================== *)

Module Qaqc.
Import JS.

Inductive Status : Type := Valid | Invalid | NeedsReview.

Section HandleAnalysis.
Context {RT : Runtime}.

Record ValidationResultItem : Type := {
  originalRecord : object;
  status : Status;
  reasoning : jsstring;
  invalidValue : option jsstring
}.

(** ** The vocabulary [pdfTokens] *)

(** The class of [/[\s,;|]+/] *)
Definition isTokenSeparator (c : N) : bool :=
  isWhiteSpace c || N.eqb c 44 || N.eqb c 59 || N.eqb c 124.

(** The class of [/[()[\]{}]/g] *)
Definition isBracket (c : N) : bool :=
  N.eqb c 40 || N.eqb c 41 || N.eqb c 91 || N.eqb c 93
  || N.eqb c 123 || N.eqb c 125.

Definition removeBrackets (s : jsstring) : jsstring :=
  filter (fun c => negb (isBracket c)) s.

(** [clean.split('-').forEach(sub => { if (sub.length > 1) pdfTokens.add(sub); })] *)
Definition addSubTokens (tokens : StrSet) (clean : jsstring) : StrSet :=
  fold_left (fun acc sub => if 1 <? length sub then setAdd acc sub else acc)
            (split (lit "-") clean) tokens.

(** The body of the [forEach] over the words of the text. *)
Definition addWord (tokens : StrSet) (w : jsstring) : StrSet :=
  let clean := toUpperCase (removeBrackets (trim w)) in
  if 1 <? length clean then
    let tokens1 := setAdd tokens clean in
    if includes clean (lit "-") then addSubTokens tokens1 clean else tokens1
  else tokens.

Definition pdfTokens (sourceText : jsstring) : StrSet :=
  fold_left addWord (splitClass isTokenSeparator sourceText) [].

(** ** Headers and row records *)

(** [Object.keys(excelData[0] || {})] *)
Definition headersOf (excelData : list object) : list jsstring :=
  match excelData with
  | row :: _ => keys row
  | [] => []
  end.

Definition idHeaderNames : list jsstring :=
  [lit "file name"; lit "filename"; lit "model name"].

(** [xs.includes(s)] *)
Definition arrayIncludes (xs : list jsstring) (s : jsstring) : bool :=
  existsb (eqb s) xs.

Definition createRowRecord (headers : list jsstring) (row : object)
           (header : jsstring) : object :=
  let idH := findTruthy (fun h => arrayIncludes idHeaderNames (toLowerCase h))
                        headers in
  let base := match idH with
              | Some i => [(i, prop row i)]
              | None => []
              end in
  mapSet base header (prop row header).

(** ** 1. File Name *)

(** [s.replace(/\.[^/.]+$/, '')]: the pattern is tried at each position
    from the left; it matches at a dot followed, up to the end, by one or
    more characters that are neither a slash nor a dot. *)
Fixpoint stripExtension (s : jsstring) : jsstring :=
  match s with
  | [] => []
  | c :: t =>
    if N.eqb c 46 && negb (isEmpty t)
       && forallb (fun d => negb (N.eqb d 47 || N.eqb d 46)) t
    then []
    else c :: stripExtension t
  end.

Definition segmentsOf (valWithoutExt : jsstring) : list jsstring :=
  if includes valWithoutExt (lit "-") then split (lit "-") valWithoutExt
  else if includes valWithoutExt (lit "_") then split (lit "_") valWithoutExt
  else [valWithoutExt].

(** [String(row[h] || '').trim()] *)
Definition cellOr (row : object) (h : jsstring) : jsstring :=
  trim (toString (orEmpty (prop row h))).

(** [String(row[h] ?? '').trim()] *)
Definition cellNullish (row : object) (h : jsstring) : jsstring :=
  trim (toString (nullishEmpty (prop row h))).

Definition invalidSegsOf (tokens : StrSet) (segments : list jsstring)
  : list jsstring :=
  filter (fun s => negb (setHas tokens (toUpperCase s))) (sliceInit segments).

Definition fileNameErrors (tokens : StrSet) (segments : list jsstring)
  : list jsstring :=
  let last := List.last segments [] in
  let is6 := testSixDigits last in
  let invalidSegs := invalidSegsOf tokens segments in
  let errors1 :=
      if is6 then []
      else [lit "The sequence segment '" ++ last
            ++ lit "' must be exactly 6 digits."] in
  if 0 <? length invalidSegs
  then errors1 ++ [lit "Segments [" ++ join (lit ", ") invalidSegs
                   ++ lit "] are wrong (not found in project rules)."]
  else errors1.

(** The reducer of the file-name check. *)
Definition fileNameRow (tokens : StrSet) (headers : list jsstring)
           (h : jsstring) (acc : list ValidationResultItem) (row : object)
  : list ValidationResultItem :=
  let originalVal := cellOr row h in
  if isEmpty originalVal then acc
  else
    let valWithoutExt := stripExtension originalVal in
    let segments := segmentsOf valWithoutExt in
    let errors := fileNameErrors tokens segments in
    let ok := Nat.eqb (length errors) 0 in
    let reason :=
        if ok then lit "Valid: Matches all project naming rules."
        else lit "Invalid: " ++ join (lit " ") errors in
    acc ++ [{| originalRecord := createRowRecord headers row h;
               status := if ok then Valid else Invalid;
               reasoning := reason;
               invalidValue := if ok then None else Some originalVal |}].

Definition isFileNameHeader (h : jsstring) : bool :=
  arrayIncludes idHeaderNames (trim (toLowerCase h)).

(** The result stored in [newResults.fileName]; [None] when no header is
    found, the entry then keeps its former value. *)
Definition fileNameCheck (tokens : StrSet) (excelData : list object)
  : option (list ValidationResultItem) :=
  let headers := headersOf excelData in
  match findTruthy isFileNameHeader headers with
  | Some h => Some (fold_left (fileNameRow tokens headers h) excelData [])
  | None => None
  end.

(** ** 2. Units *)

(** [sourceText.toLowerCase().split(k).length - 1] *)
Definition keywordCount (sourceText k : jsstring) : nat :=
  length (split k (toLowerCase sourceText)) - 1.

(** [ks.reduce((acc, k) => acc + ..., 0)] *)
Definition keywordScore (sourceText : jsstring) (ks : list jsstring) : nat :=
  fold_left (fun acc k => acc + keywordCount sourceText k) ks 0.

Definition metricKeywords : list jsstring :=
  [lit "metric"; lit "millimeter"; lit "meter"].
Definition imperialKeywords : list jsstring :=
  [lit "imperial"; lit "inch"; lit "feet"].

Definition metricScore (sourceText : jsstring) : nat :=
  keywordScore sourceText metricKeywords.
Definition imperialScore (sourceText : jsstring) : nat :=
  keywordScore sourceText imperialKeywords.

Definition projectUnitStandard (sourceText : jsstring) : jsstring :=
  if imperialScore sourceText <=? metricScore sourceText
  then lit "Metric" else lit "Imperial".

Definition unitsRow (standard : jsstring) (headers : list jsstring)
           (h : jsstring) (acc : list ValidationResultItem) (row : object)
  : list ValidationResultItem :=
  let val := cellOr row h in
  if isEmpty val then acc
  else
    let ok := includes (toLowerCase val) (toLowerCase standard) in
    acc ++ [{| originalRecord := createRowRecord headers row h;
               status := if ok then Valid else Invalid;
               reasoning :=
                 if ok
                 then lit "Valid: Matches the document's " ++ standard
                      ++ lit " standard."
                 else lit "Item is wrong: Expected " ++ standard
                      ++ lit " but found '" ++ val ++ lit "'.";
               invalidValue := None |}].

Record UnitsSummary : Type := {
  standardFromDocument : jsstring;
  metricCount : nat;
  imperialCount : nat;
  otherCount : nat;
  totalCount : nat;
  summaryReasoning : jsstring
}.

Record ProjectUnitsCheckResult : Type := {
  summary : UnitsSummary;
  details : list ValidationResultItem
}.

Definition isUnitsHeader (h : jsstring) : bool :=
  eqb (trim (toLowerCase h)) (lit "project units").

Definition projectUnitsCheck (sourceText : jsstring) (excelData : list object)
  : option ProjectUnitsCheckResult :=
  let headers := headersOf excelData in
  let standard := projectUnitStandard sourceText in
  match findTruthy isUnitsHeader headers with
  | Some h =>
    let details := fold_left (unitsRow standard headers h) excelData [] in
    Some {| summary := {| standardFromDocument := standard;
                          metricCount := 0; imperialCount := 0;
                          otherCount := 0;
                          totalCount := length details;
                          summaryReasoning := [] |};
            details := details |}
  | None => None
  end.

(** ** 4. RVT Link *)

Definition nonEmptyCell (h : jsstring) (r : object) : bool :=
  negb (isEmpty (cellNullish r h)).

Definition rvtSynthetic : ValidationResultItem :=
  {| originalRecord := [(lit "Check", VString (lit "RVT Link"))];
     status := Valid;
     reasoning := lit "Valid: There is no link in the Model.";
     invalidValue := None |}.

Definition rvtRow (headers : list jsstring) (h : jsstring) (r : object)
  : ValidationResultItem :=
  let isPinned := eqb (toLowerCase (toString (prop r h))) (lit "true") in
  {| originalRecord := createRowRecord headers r h;
     status := if isPinned then Valid else Invalid;
     reasoning :=
       if isPinned then lit "Valid: The linked model is correctly pinned."
       else lit "Item is wrong: Linked models must be pinned to prevent accidental movement.";
     invalidValue := None |}.

Definition rvtLinkPinnedFor (headers : list jsstring) (h : jsstring)
           (excelData : list object) : list ValidationResultItem :=
  let rows := filter (nonEmptyCell h) excelData in
  if Nat.eqb (length rows) 0 then [rvtSynthetic]
  else map (rvtRow headers h) rows.

Definition isRvtHeader (h : jsstring) : bool :=
  eqb (trim (toLowerCase h)) (lit "rvt link is pinned").

Definition rvtLinkPinnedCheck (excelData : list object)
  : option (list ValidationResultItem) :=
  let headers := headersOf excelData in
  match findTruthy isRvtHeader headers with
  | Some h => Some (rvtLinkPinnedFor headers h excelData)
  | None => None
  end.

(** ** 5. Navisworks *)

Definition navisworksSynthetic : ValidationResultItem :=
  {| originalRecord := [(lit "Check", VString (lit "Navisworks View"))];
     status := Invalid;
     reasoning := lit "Item not found: No Navisworks view found in the Model.";
     invalidValue := None |}.

Definition navisworksRow (headers : list jsstring) (h : jsstring) (r : object)
  : ValidationResultItem :=
  let hasKeyword :=
      includes (toLowerCase (toString (prop r h))) (lit "navisworks") in
  {| originalRecord := createRowRecord headers r h;
     status := if hasKeyword then Valid else Invalid;
     reasoning :=
       if hasKeyword then lit "Valid: View name includes the mandatory keyword."
       else lit "Item is wrong: View name must include 'Navisworks' keyword.";
     invalidValue := None |}.

Definition navisworksFor (headers : list jsstring) (h : jsstring)
           (excelData : list object) : list ValidationResultItem :=
  let rows := filter (nonEmptyCell h) excelData in
  if Nat.eqb (length rows) 0 then [navisworksSynthetic]
  else map (navisworksRow headers h) rows.

Definition isNavisworksHeader (h : jsstring) : bool :=
  eqb (trim (toLowerCase h)) (lit "navisworks view name").

Definition navisworksViewNameCheck (excelData : list object)
  : option (list ValidationResultItem) :=
  let headers := headersOf excelData in
  match findTruthy isNavisworksHeader headers with
  | Some h => Some (navisworksFor headers h excelData)
  | None => None
  end.

(** ** 7. Levels/Grids: the pinned flag of a [category/flag] cell *)

(** [pin === 'true' || pin === 'yes'] on the second part of
    [val.split('/').map(s => s.trim().toLowerCase())] *)
Definition levelsGridsIsPinned (val : jsstring) : bool :=
  match map (fun s => toLowerCase (trim s)) (split (lit "/") val) with
  | _ :: pin :: _ => eqb pin (lit "true") || eqb pin (lit "yes")
  | _ => false
  end.

End HandleAnalysis.
End Qaqc.

(* ================================================================== *)
(** * The MIDP page: ingestion of a manifest and [handleCompare] *)
(* ================================================================== *)

Module Midp.
Import JS.

Inductive ComparisonStatus : Type :=
| matched | missing_in_acc | extra_in_acc | count_mismatch.

(** [Array.prototype.sort] with a comparator that returns a number: a
    stable sort.  For a comparator that is a consistent order the result is
    the one of any stable sort; insertion sort is used here. *)
Fixpoint insertBy (A : Type) (cmp : A -> A -> Z) (x : A) (l : list A)
  : list A :=
  match l with
  | [] => [x]
  | y :: t => if (cmp x y <=? 0)%Z then x :: l else y :: insertBy cmp x t
  end.

Definition sortBy (A : Type) (cmp : A -> A -> Z) (l : list A) : list A :=
  fold_right (insertBy cmp) [] l.

Section Page.
Context {RT : Runtime}.

Record FileDataItem : Type := {
  originalCase : jsstring;
  formatCounts : StrMap nat;
  milestones : StrSet
}.

Definition FileDataMap := StrMap FileDataItem.

Record MIDPComparisonResultItem : Type := {
  baseName : jsstring;
  format : jsstring;
  status : ComparisonStatus;
  midpCount : nat;
  accCount : nat;
  resultMilestones : StrSet
}.

(** ** [handleFileChange]: the scan of the cleaned rows *)

Definition falseValues : list jsstring :=
  [lit "no"; lit "false"; lit "n/a"; lit "-"; lit "0"; lit "nan"; []].

(** [s.replace(/^\./, '')] *)
Definition stripLeadingDot (s : jsstring) : jsstring :=
  match s with
  | c :: t => if N.eqb c 46 then t else s
  | [] => []
  end.

(** The milestones of one row; [msHeaders] is the map
    [actualMilestoneHeaders] from a milestone to the header found for it. *)
Definition rowMilestonesOf (msHeaders : StrMap jsstring) (row : object)
  : StrSet :=
  fold_left
    (fun acc kh =>
       let s := toLowerCase (trim (toString (nullishEmpty (prop row (snd kh))))) in
       if existsb (eqb s) falseValues then acc else setAdd acc (fst kh))
    msHeaders [].

(** [String(row[actualFormatHeader] || '').trim().replace(/^\./, '').toLowerCase()] *)
Definition extensionOf (fmtH : jsstring) (row : object) : jsstring :=
  toLowerCase (stripLeadingDot (trim (toString (orEmpty (prop row fmtH))))).

(** [String(row[actualNameHeader]).trim()] *)
Definition baseNameOf (nameH : jsstring) (row : object) : jsstring :=
  trim (toString (prop row nameH)).

Definition setMilestones (item : FileDataItem) (ms : StrSet) : FileDataItem :=
  {| originalCase := originalCase item;
     formatCounts := formatCounts item;
     milestones := ms |}.

Definition setFormatCounts (item : FileDataItem) (fc : StrMap nat)
  : FileDataItem :=
  {| originalCase := originalCase item;
     formatCounts := fc;
     milestones := milestones item |}.

(** The first half of the body: the entry of the base name is created, or
    the row's milestones are added to the entry that is there. *)
Definition touchBaseName (columnData : FileDataMap)
           (lowerCaseBaseName originalBaseName : jsstring)
           (rowMilestones : StrSet) : FileDataMap :=
  match mapGet columnData lowerCaseBaseName with
  | None =>
    mapSet columnData lowerCaseBaseName
           {| originalCase := originalBaseName;
              formatCounts := [];
              milestones := rowMilestones |}
  | Some item =>
    mapSet columnData lowerCaseBaseName
           (setMilestones item (fold_left setAdd rowMilestones (milestones item)))
  end.

(** The second half: [if (extension) { ... currentCount + 1 }] *)
Definition countFormat (columnData : FileDataMap)
           (lowerCaseBaseName extension : jsstring) : FileDataMap :=
  if isEmpty extension then columnData
  else
    match mapGet columnData lowerCaseBaseName with
    | Some item =>
      let currentCount :=
          match mapGet (formatCounts item) extension with
          | Some n => n
          | None => 0
          end in
      mapSet columnData lowerCaseBaseName
             (setFormatCounts item
                (mapSet (formatCounts item) extension (currentCount + 1)))
    | None => columnData
    end.

(** The body of [cleanedJson.forEach]; the state is [columnData] and
    [totalRows]. *)
Definition ingestRow (nameH fmtH : jsstring) (msHeaders : StrMap jsstring)
           (st : FileDataMap * nat) (row : object) : FileDataMap * nat :=
  let originalBaseName := baseNameOf nameH row in
  if isEmpty originalBaseName then st
  else
    let extension := extensionOf fmtH row in
    let lowerCaseBaseName := toLowerCase originalBaseName in
    let rowMilestones := rowMilestonesOf msHeaders row in
    let cd1 := touchBaseName (fst st) lowerCaseBaseName originalBaseName
                             rowMilestones in
    (countFormat cd1 lowerCaseBaseName extension, S (snd st)).

Definition ingest (nameH fmtH : jsstring) (msHeaders : StrMap jsstring)
           (cleanedJson : list object) : FileDataMap * nat :=
  fold_left (ingestRow nameH fmtH msHeaders) cleanedJson ([], 0).

(** The [data] field of the upload result. *)
Definition columnDataOf (nameH fmtH : jsstring) (msHeaders : StrMap jsstring)
           (cleanedJson : list object) : FileDataMap :=
  fst (ingest nameH fmtH msHeaders cleanedJson).

(** ** [handleCompare] *)

Definition classify (midpCount accCount : nat) : ComparisonStatus :=
  if (0 <? midpCount) && (accCount =? 0) then missing_in_acc
  else if (midpCount =? 0) && (0 <? accCount) then extra_in_acc
  else if negb (midpCount =? accCount) then count_mismatch
  else matched.

(** [new Set([...xs])] *)
Definition setOfList (xs : list jsstring) : StrSet := fold_left setAdd xs [].

Definition allBaseNames (midpMap accMap : FileDataMap) : StrSet :=
  setOfList (mapKeys midpMap ++ mapKeys accMap).

(** [item?.formatCounts.get(format) || 0] *)
Definition countOf (item : option FileDataItem) (format : jsstring) : nat :=
  match item with
  | Some i => match mapGet (formatCounts i) format with
              | Some n => n
              | None => 0
              end
  | None => 0
  end.

Definition formatsOf (item : option FileDataItem) : list jsstring :=
  match item with
  | Some i => mapKeys (formatCounts i)
  | None => []
  end.

Definition milestonesOf (item : option FileDataItem) : list jsstring :=
  match item with
  | Some i => milestones i
  | None => []
  end.

Definition allFormatsForThisBase (midpItem accItem : option FileDataItem)
  : StrSet :=
  fold_left setAdd (formatsOf accItem) (fold_left setAdd (formatsOf midpItem) []).

(** [midpItem?.originalCase || accItem?.originalCase || lowerBaseName] *)
Definition originalNameOf (midpItem accItem : option FileDataItem)
           (lowerBaseName : jsstring) : jsstring :=
  let pick (item : option FileDataItem) (other : jsstring) :=
      match item with
      | Some i => if isEmpty (originalCase i) then other else originalCase i
      | None => other
      end in
  pick midpItem (pick accItem lowerBaseName).

Definition resultFor (midpMap accMap : FileDataMap)
           (lowerBaseName format : jsstring) : MIDPComparisonResultItem :=
  let midpItem := mapGet midpMap lowerBaseName in
  let accItem := mapGet accMap lowerBaseName in
  let combinedMilestones :=
      fold_left setAdd (milestonesOf accItem)
                (fold_left setAdd (milestonesOf midpItem) []) in
  let mc := countOf midpItem format in
  let ac := countOf accItem format in
  {| baseName := originalNameOf midpItem accItem lowerBaseName;
     format := toUpperCase format;
     status := classify mc ac;
     midpCount := mc;
     accCount := ac;
     resultMilestones := combinedMilestones |}.

(** The (base name, format) pairs in the order the two loops visit them. *)
Definition visitedPairs (midpMap accMap : FileDataMap)
  : list (jsstring * jsstring) :=
  flat_map
    (fun lowerBaseName =>
       map (fun format => (lowerBaseName, format))
           (allFormatsForThisBase (mapGet midpMap lowerBaseName)
                                  (mapGet accMap lowerBaseName)))
    (allBaseNames midpMap accMap).

(** The array [results] before it is sorted: one push per visited pair. *)
Definition unsortedResults (midpMap accMap : FileDataMap)
  : list MIDPComparisonResultItem :=
  map (fun p => resultFor midpMap accMap (fst p) (snd p))
      (visitedPairs midpMap accMap).

(** [a.baseName.localeCompare(b.baseName) || a.format.localeCompare(b.format)] *)
Definition compareResults (a b : MIDPComparisonResultItem) : Z :=
  let c := localeCompare (baseName a) (baseName b) in
  if (c =? 0)%Z then localeCompare (format a) (format b) else c.

Definition handleCompare (midpMap accMap : FileDataMap)
  : list MIDPComparisonResultItem :=
  sortBy compareResults (unsortedResults midpMap accMap).

End Page.
End Midp.

(* ================================================================== *)
(** * The parameter page: the compliance part of [handleAnalyze] *)
(* ================================================================== *)

Module Loin.
Import JS.

Section Page.
Context {RT : Runtime}.

Record ComplianceResult : Type := {
  matched : list jsstring;
  missing : list jsstring;
  extra : list jsstring;
  complianceScore : float
}.

Definition excludedColumns : list jsstring :=
  [lit "category name"; lit "element id"; lit "source file"; lit "file name"].

Definition notExcluded (h : jsstring) : bool :=
  negb (existsb (eqb (toLowerCase h)) excludedColumns).

(** [allHeaders.filter(h => !excludedColumns.includes(h.toLowerCase()))] *)
Definition analyzableHeadersOf (allHeaders : list jsstring) : list jsstring :=
  filter notExcluded allHeaders.

(** The required parameters read from the rows of the standard: the values
    of the column [LOIN Parameter] when there is one, else the headers. *)
Definition standardParamsOf (standardData : list object) : list jsstring :=
  let loinHeaders := match standardData with
                     | row :: _ => keys row
                     | [] => []
                     end in
  match findTruthy (fun h => eqb (toLowerCase (trim h)) (lit "loin parameter"))
                   loinHeaders with
  | Some loinParamHeader =>
    fold_left
      (fun paramSet row =>
         let val := trim (toString (orEmpty (prop row loinParamHeader))) in
         if isEmpty val then paramSet else setAdd paramSet val)
      standardData []
  | None => filter notExcluded loinHeaders
  end.

Definition normalize (s : jsstring) : jsstring := trim s.

(** The length of an array as a double (lengths are below 2^32, where the
    conversion is exact). *)
Definition ofLength (n : nat) : float :=
  PrimFloat.of_uint63 (Uint63.of_Z (Z.of_nat n)).

(** [totalExpected > 0 ? (matched.length / totalExpected) * 100
                       : (matched.length > 0 ? 100 : 0)] *)
Definition scoreOf (matchedLength totalExpected : nat) : float :=
  if 0 <? totalExpected
  then PrimFloat.mul (PrimFloat.div (ofLength matchedLength)
                                    (ofLength totalExpected))
                     (ofLength 100)
  else if 0 <? matchedLength then ofLength 100 else ofLength 0.

(** [arr.sort((a, b) => a.localeCompare(b))] *)
Definition sortNames (xs : list jsstring) : list jsstring :=
  Midp.sortBy localeCompare xs.

Definition matchedOf (dataHeaderSet : StrSet) (standardParams : list jsstring)
  : list jsstring :=
  fold_left (fun acc stdP =>
               if setHas dataHeaderSet (normalize stdP) then acc ++ [stdP]
               else acc)
            standardParams [].

Definition missingOf (dataHeaderSet : StrSet) (standardParams : list jsstring)
  : list jsstring :=
  fold_left (fun acc stdP =>
               if setHas dataHeaderSet (normalize stdP) then acc
               else acc ++ [stdP])
            standardParams [].

Definition extraOf (standardParamSet : StrSet)
           (analyzableHeaders : list jsstring) : list jsstring :=
  fold_left (fun acc dataP =>
               if setHas standardParamSet (normalize dataP) then acc
               else acc ++ [dataP])
            analyzableHeaders [].

Definition compliance (standardParams analyzableHeaders : list jsstring)
  : ComplianceResult :=
  let dataHeaderSet :=
      fold_left (fun s h => setAdd s (normalize h)) analyzableHeaders [] in
  let standardParamSet :=
      fold_left (fun s p => setAdd s (normalize p)) standardParams [] in
  let matched := matchedOf dataHeaderSet standardParams in
  let missing := missingOf dataHeaderSet standardParams in
  let extra := extraOf standardParamSet analyzableHeaders in
  let totalExpected := length standardParams in
  {| matched := sortNames matched;
     missing := sortNames missing;
     extra := sortNames extra;
     complianceScore := scoreOf (length matched) totalExpected |}.

End Page.
End Loin.

(* ================================================================== *)
(** * A runtime for closed examples *)
(* ================================================================== *)

Module BasicLatin.
Import JS.

Definition upperUnit (c : N) : N :=
  if inRange 97 122 c then (c - 32)%N else c.
Definition lowerUnit (c : N) : N :=
  if inRange 65 90 c then (c + 32)%N else c.

(** Comparison by code units. *)
Fixpoint compareUnits (a b : jsstring) : Z :=
  match a, b with
  | [], [] => 0
  | [], _ :: _ => -1
  | _ :: _, [] => 1
  | x :: a', y :: b' =>
    match N.compare x y with
    | Lt => -1
    | Gt => 1
    | Eq => compareUnits a' b'
    end
  end.

(** Integers as the numbers, printed in decimal; the case mappings on
    the Basic Latin letters, where they agree with those of Unicode. *)
Definition runtime : Runtime :=
  {| number := Z;
     numberToString := fun z => lit (NilZero.string_of_int (Z.to_int z));
     numberToBoolean := fun z => negb (Z.eqb z 0);
     toUpperCase := map upperUnit;
     toLowerCase := map lowerUnit;
     localeCompare := compareUnits |}.

End BasicLatin.

(* ================================================================== *)
(** * Data for closed examples *)
(* ================================================================== *)

Module Examples.
Import JS.

Definition corpus : jsstring :=
  lit "Naming: ARCH-L01-001 (Rev A). All dimensions in millimeter; metric units, not inch.".

Definition sheet : list (@object BasicLatin.runtime) :=
  [ [(lit "FileName", VString (lit "ARCH-L01-000123.pdf"));
     (lit "Project Units", VString (lit " Metric (mm) "));
     (lit "RVT link is pinned", VString []);
     (lit "Navisworks View Name", VString (lit "  "))];
    [(lit "FileName", VString (lit "XYZ-99.pdf"));
     (lit "Project Units", VString (lit "Imperial"));
     (lit "RVT link is pinned", VNull);
     (lit "Navisworks View Name", VString [])];
    [(lit "FileName", VString []);
     (lit "Project Units", @VNumber BasicLatin.runtime 0%Z);
     (lit "RVT link is pinned", VString (lit " "));
     (lit "Navisworks View Name", VUndefined)] ].

(** A sheet whose one row holds the number zero as its file name. *)
Definition zeroSheet : list (@object BasicLatin.runtime) :=
  [ [(lit "FileName", @VNumber BasicLatin.runtime 0%Z)] ].

(** A sheet whose one row holds [true] followed by a space. *)
Definition pinnedSheet : list (@object BasicLatin.runtime) :=
  [ [(lit "RVT link is pinned", VString (lit "true "))] ].

(** Two manifests: the required one (MIDP) and the actual one (ACC). *)
Definition nameHeader : jsstring := lit "Model Name".
Definition formatHeader : jsstring := lit "Format".
Definition milestoneHeaders : StrMap jsstring :=
  [(lit "50% CONCEPT DESIGN", lit "50% Concept Design")].

Definition manifestRow (name fmt milestone : string)
  : @object BasicLatin.runtime :=
  [(lit "Model Name", VString (lit name));
   (lit "Format", VString (lit fmt));
   (lit "50% Concept Design", VString (lit milestone))].

Definition midpRows : list (@object BasicLatin.runtime) :=
  [manifestRow "ARCH-L01" "RVT" "Yes";
   manifestRow "arch-l01" ".rvt" EmptyString;
   manifestRow "STR-B1" "IFC" "no";
   manifestRow "CIV-01" "dwg" "x";
   manifestRow "MEP-X" EmptyString "Yes"].

Definition accRows : list (@object BasicLatin.runtime) :=
  [manifestRow "Arch-L01" "rvt" EmptyString;
   manifestRow "Arch-L01" "pdf" EmptyString;
   manifestRow "STR-B1" "ifc" EmptyString;
   manifestRow "MEP-X" " " EmptyString].

Definition midpMap : Midp.FileDataMap :=
  Midp.columnDataOf nameHeader formatHeader milestoneHeaders midpRows.
Definition accMap : Midp.FileDataMap :=
  Midp.columnDataOf nameHeader formatHeader [] accRows.

(** The comparison of the models ARCH-L01 in the format rvt. *)
Definition archRvt : Midp.MIDPComparisonResultItem :=
  Midp.resultFor (RT := BasicLatin.runtime) midpMap accMap
                 (lit "arch-l01") (lit "rvt").

End Examples.

(* ================================================================== *)
(** * The sheet as the pages read it *)
(* ================================================================== *)

Module Sheet.
Import JS.

(** The number that a string of decimal digits writes. *)
Definition digitsValue (s : jsstring) : N :=
  fold_left (fun acc c => (acc * 10 + (c - 48))%N) s 0%N.

(** An array index: the canonical decimal writing, without a sign and
    without a leading zero, of an integer from 0 to 2^32 - 2. *)
Definition arrayIndex (key : jsstring) : option N :=
  match key with
  | [] => None
  | c :: t =>
    if forallb isDigit key && (negb (N.eqb c 48) || isEmpty t)
       && (digitsValue key <=? 4294967294)%N
    then Some (digitsValue key)
    else None
  end.

Section Clean.
Context {RT : Runtime}.

(** [o[key] = v] on an ordinary object.  The value of a key that is
    there is replaced where it stands.  A new key that is an array index is
    put among the array indices, in ascending order, before the other keys;
    any other new key is put last. *)
Fixpoint insertIndexed (n : N) (key : jsstring) (v : value) (o : object)
  : object :=
  match o with
  | [] => [(key, v)]
  | (k', v') :: rest =>
    match arrayIndex k' with
    | Some m => if (n <? m)%N then (key, v) :: o
                else (k', v') :: insertIndexed n key v rest
    | None => (key, v) :: o
    end
  end.

Definition assign (o : object) (key : jsstring) (v : value) : object :=
  match arrayIndex key with
  | Some n => if mapHas o key then mapSet o key v else insertIndexed n key v o
  | None => mapSet o key v
  end.

(** The cleaning of one parsed row:
    [for (const key in row)
       cleanedRow[cleanText(key)] =
         typeof row[key] === 'string' ? cleanText(row[key]) : row[key]]
    The loop visits the cells in the order of the list. *)
Definition cleanRow (row : object) : object :=
  fold_left
    (fun cleanedRow kv =>
       assign cleanedRow (Text.removeCcCf (fst kv))
              (match snd kv with
               | VString s => Text.cleanText (VString s)
               | v => v
               end))
    row [].

(** [json.map(row => ...)] *)
Definition cleanRows (json : list object) : list object := map cleanRow json.

End Clean.
End Sheet.

(* ================================================================== *)
(** * The QA/QC page: the other checks, [handleAnalysis], [summaryData] *)
(* ================================================================== *)

Module QaqcPage.
Import JS.
Import Qaqc.

(** The check boxes of the page. *)
Module Selected.
Record t : Type := {
  fileName : bool;
  projectUnits : bool;
  surveyPoint : bool;
  projectBasePoint : bool;
  rvtLinkPinned : bool;
  revitLinksPath : bool;
  importedCad : bool;
  levelsGridsPinned : bool;
  categoryWorksetName : bool;
  startingViewName : bool;
  navisworksViewName : bool;
  viewsNotInSheets : bool
}.
End Selected.

(** The titles of the summary, constants of the application. *)
Module Titles.
Record t : Type := {
  qaqcFileName : jsstring;
  qaqcProjectUnits : jsstring;
  qaqcSurveyPoint : jsstring;
  qaqcProjectBasePoint : jsstring;
  qaqcRvtLinkPinned : jsstring;
  qaqcRevitLinksPath : jsstring;
  qaqcCategoryWorksetName : jsstring;
  qaqcStartingViewName : jsstring;
  qaqcNavisworksViewName : jsstring;
  qaqcViewsNotInSheets : jsstring;
  qaqcImportedCad : jsstring
}.
End Titles.

Section Page.
Context {RT : Runtime}.

Record LevelsGridsPinnedResult : Type := {
  levels : list ValidationResultItem;
  grids : list ValidationResultItem
}.

Record QaqcResults : Type := {
  fileName : option (list ValidationResultItem);
  projectUnits : option ProjectUnitsCheckResult;
  surveyPoint : option (list ValidationResultItem);
  projectBasePoint : option (list ValidationResultItem);
  rvtLinkPinned : option (list ValidationResultItem);
  revitLinksPath : option (list ValidationResultItem);
  importedCad : option (list ValidationResultItem);
  levelsGridsPinned : option LevelsGridsPinnedResult;
  categoryWorksetName : option (list ValidationResultItem);
  startingViewName : option (list ValidationResultItem);
  navisworksViewName : option (list ValidationResultItem);
  viewsNotInSheets : option (list ValidationResultItem)
}.

(** The state [results] before the first analysis. *)
Definition noResults : QaqcResults :=
  {| fileName := None; projectUnits := None; surveyPoint := None;
     projectBasePoint := None; rvtLinkPinned := None; revitLinksPath := None;
     importedCad := None; levelsGridsPinned := None;
     categoryWorksetName := None; startingViewName := None;
     navisworksViewName := None; viewsNotInSheets := None |}.

(** ** 3. Points *)

Definition pointRow (sourceText : jsstring) (headers : list jsstring)
           (h : jsstring) (r : object) : ValidationResultItem :=
  let val := toString (prop r h) in
  let ok := includes sourceText val in
  {| originalRecord := createRowRecord headers r h;
     status := if ok then Valid else Invalid;
     reasoning :=
       if ok then lit "Valid: Coordinates found in source document."
       else lit "Item not found: Coordinates '" ++ val
            ++ lit "' were not identified in the PDF rules.";
     invalidValue := None |}.

(** [excelData.filter(r => String(r[h] || '').trim())] *)
Definition rowsWithCell (h : jsstring) (excelData : list object)
  : list object :=
  filter (fun r => negb (isEmpty (cellOr r h))) excelData.

(** [excelData.filter(r => String(r[h] ?? '').trim())] *)
Definition rowsWithNullishCell (h : jsstring) (excelData : list object)
  : list object :=
  filter (nonEmptyCell h) excelData.

Definition checkPoints (sourceText : jsstring) (names : list jsstring)
           (excelData : list object) : option (list ValidationResultItem) :=
  let headers := headersOf excelData in
  match findTruthy (fun h => arrayIncludes names (trim (toLowerCase h)))
                   headers with
  | Some h => Some (map (pointRow sourceText headers h)
                        (rowsWithCell h excelData))
  | None => None
  end.

Definition surveyPointNames : list jsstring := [lit "survey point"; lit "sp"].
Definition projectBasePointNames : list jsstring :=
  [lit "project base point"; lit "pbp"].

(** ** 6. Starting View *)

Definition startingViewRow (sourceText : jsstring) (headers : list jsstring)
           (h : jsstring) (r : object) : ValidationResultItem :=
  let viewName := toString (prop r h) in
  let ok := includes (toLowerCase sourceText) (toLowerCase viewName) in
  {| originalRecord := createRowRecord headers r h;
     status := if ok then Valid else Invalid;
     reasoning :=
       if ok then lit "Valid: Starting view name found in project standard."
       else lit "Item not found: View '" ++ viewName
            ++ lit "' is not defined in the project standard.";
     invalidValue := None |}.

Definition startingViewNameCheck (sourceText : jsstring)
           (excelData : list object) : option (list ValidationResultItem) :=
  let headers := headersOf excelData in
  match findTruthy (fun h => includes (trim (toLowerCase h))
                                      (lit "starting view"))
                   headers with
  | Some h => Some (map (startingViewRow sourceText headers h)
                        (rowsWithCell h excelData))
  | None => None
  end.

(** ** 7. Levels/Grids *)

(** The body of [excelData.forEach]; the state is the two arrays. *)
Definition levelsGridsRow (h : jsstring)
           (st : list ValidationResultItem * list ValidationResultItem)
           (row : object)
  : list ValidationResultItem * list ValidationResultItem :=
  let val := cellOr row h in
  if includes val (lit "/") then
    match map (fun s => toLowerCase (trim s)) (split (lit "/") val) with
    | cat :: pin :: _ =>
      let isPinned := eqb pin (lit "true") || eqb pin (lit "yes") in
      let res :=
          {| originalRecord := [(h, VString val)];
             status := if isPinned then Valid else Invalid;
             reasoning :=
               if isPinned then lit "Valid: " ++ cat ++ lit " is pinned."
               else lit "Item is wrong: " ++ cat ++ lit " must be pinned.";
             invalidValue := None |} in
      if includes cat (lit "level") then (fst st ++ [res], snd st)
      else if includes cat (lit "grid") then (fst st, snd st ++ [res])
      else st
    | _ => st
    end
  else st.

Definition levelsGridsPinnedCheck (excelData : list object)
  : option LevelsGridsPinnedResult :=
  let headers := headersOf excelData in
  match findTruthy (fun h => eqb (trim (toLowerCase h))
                                 (lit "levels-grids / element is pinned"))
                   headers with
  | Some h =>
    let st := fold_left (levelsGridsRow h) excelData ([], []) in
    Some {| levels := fst st; grids := snd st |}
  | None => None
  end.

(** ** 8. Revit Links Path *)

Definition revitLinksPathRow (headers : list jsstring) (h : jsstring)
           (r : object) : ValidationResultItem :=
  let path := toString (prop r h) in
  let ok := includes path (lit "ACCDocs") in
  {| originalRecord := createRowRecord headers r h;
     status := if ok then Valid else Invalid;
     reasoning :=
       if ok then lit "Valid: Path utilizes ACCDocs cloud storage."
       else lit "Item is wrong: Path '" ++ path ++ lit "' must use ACCDocs.";
     invalidValue := None |}.

Definition revitLinksPathCheck (excelData : list object)
  : option (list ValidationResultItem) :=
  let headers := headersOf excelData in
  match findTruthy (fun h => eqb (trim (toLowerCase h))
                                 (lit "revit links path")) headers with
  | Some h => Some (map (revitLinksPathRow headers h)
                        (rowsWithNullishCell h excelData))
  | None => None
  end.

(** ** 9. Imported CAD *)

Definition importedCadRow (headers : list jsstring) (h : jsstring)
           (r : object) : ValidationResultItem :=
  {| originalRecord := createRowRecord headers r h;
     status := Invalid;
     reasoning :=
       lit "Item is wrong: Imported CAD file found. CAD must be linked.";
     invalidValue := None |}.

Definition importedCadCheck (excelData : list object)
  : option (list ValidationResultItem) :=
  let headers := headersOf excelData in
  match findTruthy (fun h => eqb (trim (toLowerCase h)) (lit "imported cad"))
                   headers with
  | Some h => Some (map (importedCadRow headers h)
                        (rowsWithNullishCell h excelData))
  | None => None
  end.

(** ** 10. Workset Name *)

Definition worksetRow (sourceText : jsstring) (headers : list jsstring)
           (h : jsstring) (r : object) : ValidationResultItem :=
  let wsName := toString (prop r h) in
  let ok := includes (toLowerCase sourceText) (toLowerCase wsName) in
  {| originalRecord := createRowRecord headers r h;
     status := if ok then Valid else Invalid;
     reasoning :=
       if ok then lit "Valid: Workset name found in rules."
       else lit "Item not found: Workset '" ++ wsName
            ++ lit "' not authorized in rules.";
     invalidValue := None |}.

Definition categoryWorksetNameCheck (sourceText : jsstring)
           (excelData : list object) : option (list ValidationResultItem) :=
  let headers := headersOf excelData in
  match findTruthy (fun h => includes (trim (toLowerCase h))
                                      (lit "workset name")) headers with
  | Some h => Some (map (worksetRow sourceText headers h)
                        (rowsWithCell h excelData))
  | None => None
  end.

(** ** 11. Unplaced Views *)

Definition viewsNotInSheetsRow (headers : list jsstring) (h : jsstring)
           (r : object) : ValidationResultItem :=
  {| originalRecord := createRowRecord headers r h;
     status := Invalid;
     reasoning :=
       lit "Item is wrong: This view is not placed on any drawing sheet.";
     invalidValue := None |}.

Definition viewsNotInSheetsCheck (excelData : list object)
  : option (list ValidationResultItem) :=
  let headers := headersOf excelData in
  match findTruthy
          (fun h => arrayIncludes [lit "views not in sheets";
                                   lit "views not in sheet"]
                                  (trim (toLowerCase h))) headers with
  | Some h => Some (map (viewsNotInSheetsRow headers h)
                        (rowsWithNullishCell h excelData))
  | None => None
  end.

(** ** [handleAnalysis] *)

(** A check that is selected and finds its header writes its entry of
    [newResults]; otherwise the entry copied from [results] stays. *)
Definition runCheck (A : Type) (selected : bool) (check : option A)
           (previous : option A) : option A :=
  if selected
  then match check with
       | Some res => Some res
       | None => previous
       end
  else previous.

(** The new state [results]; it is the old one when the function returns
    before the analysis ([!sourceText || !excelData]). *)
Definition handleAnalysis (selectedChecks : Selected.t)
           (sourceText : option jsstring) (excelData : option (list object))
           (results : QaqcResults) : QaqcResults :=
  match sourceText, excelData with
  | Some text, Some data =>
    if isEmpty text then results
    else
      let tokens := pdfTokens text in
      {| fileName :=
           runCheck (Selected.fileName selectedChecks)
                    (fileNameCheck tokens data) (fileName results);
         projectUnits :=
           runCheck (Selected.projectUnits selectedChecks)
                    (projectUnitsCheck text data) (projectUnits results);
         surveyPoint :=
           runCheck (Selected.surveyPoint selectedChecks)
                    (checkPoints text surveyPointNames data)
                    (surveyPoint results);
         projectBasePoint :=
           runCheck (Selected.projectBasePoint selectedChecks)
                    (checkPoints text projectBasePointNames data)
                    (projectBasePoint results);
         rvtLinkPinned :=
           runCheck (Selected.rvtLinkPinned selectedChecks)
                    (rvtLinkPinnedCheck data) (rvtLinkPinned results);
         revitLinksPath :=
           runCheck (Selected.revitLinksPath selectedChecks)
                    (revitLinksPathCheck data) (revitLinksPath results);
         importedCad :=
           runCheck (Selected.importedCad selectedChecks)
                    (importedCadCheck data) (importedCad results);
         levelsGridsPinned :=
           runCheck (Selected.levelsGridsPinned selectedChecks)
                    (levelsGridsPinnedCheck data) (levelsGridsPinned results);
         categoryWorksetName :=
           runCheck (Selected.categoryWorksetName selectedChecks)
                    (categoryWorksetNameCheck text data)
                    (categoryWorksetName results);
         startingViewName :=
           runCheck (Selected.startingViewName selectedChecks)
                    (startingViewNameCheck text data)
                    (startingViewName results);
         navisworksViewName :=
           runCheck (Selected.navisworksViewName selectedChecks)
                    (navisworksViewNameCheck data)
                    (navisworksViewName results);
         viewsNotInSheets :=
           runCheck (Selected.viewsNotInSheets selectedChecks)
                    (viewsNotInSheetsCheck data) (viewsNotInSheets results) |}
  | _, _ => results
  end.

(** ** [summaryData] *)

Record SummaryDataItem : Type := {
  title : jsstring;
  percentage : float;
  passed : nat;
  total : nat;
  subtitle : option jsstring
}.

(** The strings of the type of [status]. *)
Definition statusText (s : Status) : jsstring :=
  match s with
  | Valid => lit "Valid"
  | Invalid => lit "Invalid"
  | NeedsReview => lit "Needs Review"
  end.

(** [res.filter(r => r.status.toLowerCase() === 'valid').length] *)
Definition passedOf (res : list ValidationResultItem) : nat :=
  length (filter (fun r => eqb (toLowerCase (statusText (status r)))
                               (lit "valid")) res).

(** [res.length > 0 ? (passed / res.length * 100) : 100] *)
Definition percentageOf (passed total : nat) : float :=
  if 0 <? total
  then PrimFloat.mul (PrimFloat.div (Loin.ofLength passed)
                                    (Loin.ofLength total))
                     (Loin.ofLength 100)
  else Loin.ofLength 100.

Definition pushCheck (data : list SummaryDataItem)
           (res : option (list ValidationResultItem)) (title : jsstring)
  : list SummaryDataItem :=
  match res with
  | Some res =>
    data ++ [{| title := title;
                percentage := percentageOf (passedOf res) (length res);
                passed := passedOf res;
                total := length res;
                subtitle := None |}]
  | None => data
  end.

(** A number of records in a template literal. *)
Definition countText (n : nat) : jsstring :=
  lit (NilZero.string_of_uint (Nat.to_uint n)).

(** The entry of a check where every record is a defect: 0 when there is
    one, 100 when there is none. *)
Definition pushDefects (data : list SummaryDataItem)
           (res : option (list ValidationResultItem))
           (title some none : jsstring) : list SummaryDataItem :=
  match res with
  | Some res =>
    data ++ [{| title := title;
                percentage := if 0 <? length res then Loin.ofLength 0
                              else Loin.ofLength 100;
                passed := 0;
                total := length res;
                subtitle := Some (if 0 <? length res
                                  then countText (length res) ++ some
                                  else none) |}]
  | None => data
  end.

Definition summaryData (titles : Titles.t) (results : QaqcResults)
  : list SummaryDataItem :=
  let data := pushCheck [] (fileName results) (Titles.qaqcFileName titles) in
  let data := match projectUnits results with
              | Some u => pushCheck data (Some (details u))
                                    (Titles.qaqcProjectUnits titles)
              | None => data
              end in
  let data := pushCheck data (surveyPoint results)
                        (Titles.qaqcSurveyPoint titles) in
  let data := pushCheck data (projectBasePoint results)
                        (Titles.qaqcProjectBasePoint titles) in
  let data := pushCheck data (rvtLinkPinned results)
                        (Titles.qaqcRvtLinkPinned titles) in
  let data := pushCheck data (revitLinksPath results)
                        (Titles.qaqcRevitLinksPath titles) in
  let data := pushCheck data (categoryWorksetName results)
                        (Titles.qaqcCategoryWorksetName titles) in
  let data := pushCheck data (startingViewName results)
                        (Titles.qaqcStartingViewName titles) in
  let data := pushCheck data (navisworksViewName results)
                        (Titles.qaqcNavisworksViewName titles) in
  let data := pushDefects data (viewsNotInSheets results)
                          (Titles.qaqcViewsNotInSheets titles)
                          (lit " unplaced views") (lit "All placed") in
  let data := pushDefects data (importedCad results)
                          (Titles.qaqcImportedCad titles)
                          (lit " CAD imports") (lit "None") in
  let data := match levelsGridsPinned results with
              | Some lg => if 0 <? length (levels lg)
                           then pushCheck data (Some (levels lg))
                                          (lit "Levels Pinned")
                           else data
              | None => data
              end in
  match levelsGridsPinned results with
  | Some lg => if 0 <? length (grids lg)
               then pushCheck data (Some (grids lg)) (lit "Grids Pinned")
               else data
  | None => data
  end.

End Page.
End QaqcPage.

(* ================================================================== *)
(** * The MIDP page: the upload of a manifest, the filters, the summary *)
(* ================================================================== *)

Module MidpPage.
Import JS.
Import Midp.

Section Page.
Context {RT : Runtime}.

(** ** [FileUploader]: the headers *)

Definition isLowerAlnum (c : N) : bool := inRange 97 122 c || inRange 48 57 c.

(** [s.toLowerCase().replace(/[^a-z0-9]/g, '')] *)
Definition normalize (s : jsstring) : jsstring :=
  filter isLowerAlnum (toLowerCase s).

(** [findHeader]: the names are tried in their order; for a name, the first
    header that is equal to it once both are normalized. *)
Fixpoint findHeader (headers possibleNames : list jsstring)
  : option jsstring :=
  match possibleNames with
  | [] => None
  | name :: rest =>
    match findTruthy (fun h => eqb (normalize h) (normalize name)) headers with
    | Some header => Some header
    | None => findHeader headers rest
    end
  end.

(** [mc.toLowerCase().replace(/[^a-z0-9\s]/g, '').split(/\s+/)
       .filter(p => p.length > 1)] *)
Definition significantParts (mc : jsstring) : list jsstring :=
  filter (fun p => 1 <? length p)
         (splitClass isWhiteSpace
                     (filter (fun c => isLowerAlnum c || isWhiteSpace c)
                             (toLowerCase mc))).

(** The header of a milestone: [findHeader([mc])], else the first header
    that contains every significant part of the name. *)
Definition milestoneHeader (headers : list jsstring) (mc : jsstring)
  : option jsstring :=
  match findHeader headers [mc] with
  | Some header => Some header
  | None =>
    findTruthy
      (fun h => forallb (fun p => includes (toLowerCase h) p)
                        (significantParts mc))
      headers
  end.

(** The map [actualMilestoneHeaders]. *)
Definition actualMilestoneHeaders (headers : list jsstring)
           (milestoneColumns : option (list jsstring)) : StrMap jsstring :=
  match milestoneColumns with
  | Some mcs =>
    fold_left (fun m mc =>
                 match milestoneHeader headers mc with
                 | Some header => mapSet m mc header
                 | None => m
                 end) mcs []
  | None => []
  end.

(** ** [FileUploader]: the result of an upload *)

Inductive UploadOutcome : Type :=
| UploadError (message : jsstring)
| Uploaded (data : FileDataMap) (totalRows : nat) (rawText : jsstring).

(** The text of one row: [rowText += `${cleanVal} | `], then a newline. *)
Definition rowText (row : object) : jsstring :=
  fold_left (fun text kv =>
               text ++ toString (match snd kv with
                                 | VString s => Text.cleanText (VString s)
                                 | v => v
                                 end) ++ lit " | ")
            row []
  ++ [10%N].

Definition combinedText (json : list object) : jsstring :=
  fold_left (fun text row => text ++ rowText row) json [].

(** The part of [reader.onload] after the sheet is parsed into [json]. *)
Definition upload (nameColumns : list jsstring) (formatColumn : jsstring)
           (milestoneColumns : option (list jsstring)) (json : list object)
  : UploadOutcome :=
  if length json =? 0 then UploadError (lit "File is empty.")
  else
    let cleanedJson := Sheet.cleanRows json in
    let headers := match cleanedJson with
                   | row :: _ => keys row
                   | [] => []
                   end in
    let actualNameHeader := findHeader headers nameColumns in
    let actualFormatHeader := findHeader headers [formatColumn] in
    let msHeaders := actualMilestoneHeaders headers milestoneColumns in
    match actualNameHeader with
    | None =>
      UploadError (lit "Required name column not found. Expected one of: "
                   ++ join (lit ", ") nameColumns ++ lit ".")
    | Some nameH =>
      match actualFormatHeader with
      | None =>
        UploadError (lit "Column " ++ [34%N] ++ formatColumn ++ [34%N]
                     ++ lit " not found.")
      | Some fmtH =>
        let st := ingest nameH fmtH msHeaders cleanedJson in
        Uploaded (fst st) (snd st) (combinedText json)
      end
    end.

(** The two uploaders of the page. *)
Definition MILESTONES : list jsstring :=
  [lit "50% CONCEPT DESIGN"; lit "100% CONCEPT DESIGN";
   lit "50% SCHEMATIC DESIGN"; lit "100% SCHEMATIC DESIGN"].

Definition pageNameColumns : list jsstring :=
  [lit "Model Name"; lit "Drawing Name"; lit "Name"; lit "File Name"].

Definition uploadManifest (json : list object) : UploadOutcome :=
  upload pageNameColumns (lit "Format") (Some MILESTONES) json.

(** ** The filters and the summary of the page *)

(** [item.status === s] *)
Definition hasStatus (s : ComparisonStatus) (r : MIDPComparisonResultItem)
  : bool :=
  match status r, s with
  | matched, matched
  | missing_in_acc, missing_in_acc
  | extra_in_acc, extra_in_acc
  | count_mismatch, count_mismatch => true
  | _, _ => false
  end.

(** The predicate of [filteredResults]; [filter] is [None] for ['all']. *)
Definition resultShown (selectedMilestone selectedFormat : jsstring)
           (filter : option ComparisonStatus)
           (item : MIDPComparisonResultItem) : bool :=
  let milestoneMatch :=
      if eqb selectedMilestone (lit "All Milestones") then true
      else if eqb selectedMilestone (lit "Empty Date")
           then length (resultMilestones item) =? 0
           else setHas (resultMilestones item) selectedMilestone in
  let formatMatch :=
      if eqb selectedFormat (lit "All Formats") then true
      else eqb (format item) selectedFormat in
  let statusMatch :=
      match filter with
      | None => true
      | Some s => hasStatus s item
      end in
  milestoneMatch && formatMatch && statusMatch.

Definition filteredResults (selectedMilestone selectedFormat : jsstring)
           (filter : option ComparisonStatus)
           (comparisonResult : list MIDPComparisonResultItem)
  : list MIDPComparisonResultItem :=
  List.filter (resultShown selectedMilestone selectedFormat filter)
              comparisonResult.

Record Summary : Type := {
  all : nat;
  sumMatched : nat;
  sumCountMismatch : nat;
  sumMissingInAcc : nat;
  sumExtraInAcc : nat
}.

(** [summary] *)
Definition summary (comparisonResult : list MIDPComparisonResultItem)
  : Summary :=
  {| all := length comparisonResult;
     sumMatched := length (List.filter (hasStatus matched) comparisonResult);
     sumCountMismatch :=
       length (List.filter (hasStatus count_mismatch) comparisonResult);
     sumMissingInAcc :=
       length (List.filter (hasStatus missing_in_acc) comparisonResult);
     sumExtraInAcc :=
       length (List.filter (hasStatus extra_in_acc) comparisonResult) |}.

(** [availableFormats]: the formats of the results, without repeats, in the
    default order of [sort()], the order of the code units. *)
Definition availableFormats (comparisonResult : list MIDPComparisonResultItem)
  : list jsstring :=
  sortBy BasicLatin.compareUnits
         (fold_left (fun formats item => setAdd formats (format item))
                    comparisonResult []).

End Page.
End MidpPage.

(* ================================================================== *)
(** * The parameter page: completion, [handleAnalyze], the export name *)
(* ================================================================== *)

Module ParamPage.
Import JS.
Import Loin.

Section Page.
Context {RT : Runtime}.

Record SourceFileSummary : Type := {
  sourceFile : jsstring;
  totalElements : nat;
  filledCells : nat;
  emptyCells : nat;
  completionPercentage : float;
  filledPercentage : float;
  emptyPercentage : float
}.

Record ParameterCheckResult : Type := {
  parameter : jsstring;
  filled : nat;
  empty : nat;
  percentage : float
}.

(** [value !== null && value !== undefined && String(value).trim() !== ''] *)
Definition isFilled (value : JS.value) : bool :=
  match value with
  | VNull | VUndefined => false
  | _ => negb (isEmpty (trim (toString value)))
  end.

(** [allHeaders.find(h => h.toLowerCase() === 'source file' ||
                          h.toLowerCase() === 'file name')] *)
Definition sourceFileHeaderOf (allHeaders : list jsstring)
  : option jsstring :=
  findTruthy (fun h => eqb (toLowerCase h) (lit "source file")
                       || eqb (toLowerCase h) (lit "file name")) allHeaders.

(** [String(row[sourceFileHeader] || '').trim()] *)
Definition sourceOf (sourceFileHeader : jsstring) (row : object) : jsstring :=
  trim (toString (orEmpty (prop row sourceFileHeader))).

(** [[...new Set(jsonData.map(...).filter(Boolean))]] *)
Definition uniqueSourceFiles (sourceFileHeader : jsstring)
           (jsonData : list object) : list jsstring :=
  fold_left setAdd
            (filter (fun s => negb (isEmpty s))
                    (map (sourceOf sourceFileHeader) jsonData))
            [].

(** [x / total * 100], or 0 when [total] is 0. *)
Definition ratio (x total : nat) : float :=
  if 0 <? total
  then PrimFloat.mul (PrimFloat.div (ofLength x) (ofLength total))
                     (ofLength 100)
  else ofLength 0.

(** The two counters after the cells of the rows of one file. *)
Definition countCells (analyzableHeaders : list jsstring)
           (rowsForFile : list object) : nat * nat :=
  fold_left
    (fun counts row =>
       fold_left
         (fun counts header =>
            if isFilled (prop row header)
            then (S (fst counts), snd counts)
            else (fst counts, S (snd counts)))
         analyzableHeaders counts)
    rowsForFile (0, 0).

(** One entry of [perSourceSummary]; [None] is the [null] that the final
    filter removes. *)
Definition sourceSummary (sourceFileHeader : jsstring)
           (analyzableHeaders : list jsstring) (jsonData : list object)
           (sf : jsstring) : option SourceFileSummary :=
  let rowsForFile :=
      filter (fun row => eqb (sourceOf sourceFileHeader row) sf) jsonData in
  if length rowsForFile =? 0 then None
  else
    let counts := countCells analyzableHeaders rowsForFile in
    let filledParamCells := fst counts in
    let emptyParamCells := snd counts in
    let totalParamCells := filledParamCells + emptyParamCells in
    Some {| sourceFile := sf;
            totalElements := length rowsForFile;
            filledCells := filledParamCells;
            emptyCells := emptyParamCells;
            completionPercentage := ratio filledParamCells totalParamCells;
            filledPercentage := ratio filledParamCells totalParamCells;
            emptyPercentage := ratio emptyParamCells totalParamCells |}.

Definition perSourceSummary (sourceFileHeader : jsstring)
           (analyzableHeaders : list jsstring) (jsonData : list object)
  : list SourceFileSummary :=
  flat_map (fun sf =>
              match sourceSummary sourceFileHeader analyzableHeaders
                                  jsonData sf with
              | Some item => [item]
              | None => []
              end)
           (uniqueSourceFiles sourceFileHeader jsonData).

(** [jsonData.reduce((count, row) => ... ? count + 1 : count, 0)] *)
Definition filledCount (header : jsstring) (jsonData : list object) : nat :=
  fold_left (fun count row =>
               if isFilled (prop row header) then count + 1 else count)
            jsonData 0.

(** The global analysis: one entry for each analyzable header. *)
Definition parameterSummary (analyzableHeaders : list jsstring)
           (jsonData : list object) : list ParameterCheckResult :=
  let totalRows := length jsonData in
  map (fun header =>
         let n := filledCount header jsonData in
         {| parameter := header;
            filled := n;
            empty := totalRows - n;
            percentage := ratio n totalRows |})
      analyzableHeaders.

(** ** [handleAnalyze] *)

Record Analysis : Type := {
  totalElementsOfFile : nat;
  complianceResult : option ComplianceResult;
  sourceFileSummary : list SourceFileSummary;
  analysisSummary : list ParameterCheckResult
}.

Inductive Outcome : Type :=
| Failed (message : jsstring)
| Analyzed (a : Analysis).

(** [jsonData] is the sheet of the data file, [standardData] the sheet of
    the LOIN file when one is chosen. *)
Definition handleAnalyze (jsonData : list object)
           (standardData : option (list object)) : Outcome :=
  match jsonData with
  | [] => Failed (lit "The selected data file is empty.")
  | first :: _ =>
    let allHeaders := keys first in
    let analyzableHeaders := analyzableHeadersOf allHeaders in
    match sourceFileHeaderOf allHeaders with
    | None =>
      Failed ([65%N; 32%N; 34%N] ++ lit "Source File" ++ [34%N]
              ++ lit " or " ++ [34%N] ++ lit "File Name" ++ [34%N]
              ++ lit " column is required in the Model Data File.")
    | Some sourceFileHeader =>
      Analyzed
        {| totalElementsOfFile := length jsonData;
           complianceResult :=
             match standardData with
             | Some (row :: rest) =>
               Some (compliance (standardParamsOf (row :: rest))
                                analyzableHeaders)
             | _ => None
             end;
           sourceFileSummary :=
             perSourceSummary sourceFileHeader analyzableHeaders jsonData;
           analysisSummary := parameterSummary analyzableHeaders jsonData |}
    end
  end.

(** ** [handleExport]: the name of the report *)

(** [dataFile.name.split('.').slice(0, -1).join('.')] *)
Definition baseFileName (name : jsstring) : jsstring :=
  join (lit ".") (sliceInit (split (lit ".") name)).

(** [parameterNames]: the parameters of the summary, sorted. *)
Definition parameterNames (analysisSummary : list ParameterCheckResult)
  : list jsstring :=
  sortNames (map parameter analysisSummary).

End Page.
End ParamPage.

(* ================================================================== *)
(** * The analysis page: the text of the documents *)
(* ================================================================== *)

Module AnalysisPage.
Import JS.

(** [pageLines.join('\n') + '\n\n'], the lines of a page being the strings
    of its items joined by a space. *)
Definition pageText (pageLines : list jsstring) : jsstring :=
  join [10%N] pageLines ++ [10%N; 10%N].

(** The text of one document before it is cleaned; a page without items
    adds nothing. *)
Definition singleDocumentText (pages : list (list jsstring)) : jsstring :=
  fold_left (fun text pageLines =>
               if 0 <? length pageLines then text ++ pageText pageLines
               else text)
            pages [].

Record PdfDocument : Type := {
  name : jsstring;
  text : jsstring
}.

(** [newDocuments.push({ name: file.name, text: cleanText(...) })] *)
Definition documentOf (fileName : jsstring) (pages : list (list jsstring))
  : PdfDocument :=
  {| name := fileName;
     text := Text.removeCcCf (singleDocumentText pages) |}.

(** [newDocuments.map(doc => `--- DOCUMENT: ${doc.name} ---\n${doc.text}`)
      .join('\n\n')] *)
Definition combinedText (newDocuments : list PdfDocument) : jsstring :=
  join [10%N; 10%N]
       (map (fun doc => lit "--- DOCUMENT: " ++ name doc ++ lit " ---"
                        ++ [10%N] ++ text doc)
            newDocuments).

(** The value given to [setPdfText]. *)
Definition pdfText (newDocuments : list PdfDocument) : jsstring :=
  Text.removeCcCf (combinedText newDocuments).

(** ** The list of the chosen files *)

(** What the page reads of a [File]. *)
Module Files.
Record File : Type := {
  name : jsstring;
  size : N;
  type : jsstring
}.
End Files.

(** The state that [handleFilesSelected] writes. *)
Record State : Type := {
  files : list Files.File;
  error : option jsstring;
  analysisResult : option jsstring;
  pdfTextOf : option jsstring;
  documents : list PdfDocument;
  pdfImages : option (list jsstring)
}.

(** [file.type === 'application/pdf'] *)
Definition isPdf (file : Files.File) : bool :=
  eqb (Files.type file) (lit "application/pdf").

(** [existingFile.name === newPdf.name && existingFile.size === newPdf.size] *)
Definition sameFile (existingFile newPdf : Files.File) : bool :=
  eqb (Files.name existingFile) (Files.name newPdf)
  && N.eqb (Files.size existingFile) (Files.size newPdf).

(** [handleFilesSelected]; [selectedFiles] is [None] for [null]. *)
Definition handleFilesSelected (st : State)
           (selectedFiles : option (list Files.File)) : State :=
  match selectedFiles with
  | None => st
  | Some newFiles =>
    let pdfFiles := filter isPdf newFiles in
    let err :=
        if negb (length pdfFiles =? length newFiles)
        then Some (lit "Some selected files were not PDFs and have been ignored.")
        else None in
    if length pdfFiles =? 0
    then {| files := files st; error := err;
            analysisResult := analysisResult st; pdfTextOf := pdfTextOf st;
            documents := documents st; pdfImages := pdfImages st |}
    else
      let uniqueNewPdfs :=
          filter (fun newPdf =>
                    negb (existsb (fun existingFile =>
                                     sameFile existingFile newPdf)
                                  (files st)))
                 pdfFiles in
      {| files := files st ++ uniqueNewPdfs; error := err;
         analysisResult := None; pdfTextOf := None;
         documents := []; pdfImages := None |}
  end.

(** [prevFiles.filter((_, index) => index !== indexToRemove)] *)
Definition removeFile (prevFiles : list Files.File) (indexToRemove : nat)
  : list Files.File :=
  map fst (filter (fun p => negb (snd p =? indexToRemove))
                  (combine prevFiles (seq 0 (length prevFiles)))).

End AnalysisPage.

(* ================================================================== *)
(** * The properties of the specification, in the words of the spec *)
(* ================================================================== *)

Module Spec.
Import JS.

(** Code units of the Basic Latin block. *)
Definition basicLatin (s : jsstring) : Prop := Forall (fun c => (c < 128)%N) s.

(** The number of positions of [s] at which [k] occurs. *)
Fixpoint occurrences (k s : jsstring) : nat :=
  (if startsWith k s then 1 else 0)
  + match s with
    | [] => 0
    | _ :: t => occurrences k t
    end.

(** No proper suffix of [k] is a prefix of [k]: two occurrences of [k]
    never overlap. *)
Definition unbordered (k : jsstring) : bool :=
  forallb (fun j => negb (startsWith (skipn j k) k)) (seq 1 (length k - 1)).

(** The state of [splitFrom] while a match is being passed over: the rest
    of the separator lies ahead. *)
Definition passing (k : jsstring) (skip : nat) (s : jsstring) : Prop :=
  skip = 0
  \/ (skip < length k /\ startsWith (skipn (length k - skip) k) s = true).

Definition pair_dec (p q : jsstring * jsstring) : {p = q} + {p <> q}.
Proof.
  decide equality; apply (list_eq_dec N.eq_dec).
Defined.

Section WithRuntime.
Context {RT : Runtime}.

(** The last segment is six decimal digits and nothing else. *)
Definition sixDigitSuffix (segments : list jsstring) : Prop :=
  let l := List.last segments [] in
  length l = 6 /\ Forall (fun c => (48 <= c <= 57)%N) l.

(** Some segment before the last is, in upper case, not in the vocabulary. *)
Definition prefixOutsideVocabulary (V : StrSet) (segments : list jsstring)
  : Prop :=
  exists s, In s (removelast segments) /\ ~ In (toUpperCase s) V.

(** The cell of a row under a header, as text, trimmed. *)
Definition cellText (row : object) (h : jsstring) : jsstring :=
  trim (toString (prop row h)).

(** The cell holds a value that is truthy and that is not blank: not
    [undefined], [null], [false], the number zero or the empty string, and
    not a string of white space. *)
Definition filled (h : jsstring) (row : object) : bool :=
  toBoolean (prop row h) && negb (isEmpty (cellText row h)).

(** The cell is neither [undefined] nor [null] and, as text, it is not
    blank; the number zero and [false] are such cells. *)
Definition notBlank (h : jsstring) (row : object) : bool :=
  match prop row h with
  | VUndefined | VNull => false
  | _ => negb (isEmpty (cellText row h))
  end.

(** An extension: one code unit or more, none of them a dot or a slash. *)
Definition isExtension (ext : jsstring) : Prop :=
  ext <> [] /\ Forall (fun c => c <> 46%N /\ c <> 47%N) ext.

(** [stem] is [name] without its extension: what is before the dot of the
    extension when [name] ends with a dot and an extension, and [name]
    itself when it does not. *)
Definition isStemOf (name stem : jsstring) : Prop :=
  (exists ext, isExtension ext /\ name = stem ++ 46%N :: ext)
  \/ (stem = name
      /\ forall s ext, isExtension ext -> name <> s ++ 46%N :: ext).

(** The segments of a name: it is split on the hyphen when it has one,
    else on the underscore when it has one, else it is one segment. *)
Definition segments (stem : jsstring) : list jsstring :=
  if includes stem (lit "-") then split (lit "-") stem
  else if includes stem (lit "_") then split (lit "_") stem
  else [stem].

(** The verdict of the file-name check on one row, as the specification
    states it; the record holds the cell of the row. *)
Definition fileNameVerdict (tokens : StrSet) (h : jsstring) (row : object)
           (item : Qaqc.ValidationResultItem) : Prop :=
  prop (Qaqc.originalRecord item) h = prop row h
  /\ exists stem,
      isStemOf (cellText row h) stem
      /\ (Qaqc.status item = Qaqc.Invalid
          <-> ~ sixDigitSuffix (segments stem)
              \/ prefixOutsideVocabulary tokens (segments stem))
      /\ (Qaqc.status item = Qaqc.Valid
          <-> sixDigitSuffix (segments stem)
              /\ ~ prefixOutsideVocabulary tokens (segments stem)).

(** The words that indicate a system of units, counted in the text in
    lower case. *)
Definition metricWordCount (sourceText : jsstring) : nat :=
  let text := toLowerCase sourceText in
  occurrences (lit "metric") text + occurrences (lit "millimeter") text
  + occurrences (lit "meter") text.

Definition imperialWordCount (sourceText : jsstring) : nat :=
  let text := toLowerCase sourceText in
  occurrences (lit "imperial") text + occurrences (lit "inch") text
  + occurrences (lit "feet") text.

(** The standard is the one whose count is at least the other's; a tie is
    metric. *)
Definition chosenStandard (sourceText : jsstring) : jsstring :=
  if imperialWordCount sourceText <=? metricWordCount sourceText
  then lit "Metric" else lit "Imperial".

(** [value] contains [name], the case of the letters set aside. *)
Definition containsIgnoringCase (value name : jsstring) : Prop :=
  exists before after,
    toLowerCase value = before ++ toLowerCase name ++ after.

(** The verdict of the units check on one row; the record holds the cell
    of the row. *)
Definition unitsVerdict (standard h : jsstring) (row : object)
           (item : Qaqc.ValidationResultItem) : Prop :=
  prop (Qaqc.originalRecord item) h = prop row h
  /\ (Qaqc.status item = Qaqc.Valid
      <-> containsIgnoringCase (cellText row h) standard)
  /\ (Qaqc.status item = Qaqc.Invalid
      <-> ~ containsIgnoringCase (cellText row h) standard).

(** The (base name, format) pairs a manifest holds, one per row that has
    both, the base name and the format in lower case. *)
Definition manifestPairs (nameH fmtH : jsstring) (rows : list object)
  : list (jsstring * jsstring) :=
  flat_map
    (fun row =>
       if negb (isEmpty (Midp.baseNameOf nameH row))
          && negb (isEmpty (Midp.extensionOf fmtH row))
       then [(toLowerCase (Midp.baseNameOf nameH row), Midp.extensionOf fmtH row)]
       else [])
    rows.

(** The count recorded in a manifest map for a base name and a format. *)
Definition recorded (cd : Midp.FileDataMap) (k f : jsstring) : option nat :=
  match mapGet cd k with
  | Some item => mapGet (Midp.formatCounts item) f
  | None => None
  end.

(** Some row of the manifest has the base name [k], in lower case. *)
Definition names (nameH : jsstring) (rows : list object) (k : jsstring)
  : Prop :=
  exists row,
    In row rows /\ Midp.baseNameOf nameH row <> []
    /\ toLowerCase (Midp.baseNameOf nameH row) = k.

(** Some row of the manifest has the base name [k], in lower case, and the
    format [f], which is not empty. *)
Definition carries (nameH fmtH : jsstring) (rows : list object)
           (k f : jsstring) : Prop :=
  exists row,
    In row rows /\ Midp.baseNameOf nameH row <> []
    /\ toLowerCase (Midp.baseNameOf nameH row) = k
    /\ Midp.extensionOf fmtH row = f /\ f <> [].

(** The four-way rule of the data model. *)
Definition fourWayRule (required actual : nat) (s : Midp.ComparisonStatus)
  : Prop :=
  (0 < required /\ actual = 0 -> s = Midp.missing_in_acc)
  /\ (required = 0 /\ 0 < actual -> s = Midp.extra_in_acc)
  /\ (required = actual /\ 0 < required -> s = Midp.matched)
  /\ (~ (0 < required /\ actual = 0) /\ ~ (required = 0 /\ 0 < actual)
      /\ ~ (required = actual /\ 0 < required) -> s = Midp.count_mismatch).

End WithRuntime.
End Spec.

(* ================================================================== *)
(** * Further properties, in the terms of the sources *)
(* ================================================================== *)

Module Props.
Import JS.

Section WithRuntime.
Context {RT : Runtime}.

(** The token [t] comes from the word [w]: the word, cleaned and in upper
    case, is longer than one code unit and is [t], or [t] is one of its parts
    between hyphens and is longer than one code unit. *)
Definition tokenOfWord (w t : jsstring) : Prop :=
  let clean := toUpperCase (Qaqc.removeBrackets (trim w)) in
  1 < length clean
  /\ (t = clean \/ (1 < length t /\ In t (split (lit "-") clean))).

(** The category and the pinned flag of a cell of the levels and grids
    column: the first two parts between slashes, trimmed, in lower case. *)
Definition categoryAndFlag (val : jsstring) : option (jsstring * jsstring) :=
  match map (fun s => toLowerCase (trim s)) (split (lit "/") val) with
  | cat :: pin :: _ => Some (cat, pin)
  | _ => None
  end.

(** A record of the levels and grids check stands for a row of the sheet. *)
Definition levelsGridsRecord (h : jsstring) (excelData : list object)
           (item : Qaqc.ValidationResultItem) (cat pin : jsstring) : Prop :=
  exists row,
    In row excelData
    /\ Qaqc.originalRecord item = [(h, VString (Qaqc.cellOr row h))]
    /\ categoryAndFlag (Qaqc.cellOr row h) = Some (cat, pin)
    /\ (Qaqc.status item = Qaqc.Valid
        <-> pin = lit "true" \/ pin = lit "yes")
    /\ (Qaqc.status item = Qaqc.Invalid
        <-> ~ (pin = lit "true" \/ pin = lit "yes")).

(** The case mappings of the runtime are those of Basic Latin on the
    strings of Basic Latin. *)
Definition basicLatinCase : Prop :=
  forall s, Spec.basicLatin s ->
            toLowerCase s = map BasicLatin.lowerUnit s
            /\ toUpperCase s = map BasicLatin.upperUnit s.

(** What is known of the records of the two arrays of the levels and
    grids check: a level record has a category with the word level, a grid
    record a category with the word grid and without the word level. *)
Definition levelsGridsKnown (h : jsstring) (excelData : list object)
           (st : list Qaqc.ValidationResultItem
                 * list Qaqc.ValidationResultItem) : Prop :=
  (forall item, In item (fst st) ->
                exists cat pin,
                  levelsGridsRecord h excelData item cat pin
                  /\ includes cat (lit "level") = true)
  /\ (forall item, In item (snd st) ->
                   exists cat pin,
                     levelsGridsRecord h excelData item cat pin
                     /\ includes cat (lit "grid") = true
                     /\ includes cat (lit "level") = false).

Definition isValidStatus (s : Qaqc.Status) : bool :=
  match s with Qaqc.Valid => true | _ => false end.

(** The number of Valid records. *)
Definition validCount (res : list Qaqc.ValidationResultItem) : nat :=
  length (filter (fun r => isValidStatus (Qaqc.status r)) res).

(** [localeCompare] orders the strings both ways alike: a string after
    another has that other before it, and two strings it holds equal are so
    in both orders. *)
Definition consistentCompare : Prop :=
  (forall a b, (0 < localeCompare a b)%Z -> (localeCompare b a < 0)%Z)
  /\ (forall a b, localeCompare a b = 0%Z -> localeCompare b a = 0%Z).

(** The status seen from the other side: what one manifest misses is extra
    in the other. *)
Definition swapped (s : Midp.ComparisonStatus) : Midp.ComparisonStatus :=
  match s with
  | Midp.missing_in_acc => Midp.extra_in_acc
  | Midp.extra_in_acc => Midp.missing_in_acc
  | Midp.matched => Midp.matched
  | Midp.count_mismatch => Midp.count_mismatch
  end.


(** The numbers that are falsy are zero and NaN, written [0] and [NaN]. *)
Definition falsyNumberText : Prop :=
  forall n : number,
    numberToBoolean n = false ->
    numberToString n = lit "0" \/ numberToString n = lit "NaN".





End WithRuntime.
End Props.

(* ================================================================== *)
(** * More data for closed examples *)
(* ================================================================== *)

Module Samples.
Import JS.

(** The text of a small standard. *)
Definition text : jsstring :=
  lit "Survey Point: N 100.0 E 200.0. Starting view: Cover Sheet. Worksets: Shared Levels and Grids.".

(** The same text in upper case. *)
Definition textUpper : jsstring := map BasicLatin.upperUnit text.

(** A sheet of two rows with the columns of the checks. *)
Definition qaqcSheet : list (@object BasicLatin.runtime) :=
  [ [(lit "Survey Point", VString (lit "N 100.0"));
     (lit "Levels-Grids / Element is pinned", VString (lit "Level 1 / True"));
     (lit "Starting View", VString (lit "COVER SHEET"));
     (lit "Workset Name", VString (lit "Shared Levels and Grids"));
     (lit "Revit Links Path",
      VString (lit "Autodesk Docs://ACCDocs/Tower/STR.rvt"));
     (lit "RVT link is pinned", VString (lit "True"));
     (lit "Navisworks View Name", VString (lit "Navisworks"))];
    [(lit "Survey Point", VString (lit "N 999"));
     (lit "Levels-Grids / Element is pinned", VString (lit "Grid A / no"));
     (lit "Starting View", VString (lit "3D"));
     (lit "Workset Name", VString []);
     (lit "Revit Links Path", VString (lit "C:/Links/MEP.rvt"));
     (lit "RVT link is pinned", VString (lit "false"));
     (lit "Navisworks View Name", VString (lit "3D View"))] ].


(** Two records, one Valid. *)
Definition records : list (@Qaqc.ValidationResultItem BasicLatin.runtime) :=
  [ {| Qaqc.originalRecord := [(lit "FileName", VString (lit "A.pdf"))];
       Qaqc.status := Qaqc.Valid;
       Qaqc.reasoning := lit "Valid";
       Qaqc.invalidValue := None |};
    {| Qaqc.originalRecord := [(lit "FileName", VString (lit "B.pdf"))];
       Qaqc.status := Qaqc.Invalid;
       Qaqc.reasoning := lit "Item is wrong";
       Qaqc.invalidValue := None |} ].

(** The headers of a manifest. *)
Definition headers : list jsstring :=
  [lit "Model_Name"; lit "FORMAT"; lit "50% Concept Design"].

(** A sheet with the columns of the two checks of defects. *)
Definition defectSheet : list (@object BasicLatin.runtime) :=
  [ [(lit "Imported CAD", VString (lit "site.dwg"));
     (lit "Views not in Sheets", VString [])];
    [(lit "Imported CAD", @VNumber BasicLatin.runtime 0%Z);
     (lit "Views not in Sheets", VString (lit "Section 3"))];
    [(lit "Imported CAD", VString (lit "  "));
     (lit "Views not in Sheets", VNull)] ].

(** A parsed row with a column named [10] and a column whose name is [10]
    after a zero width space, which was written first in the sheet: the
    array index comes first among the keys. *)
Definition indexedRow : @object BasicLatin.runtime :=
  [(lit "10", VString (lit "second"));
   (8203%N :: lit "10", VString (lit "first"));
   (lit "Name", VString (9%N :: lit "Tower"))].

End Samples.

(* ================================================================== *)
(** * Lemmas on strings, sets and maps *)
(* ================================================================== *)

Import JS.

Lemma eqb_spec (a b : jsstring) : reflect (a = b) (eqb a b).
Proof.
  revert b; induction a as [|x a IH]; intros [|y b]; simpl;
    try (constructor; congruence).
  destruct (N.eqb_spec x y) as [->|Hne]; simpl.
  - destruct (IH b) as [->|Hne]; constructor; congruence.
  - constructor; congruence.
Qed.

Lemma eqb_eq (a b : jsstring) : eqb a b = true <-> a = b.
Proof. destruct (eqb_spec a b); split; congruence. Qed.

Lemma eqb_refl (a : jsstring) : eqb a a = true.
Proof. apply eqb_eq; reflexivity. Qed.

Lemma eqb_neq (a b : jsstring) : eqb a b = false <-> a <> b.
Proof. destruct (eqb_spec a b); split; congruence. Qed.

Lemma isEmpty_nil (s : jsstring) : isEmpty s = true <-> s = [].
Proof. destruct s; simpl; split; congruence. Qed.

Lemma setHas_In (s : StrSet) (x : jsstring) : setHas s x = true <-> In x s.
Proof.
  unfold setHas; rewrite existsb_exists; split.
  - intros (y & Hy & He); apply eqb_eq in He; subst; assumption.
  - intros H; exists x; split; [assumption | apply eqb_refl].
Qed.

Lemma setHas_false (s : StrSet) (x : jsstring) :
  setHas s x = false <-> ~ In x s.
Proof.
  rewrite <- setHas_In; destruct (setHas s x); split; congruence.
Qed.

Lemma setAdd_In (s : StrSet) (x y : jsstring) :
  In y (setAdd s x) <-> y = x \/ In y s.
Proof.
  unfold setAdd; destruct (setHas s x) eqn:E.
  - apply setHas_In in E; split; [tauto | intros [->|]; assumption].
  - rewrite in_app_iff; simpl; intuition congruence.
Qed.

Lemma setAdd_NoDup (s : StrSet) (x : jsstring) :
  NoDup s -> NoDup (setAdd s x).
Proof.
  intros H; unfold setAdd; destruct (setHas s x) eqn:E; [assumption|].
  apply setHas_false in E.
  apply NoDup_rev in H. rewrite <- (rev_involutive (s ++ [x])).
  apply NoDup_rev. rewrite rev_app_distr; simpl.
  constructor; [rewrite <- in_rev; assumption | assumption].
Qed.

Lemma fold_setAdd_In (xs : list jsstring) (s : StrSet) (y : jsstring) :
  In y (fold_left setAdd xs s) <-> In y xs \/ In y s.
Proof.
  revert s; induction xs as [|x xs IH]; intros s; simpl; [tauto|].
  rewrite IH, setAdd_In; intuition congruence.
Qed.

Lemma fold_setAdd_NoDup (xs : list jsstring) (s : StrSet) :
  NoDup s -> NoDup (fold_left setAdd xs s).
Proof.
  revert s; induction xs as [|x xs IH]; intros s H; simpl; [assumption|].
  apply IH, setAdd_NoDup, H.
Qed.

(* ================================================================== *)
(** * The text normalizer *)
(* ================================================================== *)

Section TextFacts.
Context {RT : Runtime}.

(** A value that is not a string is returned as it is. *)
Lemma cleanText_not_string (x : value) :
  (forall s, x <> VString s) -> Text.cleanText x = x.
Proof.
  destruct x; intros H; try reflexivity. exfalso; apply (H s); reflexivity.
Qed.

(** On a string without surrogates the replacement is a filter. *)
Lemma removeCcCf_filter (s : jsstring) :
  Forall (fun c => Text.isHighSurrogate c = false) s ->
  Text.removeCcCf s = filter (fun c => negb (Text.isCcCf c)) s.
Proof.
  induction 1 as [|c t Hc Ht IH]; [reflexivity|].
  cbn [Text.removeCcCf filter]. destruct t as [|d t'].
  - destruct (Text.isCcCf c); reflexivity.
  - rewrite Hc; cbn [andb]. rewrite IH.
    destruct (Text.isCcCf c); reflexivity.
Qed.

(** The space is kept. *)
Lemma removeCcCf_keeps_space (s : jsstring) :
  In 32%N s -> In 32%N (Text.removeCcCf s).
Proof.
  assert (G : forall n s, length s <= n ->
                          In 32%N s -> In 32%N (Text.removeCcCf s)).
  { induction n as [|n IH]; intros [|c t] Hl Hin; simpl in Hl, Hin;
      try contradiction; try lia.
    cbn [Text.removeCcCf]. destruct t as [|d t'].
    - destruct Hin as [->|[]]. vm_compute. left; reflexivity.
    - destruct (Text.isHighSurrogate c && Text.isLowSurrogate d) eqn:Hsur.
      + assert (Hc : c <> 32%N).
        { intros ->. vm_compute in Hsur. discriminate. }
        assert (Hd : d <> 32%N).
        { intros ->. rewrite andb_comm in Hsur. vm_compute in Hsur.
          discriminate. }
        assert (Hin' : In 32%N t').
        { simpl in Hin. destruct Hin as [E|[E|E]];
            [congruence|congruence|exact E]. }
        simpl in Hl.
        destruct (Text.isCcCf (Text.codePoint c d)).
        * apply IH; [lia | exact Hin'].
        * right; right. apply IH; [lia | exact Hin'].
      + destruct Hin as [E|Hin].
        * subst c.
          replace (Text.isCcCf 32) with false by (vm_compute; reflexivity).
          left; reflexivity.
        * destruct (Text.isCcCf c); [|right];
            (apply IH; [lia | exact Hin]). }
  apply (G (length s)); lia.
Qed.

(** C1.  The comment of [cleanText] says that tabs and newlines
    are preserved, and the specification repeats it; both are code points of
    the category Cc, which the pattern removes: on the string
    a, TAB, b, LF, space, c the result is [ab c], the space alone being kept. *)
Theorem cleanText_removes_tab_and_newline :
  Text.isCc 9 = true /\ Text.isCc 10 = true
  /\ Text.cleanText (VString (lit "a" ++ [9%N] ++ lit "b" ++ [10%N] ++ lit " c"))
     = VString (lit "ab c").
Proof. repeat split. Qed.

End TextFacts.

(* ================================================================== *)
(** * The vocabulary *)
(* ================================================================== *)

Lemma Forall_dropWhile (P : N -> Prop) (p : N -> bool) (s : jsstring) :
  Forall P s -> Forall P (dropWhile p s).
Proof.
  induction 1 as [|c t Hc Ht IH]; simpl; [constructor|].
  destruct (p c); [assumption | constructor; assumption].
Qed.

Lemma Forall_trim (P : N -> Prop) (s : jsstring) :
  Forall P s -> Forall P (trim s).
Proof.
  intros H; unfold trim, trimEnd, trimStart.
  apply Forall_rev, Forall_dropWhile, Forall_rev, Forall_dropWhile, H.
Qed.

Lemma Forall_filter_keep (P : N -> Prop) (p : N -> bool) (s : jsstring) :
  Forall P s -> Forall P (filter p s).
Proof.
  induction 1 as [|c t Hc Ht IH]; simpl; [constructor|].
  destruct (p c); [constructor|]; assumption.
Qed.

Lemma Forall_splitRuns (P : N -> Prop) (isSep : N -> bool) (s : jsstring) :
  Forall P s ->
  forall inRun acc, Forall P acc ->
                    Forall (Forall P) (splitRuns isSep inRun s acc).
Proof.
  induction 1 as [|c t Hc Ht IH]; intros inRun acc Hacc; simpl.
  - constructor; [apply Forall_rev, Hacc | constructor].
  - destruct (isSep c).
    + destruct inRun.
      * apply IH; constructor.
      * constructor; [apply Forall_rev, Hacc | apply IH; constructor].
    + apply IH; constructor; assumption.
Qed.

Section Vocabulary.
Context {RT : Runtime}.
Hypothesis upper_basicLatin :
  forall s, Spec.basicLatin s -> toUpperCase s = map BasicLatin.upperUnit s.

(** On Basic Latin words the vocabulary depends on the runtime through the
    upper case of its letters only. *)
Lemma addWord_basicLatin (tokens : StrSet) (w : jsstring) :
  Spec.basicLatin w ->
  Qaqc.addWord tokens w = Qaqc.addWord (RT := BasicLatin.runtime) tokens w.
Proof.
  intros Hw; unfold Qaqc.addWord.
  rewrite upper_basicLatin; [reflexivity|].
  apply Forall_filter_keep, Forall_trim, Hw.
Qed.

Lemma pdfTokens_basicLatin (sourceText : jsstring) :
  Spec.basicLatin sourceText ->
  Qaqc.pdfTokens sourceText
  = Qaqc.pdfTokens (RT := BasicLatin.runtime) sourceText.
Proof.
  intros Ht; unfold Qaqc.pdfTokens, splitClass.
  assert (G : forall ws tokens,
             Forall Spec.basicLatin ws ->
             fold_left Qaqc.addWord ws tokens
             = fold_left (Qaqc.addWord (RT := BasicLatin.runtime)) ws tokens).
  { induction ws as [|w ws IH]; intros tokens Hw; simpl; [reflexivity|].
    inversion Hw; subst.
    rewrite addWord_basicLatin by assumption. apply IH; assumption. }
  apply G, Forall_splitRuns; [exact Ht | constructor].
Qed.

End Vocabulary.

(** C3.  On the text [ARCH-L01-001 Rev A] the vocabulary is
    exactly the five tokens ARCH-L01-001, ARCH, L01, 001 and REV, in this
    order of insertion: a word is kept only when, cleaned, it is longer than
    one code unit, so the one-letter word A is not inserted. *)
Theorem pdfTokens_example (RT : Runtime) :
  (forall s, Spec.basicLatin s -> toUpperCase s = map BasicLatin.upperUnit s) ->
  Qaqc.pdfTokens (lit "ARCH-L01-001 Rev A")
  = [lit "ARCH-L01-001"; lit "ARCH"; lit "L01"; lit "001"; lit "REV"].
Proof.
  intros Hup. rewrite (pdfTokens_basicLatin Hup).
  - vm_compute. reflexivity.
  - unfold Spec.basicLatin. vm_compute.
    repeat (constructor; [reflexivity|]). constructor.
Qed.

Lemma pdfTokens_example_witness :
  Qaqc.pdfTokens (RT := BasicLatin.runtime) (lit "ARCH-L01-001 Rev A")
  = [lit "ARCH-L01-001"; lit "ARCH"; lit "L01"; lit "001"; lit "REV"].
Proof.
  apply (pdfTokens_example BasicLatin.runtime). intros s _. reflexivity.
Defined.

(** C3, as the specification states it, fails: the token A is not in the
    vocabulary of [ARCH-L01-001 Rev A]. *)
Lemma pdfTokens_example_lacks_A :
  ~ (forall t,
        In t [lit "ARCH-L01-001"; lit "ARCH"; lit "L01"; lit "001";
              lit "REV"; lit "A"] ->
        In t (Qaqc.pdfTokens (RT := BasicLatin.runtime)
                             (lit "ARCH-L01-001 Rev A"))).
Proof.
  intros H.
  assert (HA : In (lit "A") (Qaqc.pdfTokens (RT := BasicLatin.runtime)
                                            (lit "ARCH-L01-001 Rev A"))).
  { apply H. simpl. tauto. }
  apply setHas_In in HA. vm_compute in HA. discriminate.
Qed.

(* ================================================================== *)
(** * The row checkers *)
(* ================================================================== *)

Lemma testSixDigits_spec (s : jsstring) :
  testSixDigits s = true
  <-> length s = 6 /\ Forall (fun c => (48 <= c <= 57)%N) s.
Proof.
  unfold testSixDigits. rewrite andb_true_iff, Nat.eqb_eq, forallb_forall.
  rewrite Forall_forall. unfold isDigit, inRange.
  split; intros [Hl Hd]; (split; [exact Hl|]); intros c Hc;
    specialize (Hd c Hc).
  - apply andb_true_iff in Hd. destruct Hd as [H1 H2].
    apply N.leb_le in H1, H2. lia.
  - apply andb_true_iff; split; apply N.leb_le; lia.
Qed.

(** A reducer that pushes one item for each row it does not skip builds the
    items of the rows kept, in their order. *)
Lemma fold_left_push (A B : Type) (skip : A -> bool) (item : A -> B)
      (R : A -> B -> Prop) (step : list B -> A -> list B) :
  (forall acc row, step acc row
                   = if skip row then acc else acc ++ [item row]) ->
  (forall row, skip row = false -> R row (item row)) ->
  forall rows, Forall2 R (filter (fun row => negb (skip row)) rows)
                       (fold_left step rows []).
Proof.
  intros Hstep HR rows.
  assert (G : forall rows kept acc,
             Forall2 R kept acc ->
             Forall2 R (kept ++ filter (fun row => negb (skip row)) rows)
                     (fold_left step rows acc)).
  { clear rows. induction rows as [|row rows IH]; intros kept acc H; simpl.
    - rewrite app_nil_r; exact H.
    - rewrite Hstep. destruct (skip row) eqn:E; simpl.
      + apply IH, H.
      + replace (kept ++ row :: filter (fun r => negb (skip r)) rows)
          with ((kept ++ [row]) ++ filter (fun r => negb (skip r)) rows)
          by (rewrite <- app_assoc; reflexivity).
        apply IH, Forall2_app; [exact H|].
        constructor; [apply HR, E | constructor]. }
  apply (G rows [] []); constructor.
Qed.

Lemma mapGet_mapSet_same (V : Type) (m : StrMap V) (k : jsstring) (v : V) :
  mapGet (mapSet m k v) k = Some v.
Proof.
  induction m as [|[k0 v0] rest IH]; simpl.
  - rewrite eqb_refl. reflexivity.
  - destruct (eqb k k0) eqn:E; simpl; rewrite E; [reflexivity | exact IH].
Qed.

Lemma isEmpty_false_iff (s : jsstring) : isEmpty s = false <-> s <> [].
Proof. destruct s; simpl; split; congruence. Qed.

Section Checkers.
Context {RT : Runtime}.

Lemma invalidSegsOf_nil (tokens : StrSet) (segments : list jsstring) :
  Qaqc.invalidSegsOf tokens segments = []
  <-> ~ Spec.prefixOutsideVocabulary tokens segments.
Proof.
  unfold Qaqc.invalidSegsOf, Spec.prefixOutsideVocabulary, sliceInit. split.
  - intros Hnil (s & Hs & Hout).
    assert (Hin : In s (filter (fun s => negb (setHas tokens (toUpperCase s)))
                               (removelast segments))).
    { apply filter_In; split; [exact Hs|].
      apply negb_true_iff, setHas_false, Hout. }
    rewrite Hnil in Hin; exact Hin.
  - intros Hno.
    destruct (filter (fun s => negb (setHas tokens (toUpperCase s)))
                     (removelast segments)) as [|s rest] eqn:E; [reflexivity|].
    exfalso; apply Hno. exists s.
    assert (Hin : In s (s :: rest)) by (left; reflexivity).
    rewrite <- E in Hin. apply filter_In in Hin. destruct Hin as [Hs Hb].
    split; [exact Hs|]. apply setHas_false, negb_true_iff, Hb.
Qed.

(** The list of errors is empty exactly when both rules hold. *)
Lemma fileNameErrors_nil (tokens : StrSet) (segments : list jsstring) :
  (length (Qaqc.fileNameErrors tokens segments) =? 0) = true
  <-> Spec.sixDigitSuffix segments
      /\ ~ Spec.prefixOutsideVocabulary tokens segments.
Proof.
  unfold Qaqc.fileNameErrors, Spec.sixDigitSuffix.
  rewrite <- invalidSegsOf_nil, <- testSixDigits_spec.
  destruct (testSixDigits (last segments [])) eqn:E6;
    destruct (Qaqc.invalidSegsOf tokens segments) as [|s rest] eqn:Ei;
    cbn [length Nat.ltb Nat.leb app Nat.eqb];
    try rewrite length_app; cbn [length];
    split; try tauto; try congruence; try (intros [? ?]; congruence).
  all: rewrite Nat.eqb_eq; try lia.
Qed.

End Checkers.

Section FileName.
Context {RT : Runtime}.

(** [String(row[h] || '').trim()] is empty exactly when the cell is falsy or
    blank, and it is the text of the cell otherwise. *)
Lemma cellOr_filled (row : object) (h : jsstring) :
  isEmpty (Qaqc.cellOr row h) = negb (Spec.filled h row)
  /\ (Spec.filled h row = true -> Qaqc.cellOr row h = Spec.cellText row h).
Proof.
  unfold Qaqc.cellOr, Spec.filled, Spec.cellText, orEmpty.
  destruct (toBoolean (prop row h)); cbn [andb].
  - rewrite negb_involutive. split; reflexivity.
  - split; [reflexivity | discriminate].
Qed.

Lemma filter_filled (h : jsstring) (rows : list object) :
  filter (fun row => negb (isEmpty (Qaqc.cellOr row h))) rows
  = filter (Spec.filled h) rows.
Proof.
  apply filter_ext. intros row.
  rewrite (proj1 (cellOr_filled row h)). apply negb_involutive.
Qed.

(** The record of a row holds the cell of the row under the header. *)
Lemma prop_createRowRecord (headers : list jsstring) (row : object)
      (h : jsstring) :
  prop (Qaqc.createRowRecord headers row h) h = prop row h.
Proof.
  unfold Qaqc.createRowRecord. cbv zeta. unfold prop at 1.
  rewrite mapGet_mapSet_same. reflexivity.
Qed.

Lemma isExtension_test (t : jsstring) :
  negb (isEmpty t) && forallb (fun d => negb (N.eqb d 47 || N.eqb d 46)) t
  = true
  <-> Spec.isExtension t.
Proof.
  unfold Spec.isExtension.
  rewrite andb_true_iff, negb_true_iff, isEmpty_false_iff, forallb_forall,
    Forall_forall.
  split; intros [Hne Hall]; (split; [exact Hne|]); intros d Hd;
    specialize (Hall d Hd).
  - apply negb_true_iff, orb_false_iff in Hall. destruct Hall as [H1 H2].
    apply N.eqb_neq in H1, H2. split; assumption.
  - destruct Hall as [H1 H2]. apply negb_true_iff, orb_false_iff.
    split; apply N.eqb_neq; assumption.
Qed.

(** The replacement of the pattern of the extension by the empty string
    gives the name without its extension. *)
Lemma stripExtension_stem (name : jsstring) :
  Spec.isStemOf name (Qaqc.stripExtension name).
Proof.
  induction name as [|c t IH]; cbn [Qaqc.stripExtension].
  - right. split; [reflexivity|]. intros s ext _ H.
    destruct s; discriminate.
  - destruct (N.eqb c 46 && negb (isEmpty t)
              && forallb (fun d => negb (N.eqb d 47 || N.eqb d 46)) t) eqn:E.
    + rewrite <- andb_assoc in E. apply andb_true_iff in E.
      destruct E as [Ec Et]. apply N.eqb_eq in Ec. subst c.
      left. exists t. split; [apply isExtension_test, Et | reflexivity].
    + destruct IH as [(ext & Hext & Ht)|[Hsame Hnone]].
      * left. exists ext. split; [exact Hext|].
        rewrite Ht at 1. reflexivity.
      * right. rewrite Hsame. split; [reflexivity|].
        intros s ext Hext H. destruct s as [|x s].
        -- cbn [app] in H. injection H as -> ->.
           apply isExtension_test in Hext. rewrite N.eqb_refl in E.
           rewrite <- andb_assoc in E. cbn [andb] in E. congruence.
        -- cbn [app] in H. injection H as _ Ht.
           apply (Hnone s ext Hext Ht).
Qed.

Lemma last_dot_unique (a a' e e' : jsstring) :
  ~ In 46%N e -> ~ In 46%N e' ->
  a ++ 46%N :: e = a' ++ 46%N :: e' -> a = a'.
Proof.
  intros He He'. revert a'. induction a as [|x a IH]; intros [|y a'] H;
    cbn [app] in H.
  - reflexivity.
  - injection H as _ H. exfalso. apply He. rewrite H.
    apply in_or_app. right. left. reflexivity.
  - injection H as _ H. exfalso. apply He'. rewrite <- H.
    apply in_or_app. right. left. reflexivity.
  - injection H as -> H. f_equal. apply IH, H.
Qed.

Lemma isExtension_no_dot (ext : jsstring) :
  Spec.isExtension ext -> ~ In 46%N ext.
Proof.
  intros [_ Hall] Hin. rewrite Forall_forall in Hall.
  destruct (Hall _ Hin) as [H _]. congruence.
Qed.

(** A name has one stem. *)
Lemma isStemOf_unique (name stem stem' : jsstring) :
  Spec.isStemOf name stem -> Spec.isStemOf name stem' -> stem = stem'.
Proof.
  intros [(e & He & H)|[H Hnone]] [(e' & He' & H')|[H' Hnone']].
  - rewrite H in H'.
    apply (@last_dot_unique stem stem' e e'
             (@isExtension_no_dot e He) (@isExtension_no_dot e' He') H').
  - exfalso. apply (Hnone' stem e He H).
  - exfalso. apply (Hnone stem' e' He' H').
  - congruence.
Qed.

Lemma fileNameRow_verdict (tokens : StrSet) (headers : list jsstring)
      (h : jsstring) (rows : list object) :
  Forall2 (Spec.fileNameVerdict tokens h)
          (filter (Spec.filled h) rows)
          (fold_left (Qaqc.fileNameRow tokens headers h) rows []).
Proof.
  rewrite <- filter_filled.
  set (errs row := Qaqc.fileNameErrors tokens
         (Qaqc.segmentsOf (Qaqc.stripExtension (Qaqc.cellOr row h)))).
  set (ok row := length (errs row) =? 0).
  apply (fold_left_push
           (fun row => isEmpty (Qaqc.cellOr row h))
           (fun row =>
              {| Qaqc.originalRecord := Qaqc.createRowRecord headers row h;
                 Qaqc.status := if ok row then Qaqc.Valid else Qaqc.Invalid;
                 Qaqc.reasoning :=
                   if ok row
                   then lit "Valid: Matches all project naming rules."
                   else lit "Invalid: " ++ join (lit " ") (errs row);
                 Qaqc.invalidValue :=
                   if ok row then None else Some (Qaqc.cellOr row h) |})).
  - intros acc row. unfold Qaqc.fileNameRow. reflexivity.
  - intros row Hrow. unfold Spec.fileNameVerdict.
    cbn [Qaqc.originalRecord Qaqc.status].
    split; [apply prop_createRowRecord|].
    assert (Hcell : Qaqc.cellOr row h = Spec.cellText row h).
    { apply cellOr_filled. rewrite (proj1 (cellOr_filled row h)) in Hrow.
      apply negb_false_iff, Hrow. }
    exists (Qaqc.stripExtension (Qaqc.cellOr row h)).
    split; [rewrite <- Hcell; apply stripExtension_stem|].
    change (Spec.segments (Qaqc.stripExtension (Qaqc.cellOr row h)))
      with (Qaqc.segmentsOf (Qaqc.stripExtension (Qaqc.cellOr row h))).
    pose proof (fileNameErrors_nil tokens
                  (Qaqc.segmentsOf (Qaqc.stripExtension (Qaqc.cellOr row h))))
      as Hnil.
    fold (errs row) in Hnil. fold (ok row) in Hnil.
    destruct (ok row); split; split; intros H; try discriminate;
      try reflexivity.
    + exfalso. destruct Hnil as [Hn _]. specialize (Hn eq_refl). tauto.
    + apply Hnil; reflexivity.
    + destruct (testSixDigits
                  (last (Qaqc.segmentsOf
                           (Qaqc.stripExtension (Qaqc.cellOr row h))) []))
        eqn:E6.
      * apply testSixDigits_spec in E6. right.
        destruct (Qaqc.invalidSegsOf tokens
                    (Qaqc.segmentsOf
                       (Qaqc.stripExtension (Qaqc.cellOr row h))))
          as [|seg others] eqn:Ei.
        -- apply invalidSegsOf_nil in Ei. exfalso.
           assert (false = true) by (apply Hnil; split; assumption).
           discriminate.
        -- unfold Spec.prefixOutsideVocabulary.
           exists seg. unfold Qaqc.invalidSegsOf in Ei.
           assert (Hin : In seg (seg :: others)) by (left; reflexivity).
           rewrite <- Ei in Hin. apply filter_In in Hin.
           destruct Hin as [Hs Hb]. split; [exact Hs|].
           apply setHas_false, negb_true_iff, Hb.
      * left. intros H6. apply testSixDigits_spec in H6.
        unfold Spec.sixDigitSuffix in H6. congruence.
    + exfalso. assert (false = true) by (apply Hnil; exact H). discriminate.
Qed.

(** C2.  When the file-name column is found, the check returns one record
    for each row whose cell is truthy and, once trimmed, not empty, in the
    order of the rows, and none for the others: a cell that holds the
    number zero or [false] has no record, as an empty cell has none.  The
    record of a row is Invalid exactly when, the extension of the name
    stripped and the rest split on the hyphen, else on the underscore, the
    last segment is not six digits or a segment before it is, in upper case,
    outside the vocabulary, and Valid otherwise. *)
Theorem fileNameCheck_verdicts (tokens : StrSet) (excelData : list object)
        (h : jsstring) :
  findTruthy Qaqc.isFileNameHeader (Qaqc.headersOf excelData) = Some h ->
  exists out,
    Qaqc.fileNameCheck tokens excelData = Some out
    /\ Forall2 (Spec.fileNameVerdict tokens h)
               (filter (Spec.filled h) excelData)
               out.
Proof.
  intros Hh. unfold Qaqc.fileNameCheck. rewrite Hh.
  eexists; split; [reflexivity|]. apply fileNameRow_verdict.
Qed.

End FileName.

(* ================================================================== *)
(** * Counting the occurrences of a keyword with [split] *)
(* ================================================================== *)

Lemma startsWith_app (p s : jsstring) :
  startsWith p s = true <-> exists r, s = p ++ r.
Proof.
  revert s; induction p as [|x p IH]; intros s; simpl.
  - split; [intros _; exists s; reflexivity | reflexivity].
  - destruct s as [|y s]; [split; [discriminate | intros (r & Hr); discriminate]|].
    rewrite andb_true_iff, N.eqb_eq, IH. split.
    + intros (-> & r & ->). exists r; reflexivity.
    + intros (r & Hr). injection Hr as -> ->. split; [reflexivity | exists r; reflexivity].
Qed.

Lemma includes_spec (s sub : jsstring) :
  includes s sub = true <-> exists before after, s = before ++ sub ++ after.
Proof.
  induction s as [|c t IH]; simpl.
  - rewrite orb_false_r, startsWith_app. split.
    + intros (r & Hr). exists [], r. exact Hr.
    + intros (b & a & H). destruct b; [exists a; exact H | discriminate].
  - rewrite orb_true_iff, startsWith_app, IH. split.
    + intros [(r & Hr) | (b & a & H)].
      * exists [], r. exact Hr.
      * exists (c :: b), a. simpl; congruence.
    + intros (b & a & H). destruct b as [|x b]; simpl in H.
      * left; exists a; exact H.
      * right. injection H as -> ->. exists b, a; reflexivity.
Qed.

(** Two prefixes of one string: the shorter is a prefix of the longer. *)
Lemma startsWith_shorter (a b s : jsstring) :
  startsWith a s = true -> startsWith b s = true -> length a <= length b ->
  startsWith a b = true.
Proof.
  revert b s; induction a as [|x a IH]; intros b s Ha Hb Hl; [reflexivity|].
  destruct s as [|z s]; [discriminate|].
  destruct b as [|y b]; [simpl in Hl; lia|].
  simpl in *. apply andb_true_iff in Ha, Hb.
  destruct Ha as [Hx Ha], Hb as [Hy Hb].
  apply N.eqb_eq in Hx, Hy; subst.
  rewrite N.eqb_refl; simpl. apply (IH b s); [assumption | assumption | lia].
Qed.

Lemma unbordered_spec (k : jsstring) (j : nat) :
  Spec.unbordered k = true -> 1 <= j < length k ->
  startsWith (skipn j k) k = false.
Proof.
  unfold Spec.unbordered; intros H Hj.
  rewrite forallb_forall in H. apply negb_true_iff, H, in_seq. lia.
Qed.

Lemma skipn_cons_nth (k : jsstring) (j : nat) :
  j < length k -> exists x, skipn j k = x :: skipn (S j) k.
Proof.
  revert j; induction k as [|y k IH]; intros j Hj; simpl in Hj; [lia|].
  destruct j as [|j]; [exists y; reflexivity|].
  apply IH; lia.
Qed.

Lemma passing_no_match (k : jsstring) (n : nat) (s : jsstring) :
  Spec.unbordered k = true ->
  Spec.passing k (S n) s -> startsWith k s = false.
Proof.
  intros Hk [H|[Hlt Hs]]; [discriminate|].
  destruct (startsWith k s) eqn:E; [|reflexivity].
  assert (Hb : startsWith (skipn (length k - S n) k) k = true).
  { apply (startsWith_shorter _ _ _ Hs E). rewrite length_skipn. lia. }
  rewrite unbordered_spec in Hb; [discriminate | assumption | lia].
Qed.

Lemma passing_step (k : jsstring) (n : nat) (c : N) (t : jsstring) :
  Spec.passing k (S n) (c :: t) -> Spec.passing k n t.
Proof.
  intros [H|[Hlt Hs]]; [discriminate|].
  destruct n as [|n]; [left; reflexivity|]. right. split; [lia|].
  destruct (skipn_cons_nth k (j := length k - S (S n))) as (x & Hx); [lia|].
  rewrite Hx in Hs. simpl in Hs. apply andb_true_iff in Hs.
  replace (length k - S n) with (S (length k - S (S n))) by lia.
  apply Hs.
Qed.

Lemma passing_after_match (k : jsstring) (c : N) (t : jsstring) :
  startsWith k (c :: t) = true ->
  Spec.passing k (Nat.pred (length k)) t.
Proof.
  intros Hs. destruct k as [|x [|y k']].
  - left; reflexivity.
  - left; reflexivity.
  - simpl in Hs. apply andb_true_iff in Hs. destruct Hs as [_ Hs].
    right. split; [cbn [length Nat.pred]; lia|].
    replace (length (x :: y :: k') - Nat.pred (length (x :: y :: k')))
      with 1 by (cbn [length Nat.pred]; lia).
    exact Hs.
Qed.

Lemma splitFrom_length (k s : jsstring) :
  k <> [] -> Spec.unbordered k = true ->
  forall skip acc,
    Spec.passing k skip s ->
    length (splitFrom k skip s acc) = 1 + Spec.occurrences k s.
Proof.
  intros Hne Hk. induction s as [|c t IH]; intros skip acc Hp.
  - simpl. destruct k; [congruence | reflexivity].
  - cbn [splitFrom Spec.occurrences]. destruct skip as [|n].
    + destruct (startsWith k (c :: t)) eqn:E.
      * cbn [length]. rewrite IH by (apply (passing_after_match _ _ _ E)). lia.
      * rewrite IH by (left; reflexivity). lia.
    + rewrite (passing_no_match Hk Hp).
      rewrite IH by (apply (passing_step Hp)). lia.
Qed.

(** For a keyword that cannot overlap itself, [s.split(k).length - 1] is
    the number of occurrences of [k] in [s]. *)
Lemma split_counts_occurrences (k s : jsstring) :
  k <> [] -> Spec.unbordered k = true ->
  length (split k s) - 1 = Spec.occurrences k s.
Proof.
  intros Hne Hk. unfold split. destruct k as [|x k'] eqn:Ek; [congruence|].
  rewrite <- Ek in *. rewrite splitFrom_length; try assumption; [lia|].
  left; reflexivity.
Qed.

(* ================================================================== *)
(** * The units check *)
(* ================================================================== *)

Section Units.
Context {RT : Runtime}.

Lemma keywordCount_occurrences (sourceText k : jsstring) :
  k <> [] -> Spec.unbordered k = true ->
  Qaqc.keywordCount sourceText k
  = Spec.occurrences k (toLowerCase sourceText).
Proof.
  intros Hne Hk. unfold Qaqc.keywordCount.
  apply split_counts_occurrences; assumption.
Qed.

Lemma metricScore_counts (sourceText : jsstring) :
  Qaqc.metricScore sourceText = Spec.metricWordCount sourceText.
Proof.
  unfold Qaqc.metricScore, Qaqc.keywordScore, Qaqc.metricKeywords,
    Spec.metricWordCount.
  cbn [fold_left].
  rewrite !keywordCount_occurrences
    by first [vm_compute; reflexivity | vm_compute; discriminate].
  reflexivity.
Qed.

Lemma imperialScore_counts (sourceText : jsstring) :
  Qaqc.imperialScore sourceText = Spec.imperialWordCount sourceText.
Proof.
  unfold Qaqc.imperialScore, Qaqc.keywordScore, Qaqc.imperialKeywords,
    Spec.imperialWordCount.
  cbn [fold_left].
  rewrite !keywordCount_occurrences
    by first [vm_compute; reflexivity | vm_compute; discriminate].
  reflexivity.
Qed.

Lemma projectUnitStandard_chosen (sourceText : jsstring) :
  Qaqc.projectUnitStandard sourceText = Spec.chosenStandard sourceText.
Proof.
  unfold Qaqc.projectUnitStandard, Spec.chosenStandard.
  rewrite metricScore_counts, imperialScore_counts. reflexivity.
Qed.

Lemma unitsRow_verdict (standard : jsstring) (headers : list jsstring)
      (h : jsstring) (rows : list object) :
  Forall2 (Spec.unitsVerdict standard h)
          (filter (Spec.filled h) rows)
          (fold_left (Qaqc.unitsRow standard headers h) rows []).
Proof.
  rewrite <- filter_filled.
  set (ok row := includes (toLowerCase (Qaqc.cellOr row h))
                          (toLowerCase standard)).
  apply (fold_left_push
           (fun row => isEmpty (Qaqc.cellOr row h))
           (fun row =>
              {| Qaqc.originalRecord := Qaqc.createRowRecord headers row h;
                 Qaqc.status := if ok row then Qaqc.Valid else Qaqc.Invalid;
                 Qaqc.reasoning :=
                   if ok row
                   then lit "Valid: Matches the document's " ++ standard
                        ++ lit " standard."
                   else lit "Item is wrong: Expected " ++ standard
                        ++ lit " but found '" ++ Qaqc.cellOr row h ++ lit "'.";
                 Qaqc.invalidValue := None |})).
  - intros acc row. unfold Qaqc.unitsRow. reflexivity.
  - intros row Hrow. unfold Spec.unitsVerdict, Spec.containsIgnoringCase.
    cbn [Qaqc.originalRecord Qaqc.status].
    split; [apply prop_createRowRecord|].
    assert (Hcell : Qaqc.cellOr row h = Spec.cellText row h).
    { apply cellOr_filled. rewrite (proj1 (cellOr_filled row h)) in Hrow.
      apply negb_false_iff, Hrow. }
    rewrite <- Hcell, <- includes_spec. fold (ok row).
    destruct (ok row); split; split; intros H;
      try reflexivity; try discriminate; congruence.
Qed.

(** The text of a cell that the checks read as empty: nothing, or the
    writing of [undefined], [null], [false], zero or NaN. *)
Lemma unfilled_cellText (h : jsstring) (row : object) :
  Props.falsyNumberText ->
  Spec.filled h row = false ->
  In (Spec.cellText row h)
     [[]; lit "undefined"; lit "null"; lit "false"; lit "0"; lit "NaN"].
Proof.
  intros Hnum. unfold Spec.filled, Spec.cellText.
  destruct (prop row h) as [| |[|]|n|s]; cbn [toBoolean toString andb].
  - intros _. right. left. reflexivity.
  - intros _. right. right. left. reflexivity.
  - discriminate.
  - intros _. do 3 right. left. reflexivity.
  - destruct (numberToBoolean n) eqn:En; cbn [andb].
    + intros H. apply negb_false_iff, isEmpty_nil in H. left. symmetry. exact H.
    + intros _. destruct (Hnum n En) as [-> | ->].
      * do 4 right. left. reflexivity.
      * do 5 right. left. reflexivity.
  - destruct s as [|c s]; cbn [isEmpty negb andb].
    + intros _. left. reflexivity.
    + intros H. apply negb_false_iff, isEmpty_nil in H. left. symmetry. exact H.
Qed.

Lemma not_contains_latin (v std : jsstring) :
  Props.basicLatinCase -> Spec.basicLatin v -> Spec.basicLatin std ->
  includes (map BasicLatin.lowerUnit v) (map BasicLatin.lowerUnit std) = false ->
  ~ Spec.containsIgnoringCase v std.
Proof.
  intros latin Hv Hs Hinc (b & a & E).
  rewrite (proj1 (latin v Hv)), (proj1 (latin std Hs)) in E.
  assert (Hyes : includes (map BasicLatin.lowerUnit v)
                          (map BasicLatin.lowerUnit std) = true)
    by (apply includes_spec; exists b, a; exact E).
  congruence.
Qed.

(** A cell that the checks read as empty does not name a standard. *)
Lemma unfilled_names_no_standard (sourceText h : jsstring) (row : object) :
  Props.basicLatinCase -> Props.falsyNumberText ->
  Spec.filled h row = false ->
  ~ Spec.containsIgnoringCase (Spec.cellText row h)
                              (Spec.chosenStandard sourceText).
Proof.
  intros latin Hnum Hrow.
  pose proof (unfilled_cellText h row Hnum Hrow) as Hin.
  unfold Spec.chosenStandard.
  destruct (Spec.imperialWordCount sourceText <=? Spec.metricWordCount sourceText);
    cbn [In] in Hin;
    repeat (destruct Hin as [<-|Hin];
            [apply (not_contains_latin latin);
             [repeat (constructor; [reflexivity|]); constructor
             |repeat (constructor; [reflexivity|]); constructor
             |reflexivity]|]);
    destruct Hin.
Qed.

(** C6.  The standard of the project is Metric when the words metric,
    millimeter and meter occur in the text, in lower case, at least as often
    as the words imperial, inch and feet, and Imperial otherwise.  When the
    units column is found, the check returns one record for each row whose
    cell is truthy and, once trimmed, not empty, in the order of the rows,
    and the record is Valid exactly when the cell contains the name of the
    standard, the case of the letters set aside.  A row without record, its
    cell being empty, blank, [false] or zero, does not contain that name:
    so a row is marked Valid exactly when its cell contains the name of the
    standard. *)
Theorem projectUnitsCheck_verdicts (sourceText : jsstring)
        (excelData : list object) (h : jsstring) :
  findTruthy Qaqc.isUnitsHeader (Qaqc.headersOf excelData) = Some h ->
  exists r,
    Qaqc.projectUnitsCheck sourceText excelData = Some r
    /\ Qaqc.standardFromDocument (Qaqc.summary r)
       = Spec.chosenStandard sourceText
    /\ Forall2 (Spec.unitsVerdict (Spec.chosenStandard sourceText) h)
               (filter (Spec.filled h) excelData)
               (Qaqc.details r)
    /\ (Props.basicLatinCase -> Props.falsyNumberText ->
        forall row,
          In row excelData -> Spec.filled h row = false ->
          ~ Spec.containsIgnoringCase (Spec.cellText row h)
                                      (Spec.chosenStandard sourceText)).
Proof.
  intros Hh. unfold Qaqc.projectUnitsCheck. rewrite Hh.
  eexists; split; [reflexivity|]. cbn [Qaqc.summary Qaqc.details
                                        Qaqc.standardFromDocument].
  rewrite projectUnitStandard_chosen. split; [reflexivity|].
  split; [apply unitsRow_verdict|].
  intros latin Hnum row _ Hrow.
  apply unfilled_names_no_standard; assumption.
Qed.

End Units.

(* ================================================================== *)
(** * The RVT-link and Navisworks checks *)
(* ================================================================== *)

Section Synthetic.
Context {RT : Runtime}.

Lemma filter_all_empty (h : jsstring) (excelData : list object) :
  (forall r, In r excelData -> Qaqc.cellNullish r h = []) ->
  filter (Qaqc.nonEmptyCell h) excelData = [].
Proof.
  induction excelData as [|r rows IH]; intros Hall; simpl; [reflexivity|].
  unfold Qaqc.nonEmptyCell at 1. rewrite (Hall r) by (left; reflexivity).
  simpl. apply IH. intros r' Hr'. apply Hall. right; exact Hr'.
Qed.

(** C8.  When the column of the RVT-link check is found and every cell of
    it is empty once trimmed, the check returns the one synthetic record,
    which is Valid; when the column of the Navisworks check is found and
    every cell of it is empty once trimmed, the check returns the one
    synthetic record, which is Invalid. *)
Theorem empty_column_synthetic_records (rvtData navisData : list object)
        (hr hn : jsstring) :
  findTruthy Qaqc.isRvtHeader (Qaqc.headersOf rvtData) = Some hr ->
  (forall r, In r rvtData -> Qaqc.cellNullish r hr = []) ->
  findTruthy Qaqc.isNavisworksHeader (Qaqc.headersOf navisData) = Some hn ->
  (forall r, In r navisData -> Qaqc.cellNullish r hn = []) ->
  (Qaqc.rvtLinkPinnedCheck rvtData = Some [Qaqc.rvtSynthetic]
   /\ Qaqc.status Qaqc.rvtSynthetic = Qaqc.Valid)
  /\ (Qaqc.navisworksViewNameCheck navisData = Some [Qaqc.navisworksSynthetic]
      /\ Qaqc.status Qaqc.navisworksSynthetic = Qaqc.Invalid).
Proof.
  intros Hr Er Hn En. split; split; try reflexivity.
  - unfold Qaqc.rvtLinkPinnedCheck, Qaqc.rvtLinkPinnedFor.
    rewrite Hr, (filter_all_empty _ _ Er). reflexivity.
  - unfold Qaqc.navisworksViewNameCheck, Qaqc.navisworksFor.
    rewrite Hn, (filter_all_empty _ _ En). reflexivity.
Qed.

End Synthetic.

(* ================================================================== *)
(** * The row checkers on a sheet of three rows *)
(* ================================================================== *)

Section SheetExamples.
#[local] Existing Instance BasicLatin.runtime.

Lemma fileNameCheck_verdicts_witness :
  exists out,
    Qaqc.fileNameCheck (Qaqc.pdfTokens Examples.corpus) Examples.sheet
    = Some out
    /\ Forall2 (Spec.fileNameVerdict (Qaqc.pdfTokens Examples.corpus)
                                     (lit "FileName"))
               (filter (Spec.filled (lit "FileName")) Examples.sheet)
               out.
Proof.
  apply (@fileNameCheck_verdicts BasicLatin.runtime
           (Qaqc.pdfTokens Examples.corpus) Examples.sheet (lit "FileName")).
  vm_compute. reflexivity.
Defined.

(** C2, as the specification states it, fails: a file-name cell that holds
    the number zero is not empty once trimmed, its text is [0], and the
    check, which finds the column, returns no record for its row. *)
Lemma fileNameCheck_zero_cell_no_record :
  filter (Spec.notBlank (lit "FileName")) Examples.zeroSheet
  = Examples.zeroSheet
  /\ map (fun row => Spec.cellText row (lit "FileName")) Examples.zeroSheet
     = [lit "0"]
  /\ findTruthy Qaqc.isFileNameHeader (Qaqc.headersOf Examples.zeroSheet)
     = Some (lit "FileName")
  /\ Qaqc.fileNameCheck (Qaqc.pdfTokens Examples.corpus) Examples.zeroSheet
     = Some [].
Proof. vm_compute. repeat split. Qed.

(** The first name of the sheet is valid, the second is not, and the row
    without a name has no record. *)
Example fileNameCheck_sheet :
  option_map (map (@Qaqc.status BasicLatin.runtime))
             (Qaqc.fileNameCheck (Qaqc.pdfTokens Examples.corpus)
                                 Examples.sheet)
  = Some [Qaqc.Valid; Qaqc.Invalid].
Proof. vm_compute. reflexivity. Qed.

Lemma projectUnitsCheck_verdicts_witness :
  exists r,
    Qaqc.projectUnitsCheck Examples.corpus Examples.sheet = Some r
    /\ Qaqc.standardFromDocument (Qaqc.summary r)
       = Spec.chosenStandard (RT := BasicLatin.runtime) Examples.corpus
    /\ Forall2 (Spec.unitsVerdict
                  (Spec.chosenStandard (RT := BasicLatin.runtime)
                                       Examples.corpus)
                  (lit "Project Units"))
               (filter (Spec.filled (lit "Project Units")) Examples.sheet)
               (Qaqc.details r)
    /\ (Props.basicLatinCase -> Props.falsyNumberText ->
        forall row,
          In row Examples.sheet ->
          Spec.filled (lit "Project Units") row = false ->
          ~ Spec.containsIgnoringCase
              (Spec.cellText row (lit "Project Units"))
              (Spec.chosenStandard (RT := BasicLatin.runtime)
                                   Examples.corpus)).
Proof.
  apply (@projectUnitsCheck_verdicts BasicLatin.runtime
           Examples.corpus Examples.sheet (lit "Project Units")).
  vm_compute. reflexivity.
Defined.

(** The corpus names metric words three times and imperial words once. *)
Example projectUnitsCheck_sheet :
  Spec.metricWordCount (RT := BasicLatin.runtime) Examples.corpus = 3
  /\ Spec.imperialWordCount (RT := BasicLatin.runtime) Examples.corpus = 1
  /\ option_map (fun r => (Qaqc.standardFromDocument (Qaqc.summary r),
                           map (@Qaqc.status BasicLatin.runtime)
                               (Qaqc.details r)))
                (Qaqc.projectUnitsCheck Examples.corpus Examples.sheet)
     = Some (lit "Metric", [Qaqc.Valid; Qaqc.Invalid]).
Proof. vm_compute. repeat split. Qed.

Lemma empty_column_synthetic_records_witness :
  (Qaqc.rvtLinkPinnedCheck Examples.sheet = Some [Qaqc.rvtSynthetic]
   /\ Qaqc.status (@Qaqc.rvtSynthetic BasicLatin.runtime) = Qaqc.Valid)
  /\ (Qaqc.navisworksViewNameCheck Examples.sheet
      = Some [Qaqc.navisworksSynthetic]
      /\ Qaqc.status (@Qaqc.navisworksSynthetic BasicLatin.runtime)
         = Qaqc.Invalid).
Proof.
  apply (@empty_column_synthetic_records BasicLatin.runtime
           Examples.sheet Examples.sheet
           (lit "RVT link is pinned") (lit "Navisworks View Name")).
  - vm_compute. reflexivity.
  - intros r [<-|[<-|[<-|[]]]]; vm_compute; reflexivity.
  - vm_compute. reflexivity.
  - intros r [<-|[<-|[<-|[]]]]; vm_compute; reflexivity.
Defined.

(** An occurrence of millimeter is also one of meter: it counts twice. *)
Example metricScore_millimeter :
  Qaqc.metricScore (lit "1 millimeter") = 2
  /\ Qaqc.imperialScore (lit "1 millimeter") = 0.
Proof. vm_compute. split; reflexivity. Qed.

(** C7.  The rows of the RVT-link check are selected on the
    trimmed cell, but the comparison with [true] is made on the cell as it
    is: the cell [true] followed by a space is not empty, its trimmed lower
    case is [true], and the record is Invalid.  The pinned flag of the
    levels and grids check is trimmed before it is compared. *)
Theorem rvtLinkPinned_untrimmed_cell :
  (forall r, In r Examples.pinnedSheet ->
             toLowerCase (Qaqc.cellNullish r (lit "RVT link is pinned"))
             = lit "true")
  /\ option_map (map (@Qaqc.status BasicLatin.runtime))
                (Qaqc.rvtLinkPinnedCheck Examples.pinnedSheet)
     = Some [Qaqc.Invalid]
  /\ Qaqc.levelsGridsIsPinned (RT := BasicLatin.runtime) (lit "Level / true ")
     = true.
Proof.
  split; [|split].
  - intros r [<-|[]]. vm_compute. reflexivity.
  - vm_compute. reflexivity.
  - vm_compute. reflexivity.
Qed.

End SheetExamples.

(* ================================================================== *)
(** * Sorting *)
(* ================================================================== *)

Lemma insertBy_perm (A : Type) (cmp : A -> A -> Z) (x : A) (l : list A) :
  Permutation (Midp.insertBy cmp x l) (x :: l).
Proof.
  induction l as [|y t IH]; simpl; [apply Permutation_refl|].
  destruct (cmp x y <=? 0)%Z; [apply Permutation_refl|].
  eapply Permutation_trans; [apply perm_skip, IH | apply perm_swap].
Qed.

Lemma sortBy_perm (A : Type) (cmp : A -> A -> Z) (l : list A) :
  Permutation (Midp.sortBy cmp l) l.
Proof.
  induction l as [|x t IH]; simpl; [apply Permutation_refl|].
  eapply Permutation_trans; [apply insertBy_perm | apply perm_skip, IH].
Qed.

Lemma sortBy_length (A : Type) (cmp : A -> A -> Z) (l : list A) :
  length (Midp.sortBy cmp l) = length l.
Proof. apply Permutation_length, sortBy_perm. Qed.

Lemma sortBy_In (A : Type) (cmp : A -> A -> Z) (l : list A) (x : A) :
  In x (Midp.sortBy cmp l) <-> In x l.
Proof.
  split; apply Permutation_in;
    [apply sortBy_perm | apply Permutation_sym, sortBy_perm].
Qed.

(* ================================================================== *)
(** * The compliance score *)
(* ================================================================== *)

Section Compliance.
Context {RT : Runtime}.

Lemma matchedOf_length (dataHeaderSet : StrSet) (standardParams : list jsstring) :
  length (Loin.matchedOf dataHeaderSet standardParams)
  <= length standardParams.
Proof.
  unfold Loin.matchedOf.
  assert (G : forall ps acc,
             length (fold_left
                       (fun acc stdP =>
                          if setHas dataHeaderSet (Loin.normalize stdP)
                          then acc ++ [stdP] else acc) ps acc)
             <= length acc + length ps).
  { induction ps as [|p ps IH]; intros acc; simpl; [lia|].
    destruct (setHas dataHeaderSet (Loin.normalize p)).
    - specialize (IH (acc ++ [p])). rewrite length_app in IH. simpl in IH. lia.
    - specialize (IH acc). lia. }
  apply (G standardParams []).
Qed.

(** C9.  With a required list that is not empty the score is the number of
    matched parameters divided by the number of required ones, times 100,
    in double precision; with an empty required list the matched list is
    empty and the score is 0, not 100; the branch that gives 100 for no
    required parameter needs a matched parameter, and there is never one:
    the matched parameters are never more than the required ones. *)
Theorem complianceScore_cases (standardParams analyzableHeaders : list jsstring) :
  let r := Loin.compliance standardParams analyzableHeaders in
  (0 < length standardParams ->
   Loin.complianceScore r
   = (Loin.ofLength (length (Loin.matched r))
      / Loin.ofLength (length standardParams) * 100)%float)
  /\ (standardParams = [] ->
      Loin.matched r = [] /\ Loin.complianceScore r = 0%float
      /\ Loin.complianceScore r <> 100%float)
  /\ length (Loin.matched r) <= length standardParams
  /\ ~ (length standardParams = 0 /\ 0 < length (Loin.matched r)).
Proof.
  cbv zeta. unfold Loin.compliance.
  cbn [Loin.matched Loin.complianceScore]. unfold Loin.sortNames.
  rewrite sortBy_length.
  set (hs := fold_left (fun s h => setAdd s (Loin.normalize h))
                       analyzableHeaders []).
  pose proof (matchedOf_length hs standardParams) as Hle.
  split; [|split; [|split]].
  - intros Hpos. unfold Loin.scoreOf.
    destruct (0 <? length standardParams) eqn:E.
    + reflexivity.
    + apply Nat.ltb_ge in E. lia.
  - intros ->. split; [reflexivity|]. split; [reflexivity|].
    vm_compute. discriminate.
  - exact Hle.
  - lia.
Qed.

(** On an empty required list and no column the score is 0; two of three
    required parameters found give two thirds of 100. *)
Example complianceScore_examples :
  Loin.complianceScore (Loin.compliance (RT := BasicLatin.runtime) [] [])
  = 0%float
  /\ Loin.complianceScore
       (Loin.compliance (RT := BasicLatin.runtime)
          [lit "Fire Rating"; lit "Material"; lit "Width"]
          [lit "Width "; lit "Material"; lit "Comments"])
     = (2 / 3 * 100)%float.
Proof. split; vm_compute; reflexivity. Qed.

End Compliance.

(* ================================================================== *)
(** * Maps in insertion order *)
(* ================================================================== *)

Lemma mapGet_mapSet (V : Type) (m : StrMap V) (k k' : jsstring) (v : V) :
  mapGet (mapSet m k v) k' = if eqb k' k then Some v else mapGet m k'.
Proof.
  induction m as [|[k0 v0] rest IH]; simpl.
  - reflexivity.
  - destruct (eqb_spec k k0) as [->|Hne]; simpl.
    + destruct (eqb k' k0); reflexivity.
    + rewrite IH. destruct (eqb_spec k' k0) as [->|Hne'].
      * destruct (eqb_spec k0 k); [congruence | reflexivity].
      * reflexivity.
Qed.

Lemma mapKeys_In (V : Type) (m : StrMap V) (k : jsstring) :
  In k (mapKeys m) <-> exists v, mapGet m k = Some v.
Proof.
  unfold mapKeys. induction m as [|[k0 v0] rest IH]; simpl.
  - split; [tauto | intros (v & H); discriminate].
  - destruct (eqb_spec k k0) as [->|Hne].
    + split; [intros _; exists v0; reflexivity | left; reflexivity].
    + rewrite IH. split; [intros [E|H]; [congruence | exact H] | tauto].
Qed.

Lemma mapGet_None_keys (V : Type) (m : StrMap V) (k : jsstring) :
  mapGet m k = None <-> ~ In k (mapKeys m).
Proof.
  rewrite mapKeys_In. destruct (mapGet m k) as [v|]; split.
  - discriminate.
  - intros H; exfalso; apply H; exists v; reflexivity.
  - intros _ (v & H); discriminate.
  - reflexivity.
Qed.

(* ================================================================== *)
(** * The ingestion of a manifest *)
(* ================================================================== *)

Section Ingestion.
Context {RT : Runtime}.
Variables (nameH fmtH : jsstring) (msHeaders : StrMap jsstring).

Lemma mapGet_touchBaseName (cd : Midp.FileDataMap) (k0 name : jsstring)
      (rm : StrSet) (k : jsstring) :
  mapGet (Midp.touchBaseName cd k0 name rm) k
  = if eqb k k0
    then Some (match mapGet cd k0 with
               | None => {| Midp.originalCase := name;
                            Midp.formatCounts := [];
                            Midp.milestones := rm |}
               | Some item =>
                 Midp.setMilestones
                   item (fold_left setAdd rm (Midp.milestones item))
               end)
    else mapGet cd k.
Proof.
  unfold Midp.touchBaseName.
  destruct (mapGet cd k0); rewrite mapGet_mapSet; reflexivity.
Qed.

Lemma recorded_touchBaseName (cd : Midp.FileDataMap) (k0 name : jsstring)
      (rm : StrSet) (k f : jsstring) :
  Spec.recorded (Midp.touchBaseName cd k0 name rm) k f = Spec.recorded cd k f.
Proof.
  unfold Spec.recorded. rewrite mapGet_touchBaseName.
  destruct (eqb_spec k k0) as [->|Hne]; [|reflexivity].
  destruct (mapGet cd k0); reflexivity.
Qed.

Lemma recorded_countFormat (cd : Midp.FileDataMap) (k0 e k f : jsstring) :
  mapGet cd k0 <> None ->
  Spec.recorded (Midp.countFormat cd k0 e) k f
  = if eqb k k0 && negb (isEmpty e) && eqb f e
    then Some (match Spec.recorded cd k0 e with
               | Some n => n
               | None => 0
               end + 1)
    else Spec.recorded cd k f.
Proof.
  intros Hin. unfold Midp.countFormat, Spec.recorded.
  destruct (isEmpty e); [rewrite andb_false_r; reflexivity|].
  rewrite andb_true_r.
  destruct (mapGet cd k0) as [item|] eqn:E0; [|congruence].
  rewrite mapGet_mapSet.
  destruct (eqb_spec k k0) as [->|Hne]; cbn [andb]; [|reflexivity].
  rewrite E0. cbn [Midp.setFormatCounts Midp.formatCounts].
  rewrite mapGet_mapSet. reflexivity.
Qed.

Lemma mapGet_countFormat_other (cd : Midp.FileDataMap) (k0 e k : jsstring) :
  k <> k0 -> mapGet (Midp.countFormat cd k0 e) k = mapGet cd k.
Proof.
  intros Hne. unfold Midp.countFormat.
  destruct (isEmpty e); [reflexivity|].
  destruct (mapGet cd k0); [|reflexivity].
  rewrite mapGet_mapSet. destruct (eqb_spec k k0); [congruence | reflexivity].
Qed.

(** [countFormat] keeps the entry of the base name but for its counts. *)
Lemma mapGet_countFormat_same (cd : Midp.FileDataMap) (k0 e : jsstring)
      (item : Midp.FileDataItem) :
  mapGet cd k0 = Some item ->
  exists item',
    mapGet (Midp.countFormat cd k0 e) k0 = Some item'
    /\ Midp.originalCase item' = Midp.originalCase item
    /\ Midp.milestones item' = Midp.milestones item.
Proof.
  intros E. unfold Midp.countFormat.
  destruct (isEmpty e); [exists item; auto|].
  rewrite E, mapGet_mapSet, eqb_refl.
  eexists; split; [reflexivity | split; reflexivity].
Qed.

(** One more row: what the scan has after [rows ++ [row]]. *)
Lemma ingest_snoc (rows : list object) (row : object) :
  Midp.ingest nameH fmtH msHeaders (rows ++ [row])
  = Midp.ingestRow nameH fmtH msHeaders
                   (Midp.ingest nameH fmtH msHeaders rows) row.
Proof. unfold Midp.ingest. rewrite fold_left_app. reflexivity. Qed.

Lemma manifestPairs_snoc (rows : list object) (row : object) :
  Spec.manifestPairs nameH fmtH (rows ++ [row])
  = Spec.manifestPairs nameH fmtH rows
    ++ Spec.manifestPairs nameH fmtH [row].
Proof. unfold Spec.manifestPairs. apply flat_map_app. Qed.

Lemma manifestPairs_single (row : object) :
  Spec.manifestPairs nameH fmtH [row]
  = if negb (isEmpty (Midp.baseNameOf nameH row))
       && negb (isEmpty (Midp.extensionOf fmtH row))
    then [(toLowerCase (Midp.baseNameOf nameH row), Midp.extensionOf fmtH row)]
    else [].
Proof. unfold Spec.manifestPairs. cbn [flat_map]. apply app_nil_r. Qed.

(** The count recorded for a base name and a format is the number of rows
    of the manifest that have both; nothing is recorded when there is none. *)
Lemma recorded_columnDataOf (rows : list object) (k f : jsstring) :
  Spec.recorded (Midp.columnDataOf nameH fmtH msHeaders rows) k f
  = let n := count_occ Spec.pair_dec (Spec.manifestPairs nameH fmtH rows) (k, f) in
    if n =? 0 then None else Some n.
Proof.
  unfold Midp.columnDataOf. revert k f.
  induction rows as [|row rows IH] using rev_ind; intros k f.
  - reflexivity.
  - rewrite ingest_snoc, manifestPairs_snoc, count_occ_app.
    rewrite manifestPairs_single. unfold Midp.ingestRow.
    set (ps := Spec.manifestPairs nameH fmtH rows) in *.
    destruct (isEmpty (Midp.baseNameOf nameH row)) eqn:En.
    + cbn [negb andb count_occ]. rewrite Nat.add_0_r. apply IH.
    + cbn [fst]. rewrite recorded_countFormat.
      2:{ rewrite mapGet_touchBaseName, eqb_refl. discriminate. }
      rewrite !recorded_touchBaseName, !IH.
      cbn [negb andb].
      set (k0 := toLowerCase (Midp.baseNameOf nameH row)).
      set (e := Midp.extensionOf fmtH row).
      destruct (isEmpty e) eqn:Ee; cbn [negb].
      * rewrite andb_false_r. cbn [andb count_occ].
        rewrite Nat.add_0_r. reflexivity.
      * rewrite andb_true_r. cbn [count_occ].
        destruct (Spec.pair_dec (k0, e) (k, f)) as [Heq|Hne].
        -- injection Heq as <- <-. rewrite !eqb_refl. cbn [andb].
           cbv zeta.
           destruct (count_occ Spec.pair_dec ps (k0, e)) as [|n]; cbn [Nat.eqb].
           ++ reflexivity.
           ++ replace (S n + 1 =? 0) with false
                by (symmetry; apply Nat.eqb_neq; lia).
              reflexivity.
        -- replace (eqb k k0 && eqb f e) with false.
           ++ rewrite Nat.add_0_r. reflexivity.
           ++ symmetry. apply andb_false_iff.
              destruct (eqb_spec k k0) as [->|]; [|left; reflexivity].
              destruct (eqb_spec f e) as [->|]; [congruence|right; reflexivity].
Qed.

End Ingestion.

Section Entries.
Context {RT : Runtime}.
Variables (nameH fmtH : jsstring) (msHeaders : StrMap jsstring).

Lemma isEmpty_false (s : jsstring) : isEmpty s = false <-> s <> [].
Proof. destruct s; simpl; split; congruence. Qed.

(** What a row with a base name leaves in the map. *)
Lemma ingestRow_entry (cd : Midp.FileDataMap) (n : nat) (row : object) :
  isEmpty (Midp.baseNameOf nameH row) = false ->
  let k0 := toLowerCase (Midp.baseNameOf nameH row) in
  let cd' := fst (Midp.ingestRow nameH fmtH msHeaders (cd, n) row) in
  (forall k, k <> k0 -> mapGet cd' k = mapGet cd k)
  /\ exists item',
      mapGet cd' k0 = Some item'
      /\ Midp.originalCase item'
         = match mapGet cd k0 with
           | None => Midp.baseNameOf nameH row
           | Some i => Midp.originalCase i
           end
      /\ Midp.milestones item'
         = match mapGet cd k0 with
           | None => Midp.rowMilestonesOf msHeaders row
           | Some i => fold_left setAdd (Midp.rowMilestonesOf msHeaders row)
                                 (Midp.milestones i)
           end.
Proof.
  intros En k0 cd'. subst cd'. unfold Midp.ingestRow. rewrite En.
  cbn [fst]. fold k0. split.
  - intros k Hk. rewrite mapGet_countFormat_other by exact Hk.
    rewrite mapGet_touchBaseName.
    destruct (eqb_spec k k0); [congruence | reflexivity].
  - set (item1 := match mapGet cd k0 with
                  | None => {| Midp.originalCase := Midp.baseNameOf nameH row;
                               Midp.formatCounts := [];
                               Midp.milestones :=
                                 Midp.rowMilestonesOf msHeaders row |}
                  | Some item =>
                    Midp.setMilestones
                      item (fold_left setAdd
                                      (Midp.rowMilestonesOf msHeaders row)
                                      (Midp.milestones item))
                  end).
    destruct (@mapGet_countFormat_same
                (Midp.touchBaseName cd k0 (Midp.baseNameOf nameH row)
                                    (Midp.rowMilestonesOf msHeaders row))
                k0 (Midp.extensionOf fmtH row) item1)
      as (item' & Hget & Ho & Hm).
    { rewrite mapGet_touchBaseName, eqb_refl. reflexivity. }
    exists item'. split; [exact Hget|]. rewrite Ho, Hm. subst item1.
    destruct (mapGet cd k0); split; reflexivity.
Qed.

Lemma ingestRow_skip (st : Midp.FileDataMap * nat) (row : object) :
  isEmpty (Midp.baseNameOf nameH row) = true ->
  Midp.ingestRow nameH fmtH msHeaders st row = st.
Proof. intros En. unfold Midp.ingestRow. rewrite En. reflexivity. Qed.

Lemma columnDataOf_snoc (rows : list object) (row : object) :
  Midp.columnDataOf nameH fmtH msHeaders (rows ++ [row])
  = fst (Midp.ingestRow nameH fmtH msHeaders
           (Midp.columnDataOf nameH fmtH msHeaders rows,
            snd (Midp.ingest nameH fmtH msHeaders rows)) row).
Proof.
  unfold Midp.columnDataOf. rewrite ingest_snoc.
  destruct (Midp.ingest nameH fmtH msHeaders rows); reflexivity.
Qed.

(** The entry of a base name keeps the name as a row wrote it, and its key
    is that name in lower case. *)
Lemma columnDataOf_originalCase (rows : list object) (k : jsstring)
      (item : Midp.FileDataItem) :
  mapGet (Midp.columnDataOf nameH fmtH msHeaders rows) k = Some item ->
  Midp.originalCase item <> [] /\ toLowerCase (Midp.originalCase item) = k.
Proof.
  revert k item. induction rows as [|row rows IH] using rev_ind;
    intros k item Hget.
  - discriminate.
  - rewrite columnDataOf_snoc in Hget.
    destruct (isEmpty (Midp.baseNameOf nameH row)) eqn:En.
    + rewrite ingestRow_skip in Hget by exact En. apply IH, Hget.
    + destruct (ingestRow_entry
                  (Midp.columnDataOf nameH fmtH msHeaders rows)
                  (snd (Midp.ingest nameH fmtH msHeaders rows)) row En)
        as (Hother & item' & Hsame & Ho & _).
      destruct (eqb_spec k (toLowerCase (Midp.baseNameOf nameH row)))
        as [->|Hne].
      * rewrite Hsame in Hget. injection Hget as <-. rewrite Ho.
        destruct (mapGet (Midp.columnDataOf nameH fmtH msHeaders rows)
                         (toLowerCase (Midp.baseNameOf nameH row)))
          as [i|] eqn:E.
        -- apply IH, E.
        -- split; [apply isEmpty_false, En | reflexivity].
      * rewrite Hother in Hget by exact Hne. apply IH, Hget.
Qed.


(** Every row with a base name has an entry, which holds its milestones. *)
Lemma columnDataOf_milestones (rows : list object) (row : object) :
  In row rows -> Midp.baseNameOf nameH row <> [] ->
  exists item,
    mapGet (Midp.columnDataOf nameH fmtH msHeaders rows)
           (toLowerCase (Midp.baseNameOf nameH row)) = Some item
    /\ incl (Midp.rowMilestonesOf msHeaders row) (Midp.milestones item).
Proof.
  revert row. induction rows as [|last rows IH] using rev_ind;
    intros row Hin Hne; [destruct Hin|].
  rewrite columnDataOf_snoc.
  destruct (isEmpty (Midp.baseNameOf nameH last)) eqn:En.
  - rewrite ingestRow_skip by exact En. cbn [fst].
    apply in_app_or in Hin. destruct Hin as [Hin|[<-|[]]].
    + apply IH; assumption.
    + apply isEmpty_false in Hne. congruence.
  - destruct (ingestRow_entry
                (Midp.columnDataOf nameH fmtH msHeaders rows)
                (snd (Midp.ingest nameH fmtH msHeaders rows)) last En)
      as (Hother & item' & Hsame & _ & Hm).
    apply in_app_or in Hin.
    destruct (eqb_spec (toLowerCase (Midp.baseNameOf nameH row))
                       (toLowerCase (Midp.baseNameOf nameH last)))
      as [Heq|Hneq].
    + rewrite Heq. exists item'. split; [exact Hsame|]. rewrite Hm.
      destruct Hin as [Hin|[<-|[]]].
      * destruct (IH row Hin Hne) as (i & Hi & Hincl).
        rewrite Heq in Hi. rewrite Hi.
        intros m Hmem. apply fold_setAdd_In. right. apply Hincl, Hmem.
      * destruct (mapGet (Midp.columnDataOf nameH fmtH msHeaders rows)
                         (toLowerCase (Midp.baseNameOf nameH last))).
        -- intros m Hmem. apply fold_setAdd_In. left. exact Hmem.
        -- apply incl_refl.
    + rewrite Hother by exact Hneq.
      destruct Hin as [Hin|[<-|[]]]; [apply IH; assumption | congruence].
Qed.

End Entries.

(* ================================================================== *)
(** * The reconciler *)
(* ================================================================== *)

Lemma NoDup_flat_map_pairs (g : jsstring -> list jsstring) (l : list jsstring) :
  NoDup l -> (forall x, NoDup (g x)) ->
  NoDup (flat_map (fun x => map (fun y => (x, y)) (g x)) l).
Proof.
  intros Hl Hg. induction Hl as [|x l Hx Hl IH]; simpl; [constructor|].
  apply NoDup_app.
  - apply NoDup_map_NoDup_ForallPairs; [|apply Hg].
    intros a b _ _ E; congruence.
  - exact IH.
  - intros [a b] Hin1 Hin2. apply in_map_iff in Hin1.
    destruct Hin1 as (y & Ey & _). injection Ey as <- <-.
    apply in_flat_map in Hin2. destruct Hin2 as (x' & Hx' & Hin2).
    apply in_map_iff in Hin2. destruct Hin2 as (y' & Ey' & _).
    injection Ey' as <- <-. apply Hx, Hx'.
Qed.

Lemma classify_fourWay (required actual : nat) :
  1 <= required \/ 1 <= actual ->
  Spec.fourWayRule required actual (Midp.classify required actual).
Proof.
  intros Hpos. unfold Spec.fourWayRule, Midp.classify.
  destruct (Nat.ltb_spec 0 required), (Nat.eqb_spec actual 0),
    (Nat.eqb_spec required 0), (Nat.ltb_spec 0 actual),
    (Nat.eqb_spec required actual); cbn [andb negb];
    repeat split; intros; try reflexivity; try lia.
Qed.

Section Compare.
Context {RT : Runtime}.

Lemma countOf_recorded (cd : Midp.FileDataMap) (k f : jsstring) :
  Midp.countOf (mapGet cd k) f
  = match Spec.recorded cd k f with Some n => n | None => 0 end.
Proof. unfold Midp.countOf, Spec.recorded. destruct (mapGet cd k); reflexivity. Qed.

Lemma formatsOf_recorded (cd : Midp.FileDataMap) (k f : jsstring) :
  In f (Midp.formatsOf (mapGet cd k)) <-> Spec.recorded cd k f <> None.
Proof.
  unfold Midp.formatsOf, Spec.recorded. destruct (mapGet cd k) as [i|].
  - rewrite mapKeys_In. destruct (mapGet (Midp.formatCounts i) f) as [n|].
    + split; [discriminate | intros _; exists n; reflexivity].
    + split; [intros (v & H); discriminate | congruence].
  - simpl. split; [tauto | congruence].
Qed.

Lemma formatsOf_key (cd : Midp.FileDataMap) (k f : jsstring) :
  In f (Midp.formatsOf (mapGet cd k)) -> In k (mapKeys cd).
Proof.
  intros H. apply mapKeys_In. destruct (mapGet cd k) as [i|].
  - exists i; reflexivity.
  - destruct H.
Qed.

(** The pairs the two loops visit: the formats recorded on either side. *)
Lemma visitedPairs_In (midpMap accMap : Midp.FileDataMap) (k f : jsstring) :
  In (k, f) (Midp.visitedPairs midpMap accMap)
  <-> In f (Midp.formatsOf (mapGet midpMap k))
      \/ In f (Midp.formatsOf (mapGet accMap k)).
Proof.
  unfold Midp.visitedPairs. rewrite in_flat_map. split.
  - intros (k' & _ & Hin). apply in_map_iff in Hin.
    destruct Hin as (f' & E & Hf). injection E as -> ->.
    unfold Midp.allFormatsForThisBase in Hf.
    rewrite !fold_setAdd_In in Hf. simpl in Hf. tauto.
  - intros H. exists k. split.
    + unfold Midp.allBaseNames, Midp.setOfList.
      apply fold_setAdd_In. left. apply in_or_app.
      destruct H as [H|H]; [left | right]; apply (formatsOf_key _ _ _ H).
    + apply in_map_iff. exists f. split; [reflexivity|].
      unfold Midp.allFormatsForThisBase. rewrite !fold_setAdd_In. tauto.
Qed.

(** No pair is visited twice. *)
Lemma visitedPairs_NoDup (midpMap accMap : Midp.FileDataMap) :
  NoDup (Midp.visitedPairs midpMap accMap).
Proof.
  unfold Midp.visitedPairs.
  apply (NoDup_flat_map_pairs
           (fun k => Midp.allFormatsForThisBase (mapGet midpMap k)
                                                (mapGet accMap k))).
  - apply fold_setAdd_NoDup. constructor.
  - intros k. unfold Midp.allFormatsForThisBase.
    apply fold_setAdd_NoDup, fold_setAdd_NoDup. constructor.
Qed.

(** The sorted array holds the results of the visited pairs. *)
Lemma handleCompare_In (midpMap accMap : Midp.FileDataMap)
      (r : Midp.MIDPComparisonResultItem) :
  In r (Midp.handleCompare midpMap accMap)
  <-> exists k f, In (k, f) (Midp.visitedPairs midpMap accMap)
                  /\ r = Midp.resultFor midpMap accMap k f.
Proof.
  unfold Midp.handleCompare, Midp.unsortedResults.
  rewrite sortBy_In, in_map_iff. split.
  - intros ([k f] & E & H). exists k, f. split; [exact H | symmetry; exact E].
  - intros (k & f & H & E). exists (k, f). split; [symmetry; exact E | exact H].
Qed.

Variables (nameH fmtH : jsstring) (msHeaders : StrMap jsstring).

Lemma manifestPairs_carries (rows : list object) (k f : jsstring) :
  In (k, f) (Spec.manifestPairs nameH fmtH rows)
  <-> Spec.carries nameH fmtH rows k f.
Proof.
  unfold Spec.manifestPairs, Spec.carries. rewrite in_flat_map. split.
  - intros (row & Hrow & Hin).
    destruct (isEmpty (Midp.baseNameOf nameH row)) eqn:En;
      [destruct Hin|].
    destruct (isEmpty (Midp.extensionOf fmtH row)) eqn:Ee;
      [destruct Hin|].
    destruct Hin as [E|[]]. injection E as <- <-.
    exists row. repeat split; try assumption; apply isEmpty_false; assumption.
  - intros (row & Hrow & Hn & Hk & Hf & He). exists row. split; [exact Hrow|].
    subst f. apply isEmpty_false in Hn, He. rewrite Hn, He.
    left. rewrite Hk. reflexivity.
Qed.

Lemma countOf_columnDataOf (rows : list object) (k f : jsstring) :
  Midp.countOf (mapGet (Midp.columnDataOf nameH fmtH msHeaders rows) k) f
  = count_occ Spec.pair_dec (Spec.manifestPairs nameH fmtH rows) (k, f).
Proof.
  rewrite countOf_recorded, recorded_columnDataOf. cbv zeta.
  destruct (count_occ Spec.pair_dec (Spec.manifestPairs nameH fmtH rows) (k, f));
    reflexivity.
Qed.

Lemma formatsOf_columnDataOf (rows : list object) (k f : jsstring) :
  In f (Midp.formatsOf
          (mapGet (Midp.columnDataOf nameH fmtH msHeaders rows) k))
  <-> In (k, f) (Spec.manifestPairs nameH fmtH rows).
Proof.
  rewrite formatsOf_recorded, recorded_columnDataOf. cbv zeta.
  rewrite (count_occ_In Spec.pair_dec).
  destruct (count_occ Spec.pair_dec (Spec.manifestPairs nameH fmtH rows) (k, f));
    cbn [Nat.eqb]; split; try congruence; lia.
Qed.

End Compare.

Section Reconcile.
Context {RT : Runtime}.
Variables (nameA fmtA : jsstring) (msA : StrMap jsstring) (rowsA : list object).
Variables (nameB fmtB : jsstring) (msB : StrMap jsstring) (rowsB : list object).

Local Abbreviation midpMap := (Midp.columnDataOf nameA fmtA msA rowsA).
Local Abbreviation accMap := (Midp.columnDataOf nameB fmtB msB rowsB).
Local Abbreviation pairsA := (Spec.manifestPairs nameA fmtA rowsA).
Local Abbreviation pairsB := (Spec.manifestPairs nameB fmtB rowsB).

Lemma visitedPairs_manifests (p : jsstring * jsstring) :
  In p (Midp.visitedPairs midpMap accMap) <-> In p (pairsA ++ pairsB).
Proof.
  destruct p as [k f].
  rewrite visitedPairs_In, !formatsOf_columnDataOf, in_app_iff. tauto.
Qed.

(** A result of the comparison of two manifests: its counts are the numbers
    of rows that have the pair, and its name, in lower case, is the key. *)
Lemma handleCompare_result (r : Midp.MIDPComparisonResultItem) :
  In r (Midp.handleCompare midpMap accMap) ->
  exists k f,
    In (k, f) (pairsA ++ pairsB)
    /\ Midp.midpCount r = count_occ Spec.pair_dec pairsA (k, f)
    /\ Midp.accCount r = count_occ Spec.pair_dec pairsB (k, f)
    /\ Midp.status r = Midp.classify (Midp.midpCount r) (Midp.accCount r)
    /\ Midp.format r = toUpperCase f
    /\ toLowerCase (Midp.baseName r) = k.
Proof.
  intros Hr. apply handleCompare_In in Hr. destruct Hr as (k & f & Hv & ->).
  exists k, f. pose proof Hv as Hp. apply visitedPairs_manifests in Hp.
  split; [exact Hp|].
  unfold Midp.resultFor.
  cbn [Midp.midpCount Midp.accCount Midp.status Midp.format Midp.baseName].
  rewrite !countOf_columnDataOf.
  repeat split.
  apply visitedPairs_In in Hv. unfold Midp.originalNameOf.
  destruct (mapGet midpMap k) as [i|] eqn:Ea.
  - destruct (columnDataOf_originalCase _ _ _ _ _ Ea) as [Hne Hk].
    apply isEmpty_false in Hne. rewrite Hne. exact Hk.
  - destruct (mapGet accMap k) as [i|] eqn:Eb.
    + destruct (columnDataOf_originalCase _ _ _ _ _ Eb) as [Hne Hk].
      apply isEmpty_false in Hne. rewrite Hne. exact Hk.
    + simpl in Hv. tauto.
Qed.

(** C4.  Every comparison that [handleCompare] returns for two ingested
    manifests is classified by the four-way rule: missing when only the
    required side has the pair, extra when only the actual side has it,
    matched when both have it equally often, a count mismatch otherwise;
    so 3/3 is matched, 2/0 missing, 0/1 extra and 2/5 a count mismatch. *)
Theorem handleCompare_classification (r : Midp.MIDPComparisonResultItem) :
  In r (Midp.handleCompare midpMap accMap) ->
  Spec.fourWayRule (Midp.midpCount r) (Midp.accCount r) (Midp.status r)
  /\ Midp.classify 3 3 = Midp.matched
  /\ Midp.classify 2 0 = Midp.missing_in_acc
  /\ Midp.classify 0 1 = Midp.extra_in_acc
  /\ Midp.classify 2 5 = Midp.count_mismatch.
Proof.
  intros Hr. split; [|repeat split].
  destruct (@handleCompare_result r Hr) as (k & f & Hp & Hm & Ha & Hs & _).
  rewrite Hs. apply classify_fourWay. rewrite Hm, Ha.
  apply in_app_or in Hp.
  destruct Hp as [Hp|Hp]; [left | right];
    apply (count_occ_In Spec.pair_dec) in Hp; lia.
Qed.


(** C10.  Every result that [handleCompare] returns for two ingested
    manifests has a count of at least one on a side, and it stands for a
    base name and a format that some row of that side carries, the format
    not empty; a row with a base name has an entry in the map of its
    manifest, which holds the milestones of the row, whatever its format;
    and a base name that no row carries with a format has no result. *)
Theorem handleCompare_formats_carried :
  (forall r, In r (Midp.handleCompare midpMap accMap) ->
             (1 <= Midp.midpCount r \/ 1 <= Midp.accCount r)
             /\ exists f,
                 Midp.format r = toUpperCase f
                 /\ ((1 <= Midp.midpCount r
                      /\ Spec.carries nameA fmtA rowsA
                                      (toLowerCase (Midp.baseName r)) f)
                     \/ (1 <= Midp.accCount r
                         /\ Spec.carries nameB fmtB rowsB
                                         (toLowerCase (Midp.baseName r)) f)))
  /\ (forall row, In row rowsA -> Midp.baseNameOf nameA row <> [] ->
                  exists item,
                    mapGet midpMap (toLowerCase (Midp.baseNameOf nameA row))
                    = Some item
                    /\ incl (Midp.rowMilestonesOf msA row)
                            (Midp.milestones item))
  /\ (forall k, (forall f, ~ Spec.carries nameA fmtA rowsA k f) ->
                (forall f, ~ Spec.carries nameB fmtB rowsB k f) ->
                forall r, In r (Midp.handleCompare midpMap accMap) ->
                          toLowerCase (Midp.baseName r) <> k).
Proof.
  assert (Hres : forall r, In r (Midp.handleCompare midpMap accMap) ->
            exists f,
              Midp.format r = toUpperCase f
              /\ ((1 <= Midp.midpCount r
                   /\ Spec.carries nameA fmtA rowsA
                                   (toLowerCase (Midp.baseName r)) f)
                  \/ (1 <= Midp.accCount r
                      /\ Spec.carries nameB fmtB rowsB
                                      (toLowerCase (Midp.baseName r)) f))).
  { intros r Hr.
    destruct (@handleCompare_result r Hr) as (k & f & Hp & Hm & Ha & _ & Hf & Hk).
    exists f. split; [exact Hf|]. rewrite Hk, Hm, Ha.
    apply in_app_or in Hp. destruct Hp as [Hp|Hp]; [left | right]; split;
      try (apply (count_occ_In Spec.pair_dec) in Hp; lia);
      apply manifestPairs_carries, Hp. }
  split; [|split].
  - intros r Hr. destruct (Hres r Hr) as (f & Hf & H).
    split; [tauto | exists f; tauto].
  - intros row Hin Hne. apply columnDataOf_milestones; assumption.
  - intros k HA HB r Hr Hk. destruct (Hres r Hr) as (f & _ & H).
    rewrite Hk in H. destruct H as [[_ H]|[_ H]];
      [apply (HA f H) | apply (HB f H)].
Qed.

End Reconcile.

(* ================================================================== *)
(** * The reconciler on two small manifests *)
(* ================================================================== *)

Section ManifestExamples.
#[local] Existing Instance BasicLatin.runtime.

Lemma handleCompare_classification_witness :
  Spec.fourWayRule (Midp.midpCount Examples.archRvt)
                   (Midp.accCount Examples.archRvt)
                   (Midp.status Examples.archRvt)
  /\ Midp.classify 3 3 = Midp.matched
  /\ Midp.classify 2 0 = Midp.missing_in_acc
  /\ Midp.classify 0 1 = Midp.extra_in_acc
  /\ Midp.classify 2 5 = Midp.count_mismatch.
Proof.
  apply (@handleCompare_classification BasicLatin.runtime
           Examples.nameHeader Examples.formatHeader
           Examples.milestoneHeaders Examples.midpRows
           Examples.nameHeader Examples.formatHeader [] Examples.accRows
           Examples.archRvt).
  apply handleCompare_In. exists (lit "arch-l01"), (lit "rvt").
  split; [|reflexivity]. vm_compute. left. reflexivity.
Defined.

(** The last branch of [classify] would call two counts of zero a match;
    no result has them, a format being recorded with its first row. *)
Example classify_zero_zero : Midp.classify 0 0 = Midp.matched.
Proof. reflexivity. Qed.

(** The four results of the two manifests, sorted: name, format, status and
    the two counts.  The model MEP-X, whose rows have no format, has an
    entry in both maps and no result. *)
Example handleCompare_manifests :
  map (fun r => (Midp.baseName r, Midp.format r, Midp.status r,
                 Midp.midpCount r, Midp.accCount r))
      (Midp.handleCompare Examples.midpMap Examples.accMap)
  = [(lit "ARCH-L01", lit "PDF", Midp.extra_in_acc, 0, 1);
     (lit "ARCH-L01", lit "RVT", Midp.count_mismatch, 2, 1);
     (lit "CIV-01", lit "DWG", Midp.missing_in_acc, 1, 0);
     (lit "STR-B1", lit "IFC", Midp.matched, 1, 1)]
  /\ mapHas Examples.midpMap (lit "mep-x") = true
  /\ mapHas Examples.accMap (lit "mep-x") = true.
Proof. vm_compute. repeat split. Qed.

End ManifestExamples.

(* ================================================================== *)
(** * More on the text normalizer *)
(* ================================================================== *)

Lemma inRange_above (lo hi c : N) : (hi < c)%N -> inRange lo hi c = false.
Proof.
  intros H. unfold inRange. apply andb_false_iff. right.
  apply N.leb_gt. exact H.
Qed.

Lemma inRange_below (lo hi c : N) : (c < lo)%N -> inRange lo hi c = false.
Proof.
  intros H. unfold inRange. apply andb_false_iff. left.
  apply N.leb_gt. exact H.
Qed.

Lemma inRange_spec (lo hi c : N) :
  inRange lo hi c = true <-> (lo <= c <= hi)%N.
Proof.
  unfold inRange. rewrite andb_true_iff, !N.leb_le. tauto.
Qed.

(** A surrogate is neither a control nor a format character. *)
Lemma surrogate_not_CcCf (c : N) :
  (55296 <= c <= 57343)%N -> Text.isCcCf c = false.
Proof.
  intros H. unfold Text.isCcCf, Text.isCc, Text.isCf.
  repeat first [ rewrite (@inRange_above _ _ c) by lia
               | rewrite (@inRange_below _ _ c) by lia
               | rewrite (proj2 (N.eqb_neq c _)) by lia ].
  reflexivity.
Qed.

(** A control character is not a surrogate. *)
Lemma Cc_not_surrogate (c : N) :
  Text.isCc c = true ->
  Text.isHighSurrogate c = false /\ Text.isLowSurrogate c = false
  /\ Text.isCcCf c = true.
Proof.
  intros H. unfold Text.isCcCf. rewrite H. unfold Text.isCc in H.
  apply orb_true_iff in H. rewrite !inRange_spec in H.
  unfold Text.isHighSurrogate, Text.isLowSurrogate.
  repeat split; apply inRange_below; lia.
Qed.

Lemma removeCcCf_within (n : nat) (s : jsstring) :
  length s <= n ->
  Forall (fun c => Text.isCcCf c = false) (Text.removeCcCf s)
  /\ length (Text.removeCcCf s) <= length s.
Proof.
  revert s. induction n as [|n IH]; intros [|c t] Hl; simpl in Hl;
    try (split; [constructor | simpl; lia]); try lia.
  cbn [Text.removeCcCf]. destruct t as [|d t'].
  - destruct (Text.isCcCf c) eqn:Ec; split; simpl; try lia;
      repeat constructor. exact Ec.
  - simpl in Hl.
    destruct (Text.isHighSurrogate c && Text.isLowSurrogate d) eqn:Hs.
    + apply andb_true_iff in Hs. destruct Hs as [Hc Hd].
      unfold Text.isHighSurrogate, Text.isLowSurrogate in Hc, Hd.
      apply inRange_spec in Hc, Hd.
      destruct (IH t') as [Hf Hlen]; [lia|].
      destruct (Text.isCcCf (Text.codePoint c d)).
      * split; [exact Hf | simpl; lia].
      * split; [|simpl; lia].
        constructor; [apply surrogate_not_CcCf; lia|].
        constructor; [apply surrogate_not_CcCf; lia | exact Hf].
    + destruct (IH (d :: t')) as [Hf Hlen]; [simpl; lia|].
      destruct (Text.isCcCf c) eqn:Ec.
      * split; [exact Hf | simpl in *; lia].
      * split; [constructor; assumption | simpl in *; lia].
Qed.

(** X1.  Whatever the string, no code unit of the categories Cc and Cf is
    left in the result of the replacement, and the result is never longer
    than the string. *)
Theorem removeCcCf_clean (s : jsstring) :
  Forall (fun c => Text.isCcCf c = false) (Text.removeCcCf s)
  /\ length (Text.removeCcCf s) <= length s.
Proof. apply (@removeCcCf_within (length s)). apply Nat.le_refl. Qed.

Lemma removeCcCf_cons2 (x y : N) (t : jsstring) :
  Text.removeCcCf (x :: y :: t)
  = if Text.isHighSurrogate x && Text.isLowSurrogate y
    then (if Text.isCcCf (Text.codePoint x y) then Text.removeCcCf t
          else x :: y :: Text.removeCcCf t)
    else (if Text.isCcCf x then Text.removeCcCf (y :: t)
          else x :: Text.removeCcCf (y :: t)).
Proof. reflexivity. Qed.

Lemma removeCcCf_single (x : N) :
  Text.removeCcCf [x] = if Text.isCcCf x then [] else [x].
Proof. reflexivity. Qed.

(** A control character between two strings: the two are cleaned apart and
    nothing stands between the results. *)
Lemma removeCcCf_around_control (a b : jsstring) (c : N) :
  Text.isCc c = true ->
  Text.removeCcCf (a ++ c :: b) = Text.removeCcCf a ++ Text.removeCcCf b.
Proof.
  intros Hc. destruct (Cc_not_surrogate c Hc) as (Hhi & Hlo & Hcc).
  assert (Hnil : Text.removeCcCf (c :: b) = Text.removeCcCf b).
  { destruct b as [|d b'].
    - rewrite removeCcCf_single, Hcc. reflexivity.
    - rewrite removeCcCf_cons2, Hhi, Hcc. reflexivity. }
  assert (G : forall n a, length a <= n ->
             Text.removeCcCf (a ++ c :: b)
             = Text.removeCcCf a ++ Text.removeCcCf b).
  { induction n as [|n IH]; intros [|x t] Hl; simpl in Hl; try lia;
      try exact Hnil.
    destruct t as [|y t'].
    - cbn [app]. rewrite removeCcCf_cons2, removeCcCf_single.
      rewrite Hlo, andb_false_r, Hnil.
      destruct (Text.isCcCf x); reflexivity.
    - simpl in Hl. cbn [app]. rewrite !removeCcCf_cons2.
      change (y :: t' ++ c :: b) with ((y :: t') ++ c :: b).
      rewrite (IH t') by lia. rewrite (IH (y :: t')) by (simpl; lia).
      destruct (Text.isHighSurrogate x && Text.isLowSurrogate y).
      + destruct (Text.isCcCf (Text.codePoint x y)); reflexivity.
      + destruct (Text.isCcCf x); reflexivity. }
  apply (G (length a)); lia.
Qed.

Lemma removeCcCf_drop_control (b : jsstring) (c : N) :
  Text.isCc c = true -> Text.removeCcCf (c :: b) = Text.removeCcCf b.
Proof. intros Hc. apply (removeCcCf_around_control [] b c Hc). Qed.

Lemma removeCcCf_joined_lines (lines : list jsstring) (rest : jsstring) :
  Text.removeCcCf (join [10%N] lines ++ 10%N :: rest)
  = concat (map Text.removeCcCf lines) ++ Text.removeCcCf rest.
Proof.
  induction lines as [|l ls IH].
  - cbn [join app map concat]. apply removeCcCf_drop_control. reflexivity.
  - destruct ls as [|l' ls'].
    + cbn [join map concat]. rewrite app_nil_r.
      apply removeCcCf_around_control. reflexivity.
    + change (join [10%N] (l :: l' :: ls'))
        with (l ++ 10%N :: join [10%N] (l' :: ls')).
      rewrite <- app_assoc. cbn [app].
      rewrite removeCcCf_around_control by reflexivity.
      rewrite IH. cbn [map concat]. rewrite app_assoc. reflexivity.
Qed.

Lemma removeCcCf_pageText (pageLines : list jsstring) (rest : jsstring) :
  Text.removeCcCf (AnalysisPage.pageText pageLines ++ rest)
  = concat (map Text.removeCcCf pageLines) ++ Text.removeCcCf rest.
Proof.
  unfold AnalysisPage.pageText. rewrite <- app_assoc. cbn [app].
  rewrite removeCcCf_joined_lines.
  rewrite removeCcCf_drop_control by reflexivity.
  reflexivity.
Qed.

Lemma singleDocumentText_concat (pages : list (list jsstring)) :
  AnalysisPage.singleDocumentText pages
  = concat (map (fun pageLines =>
                   if 0 <? length pageLines
                   then AnalysisPage.pageText pageLines else [])
                pages).
Proof.
  unfold AnalysisPage.singleDocumentText.
  assert (G : forall ps text,
             fold_left (fun text pageLines =>
                          if 0 <? length pageLines
                          then text ++ AnalysisPage.pageText pageLines
                          else text) ps text
             = text ++ concat (map (fun pageLines =>
                                      if 0 <? length pageLines
                                      then AnalysisPage.pageText pageLines
                                      else []) ps)).
  { induction ps as [|p ps IH]; intros text; simpl.
    - rewrite app_nil_r. reflexivity.
    - rewrite IH. destruct (length p) as [|n]; cbn [Nat.ltb Nat.leb].
      + reflexivity.
      + rewrite <- app_assoc. reflexivity. }
  apply (G pages []).
Qed.

Lemma removeCcCf_join_blank (xs : list jsstring) :
  Text.removeCcCf (join [10%N; 10%N] xs) = concat (map Text.removeCcCf xs).
Proof.
  induction xs as [|x xs IH]; [reflexivity|].
  destruct xs as [|y r].
  - cbn [join map concat]. rewrite app_nil_r. reflexivity.
  - change (join [10%N; 10%N] (x :: y :: r))
      with (x ++ 10%N :: 10%N :: join [10%N; 10%N] (y :: r)).
    rewrite removeCcCf_around_control by reflexivity.
    rewrite removeCcCf_drop_control by reflexivity.
    rewrite IH. reflexivity.
Qed.

(** X2.  The text kept for a document is its page lines, each one cleaned,
    put end to end with nothing between them: the newlines that join the
    lines and close the pages are removed with the other control
    characters.  The text of all the documents is, in the same way, the
    cleaned banner of each document followed at once by its text. *)
Theorem document_text_lines_run_together
        (fileName : jsstring) (pages : list (list jsstring))
        (newDocuments : list AnalysisPage.PdfDocument) :
  AnalysisPage.text (AnalysisPage.documentOf fileName pages)
  = concat (map Text.removeCcCf (concat pages))
  /\ AnalysisPage.pdfText newDocuments
     = concat (map (fun doc =>
                      Text.removeCcCf (lit "--- DOCUMENT: "
                                       ++ AnalysisPage.name doc ++ lit " ---")
                      ++ Text.removeCcCf (AnalysisPage.text doc))
                   newDocuments).
Proof.
  split.
  - cbn [AnalysisPage.documentOf AnalysisPage.text].
    rewrite singleDocumentText_concat.
    induction pages as [|p ps IH]; [reflexivity|].
    cbn [map concat]. rewrite map_app, concat_app, <- IH.
    destruct p as [|l ls]; [reflexivity|].
    cbn [length Nat.ltb Nat.leb]. apply removeCcCf_pageText.
  - unfold AnalysisPage.pdfText, AnalysisPage.combinedText.
    rewrite removeCcCf_join_blank, map_map. f_equal.
    apply map_ext. intros doc.
    rewrite !app_assoc. rewrite <- (app_assoc _ [10%N]). cbn [app].
    rewrite removeCcCf_around_control by reflexivity.
    rewrite <- !app_assoc. reflexivity.
Qed.

(* ================================================================== *)
(** * More on the vocabulary *)
(* ================================================================== *)

Lemma splitFrom_no_match (sep s acc : jsstring) :
  includes s sep = false -> splitFrom sep 0 s acc = [rev acc ++ s].
Proof.
  revert acc. induction s as [|c t IH]; intros acc H.
  - simpl. rewrite app_nil_r. reflexivity.
  - cbn [includes] in H. apply orb_false_iff in H. destruct H as [H1 H2].
    cbn [splitFrom]. rewrite H1, (IH (c :: acc) H2).
    simpl. rewrite <- app_assoc. reflexivity.
Qed.

Lemma split_no_match (sep s : jsstring) :
  sep <> [] -> includes s sep = false -> split sep s = [s].
Proof.
  intros Hne H. unfold split. destruct sep; [congruence|].
  apply (splitFrom_no_match _ _ [] H).
Qed.

Section VocabularyMembers.
Context {RT : Runtime}.

Lemma addSubTokens_In (tokens : StrSet) (clean t : jsstring) :
  In t (Qaqc.addSubTokens tokens clean)
  <-> In t tokens \/ (In t (split (lit "-") clean) /\ 1 < length t).
Proof.
  unfold Qaqc.addSubTokens. revert tokens.
  induction (split (lit "-") clean) as [|sub subs IH]; intros tokens; simpl.
  - tauto.
  - rewrite IH. destruct (Nat.ltb_spec 1 (length sub)).
    + rewrite setAdd_In. split.
      * intros [[->|H1]|H2]; [right; split; [left; reflexivity | assumption]
                             | left; assumption | right; tauto].
      * intros [H1|[[<-|H2] H3]]; tauto.
    + split; [tauto|]. intros [H1|[[<-|H2] H3]]; [tauto | lia | tauto].
Qed.

Lemma addSubTokens_NoDup (tokens : StrSet) (clean : jsstring) :
  NoDup tokens -> NoDup (Qaqc.addSubTokens tokens clean).
Proof.
  unfold Qaqc.addSubTokens. revert tokens.
  induction (split (lit "-") clean) as [|sub subs IH]; intros tokens H; simpl.
  - exact H.
  - apply IH. destruct (1 <? length sub); [apply setAdd_NoDup|]; exact H.
Qed.

Lemma addWord_In (tokens : StrSet) (w t : jsstring) :
  In t (Qaqc.addWord tokens w)
  <-> In t tokens \/ Props.tokenOfWord w t.
Proof.
  unfold Qaqc.addWord, Props.tokenOfWord.
  set (clean := toUpperCase (Qaqc.removeBrackets (trim w))).
  destruct (Nat.ltb_spec 1 (length clean)) as [Hlen|Hlen].
  - destruct (includes clean (lit "-")) eqn:Einc.
    + rewrite addSubTokens_In, setAdd_In. split.
      * intros [[->|H]|H]; [right | left | right]; tauto.
      * intros [H|(_ & [->|H])]; tauto.
    + rewrite setAdd_In.
      rewrite (split_no_match (sep := lit "-")) by (discriminate || exact Einc).
      split.
      * intros [->|H]; [right | left]; tauto.
      * intros [H|(_ & [->|[_ [<-|[]]]])]; tauto.
  - split; [tauto|]. intros [H|(Hl & _)]; [exact H | lia].
Qed.

Lemma addWord_NoDup (tokens : StrSet) (w : jsstring) :
  NoDup tokens -> NoDup (Qaqc.addWord tokens w).
Proof.
  intros H. unfold Qaqc.addWord.
  destruct (1 <? length (toUpperCase (Qaqc.removeBrackets (trim w))));
    [|exact H].
  destruct (includes _ (lit "-"));
    [apply addSubTokens_NoDup|]; apply setAdd_NoDup, H.
Qed.

Lemma pdfTokens_In (sourceText t : jsstring) :
  In t (Qaqc.pdfTokens sourceText)
  <-> exists w,
      In w (splitClass Qaqc.isTokenSeparator sourceText)
      /\ Props.tokenOfWord w t.
Proof.
  unfold Qaqc.pdfTokens.
  assert (G : forall ws tokens,
             In t (fold_left Qaqc.addWord ws tokens)
             <-> In t tokens \/ exists w, In w ws /\ Props.tokenOfWord w t).
  { induction ws as [|w ws IH]; intros tokens; simpl.
    - split; [tauto | intros [H|(w & [] & _)]; exact H].
    - rewrite IH, addWord_In. split.
      + intros [[H|H]|(w' & Hw & H)];
          [left; exact H | right; exists w; tauto | right; exists w'; tauto].
      + intros [H|(w' & [<-|Hw] & H)];
          [tauto | tauto | right; exists w'; tauto]. }
  rewrite G. simpl. tauto.
Qed.

Lemma pdfTokens_long (sourceText t : jsstring) :
  In t (Qaqc.pdfTokens sourceText) -> 1 < length t.
Proof.
  intros Ht. apply pdfTokens_In in Ht.
  destruct Ht as (w & _ & Hlen & [->|[Hl _]]); assumption.
Qed.

(** X3.  A token is in the vocabulary of a text exactly when some word of
    the text, cleaned and in upper case, is longer than one code unit and is
    the token, or has the token, itself longer than one code unit, among its
    parts between hyphens.  So every token is longer than one code unit, and
    the vocabulary holds no token twice. *)
Theorem pdfTokens_members (sourceText : jsstring) :
  (forall t, In t (Qaqc.pdfTokens sourceText)
             <-> exists w,
                 In w (splitClass Qaqc.isTokenSeparator sourceText)
                 /\ Props.tokenOfWord w t)
  /\ (forall t, In t (Qaqc.pdfTokens sourceText) -> 1 < length t)
  /\ NoDup (Qaqc.pdfTokens sourceText).
Proof.
  split; [intros t; apply pdfTokens_In|].
  split; [intros t; apply pdfTokens_long|].
  unfold Qaqc.pdfTokens.
  assert (N : forall ws tokens,
             NoDup tokens -> NoDup (fold_left Qaqc.addWord ws tokens)).
  { induction ws as [|w ws IH]; intros tokens H; simpl; [exact H|].
    apply IH, addWord_NoDup, H. }
  apply N. constructor.
Qed.

End VocabularyMembers.

(* ================================================================== *)
(** * More on the checks of the QA/QC page *)
(* ================================================================== *)

Section MoreChecks.
Context {RT : Runtime}.

(** X4.  Whatever the text, a file name is Invalid as soon as one of its
    segments before the last has an upper case of at most one code unit (a
    one-letter code, or nothing between two separators): the vocabulary
    never holds so short a token.  The records are those of the rows whose
    cell is truthy and, once trimmed, not empty, in the order of the rows. *)
Theorem fileName_short_segment_invalid
        (sourceText : jsstring) (headers : list jsstring) (h : jsstring)
        (excelData : list object) :
  Forall2
    (fun row item =>
       prop (Qaqc.originalRecord item) h = prop row h
       /\ ((exists stem s,
               Spec.isStemOf (Spec.cellText row h) stem
               /\ In s (removelast (Spec.segments stem))
               /\ length (toUpperCase s) <= 1) ->
           Qaqc.status item = Qaqc.Invalid))
    (filter (Spec.filled h) excelData)
    (fold_left (Qaqc.fileNameRow (Qaqc.pdfTokens sourceText) headers h)
               excelData []).
Proof.
  eapply Forall2_impl; [|apply fileNameRow_verdict].
  intros row item (Hrec & stem0 & Hstem0 & Hinv & _).
  split; [exact Hrec|].
  intros (stem & s & Hstem & Hs & Hlen).
  rewrite (isStemOf_unique Hstem Hstem0) in Hs.
  apply Hinv. right. exists s. split; [exact Hs|].
  intros Hin. apply pdfTokens_long in Hin. lia.
Qed.

(** X5.  [handleAnalysis] leaves the results as they were when there is no
    text, when the text is empty, when there is no sheet, when the sheet has
    no row, and when no check is selected: the entries of a former analysis
    stay. *)
Theorem handleAnalysis_keeps_results
        (selectedChecks : QaqcPage.Selected.t)
        (sourceText : option jsstring) (excelData : option (list object))
        (results : QaqcPage.QaqcResults) :
  QaqcPage.handleAnalysis selectedChecks None excelData results = results
  /\ QaqcPage.handleAnalysis selectedChecks (Some []) excelData results
     = results
  /\ QaqcPage.handleAnalysis selectedChecks sourceText None results = results
  /\ QaqcPage.handleAnalysis selectedChecks sourceText (Some []) results
     = results
  /\ (selectedChecks
      = QaqcPage.Selected.Build_t false false false false false false
                                  false false false false false false ->
      QaqcPage.handleAnalysis selectedChecks sourceText excelData results
      = results).
Proof.
  repeat split.
  - destruct excelData; reflexivity.
  - destruct sourceText; reflexivity.
  - destruct sourceText as [text|]; [|reflexivity].
    unfold QaqcPage.handleAnalysis. destruct (isEmpty text); [reflexivity|].
    destruct results, selectedChecks; cbn.
    repeat match goal with
           | |- context [QaqcPage.runCheck ?b None ?p] =>
             replace (QaqcPage.runCheck b None p) with p
               by (destruct b; reflexivity)
           end.
    reflexivity.
  - intros ->. unfold QaqcPage.handleAnalysis.
    destruct sourceText as [text|]; [|reflexivity].
    destruct excelData as [data|]; [|reflexivity].
    destruct (isEmpty text); [reflexivity|].
    destruct results; reflexivity.
Qed.

End MoreChecks.

Section LevelsGrids.
Context {RT : Runtime}.

Lemma levelsGridsRow_known (h : jsstring) (excelData : list object)
      (st : list Qaqc.ValidationResultItem * list Qaqc.ValidationResultItem)
      (row : object) :
  In row excelData ->
  Props.levelsGridsKnown h excelData st ->
  Props.levelsGridsKnown h excelData (QaqcPage.levelsGridsRow h st row).
Proof.
  intros Hrow [Hl Hg]. unfold QaqcPage.levelsGridsRow.
  destruct (includes (Qaqc.cellOr row h) (lit "/")); [|split; assumption].
  destruct (map (fun s => toLowerCase (trim s))
                (split (lit "/") (Qaqc.cellOr row h)))
    as [|cat [|pin rest]] eqn:Eparts; try (split; assumption).
  assert (Hrec : forall item,
             item = {| Qaqc.originalRecord := [(h, VString (Qaqc.cellOr row h))];
                       Qaqc.status :=
                         if eqb pin (lit "true") || eqb pin (lit "yes")
                         then Qaqc.Valid else Qaqc.Invalid;
                       Qaqc.reasoning :=
                         if eqb pin (lit "true") || eqb pin (lit "yes")
                         then lit "Valid: " ++ cat ++ lit " is pinned."
                         else lit "Item is wrong: " ++ cat
                              ++ lit " must be pinned.";
                       Qaqc.invalidValue := None |} ->
             Props.levelsGridsRecord h excelData item cat pin).
  { intros item ->. exists row. split; [exact Hrow|]. split; [reflexivity|].
    split; [unfold Props.categoryAndFlag; rewrite Eparts; reflexivity|].
    cbn [Qaqc.status].
    destruct (eqb_spec pin (lit "true")) as [->|Ht]; cbn [orb].
    - split; split; intros H; try reflexivity; try discriminate; tauto.
    - destruct (eqb_spec pin (lit "yes")) as [->|Hy].
      + split; split; intros H; try reflexivity; try discriminate; tauto.
      + split; split; intros H; try reflexivity; try discriminate; tauto. }
  destruct (includes cat (lit "level")) eqn:El.
  - split; cbn [fst snd]; [|exact Hg].
    intros item Hin. apply in_app_or in Hin. destruct Hin as [Hin|[<-|[]]].
    + apply Hl, Hin.
    + exists cat, pin. split; [apply Hrec; reflexivity | exact El].
  - destruct (includes cat (lit "grid")) eqn:Eg; [|split; assumption].
    split; cbn [fst snd]; [exact Hl|].
    intros item Hin. apply in_app_or in Hin. destruct Hin as [Hin|[<-|[]]].
    + apply Hg, Hin.
    + exists cat, pin. split; [apply Hrec; reflexivity | split; assumption].
Qed.

Lemma levelsGridsRow_length (h : jsstring)
      (st : list Qaqc.ValidationResultItem * list Qaqc.ValidationResultItem)
      (row : object) :
  length (fst (QaqcPage.levelsGridsRow h st row))
  + length (snd (QaqcPage.levelsGridsRow h st row))
  <= S (length (fst st) + length (snd st)).
Proof.
  unfold QaqcPage.levelsGridsRow.
  destruct (includes (Qaqc.cellOr row h) (lit "/")); [|lia].
  destruct (map _ _) as [|cat [|pin rest]]; try lia.
  destruct (includes cat (lit "level")).
  - cbn [fst snd]. rewrite length_app. simpl. lia.
  - destruct (includes cat (lit "grid")); [|lia].
    cbn [fst snd]. rewrite length_app. simpl. lia.
Qed.

(** X6.  When the column of the levels and grids check is found, a row gives
    at most one record; a record of the levels has a category, the text
    before the first slash, that contains the word level, and a record of
    the grids a category that contains the word grid and not the word level;
    a record is Valid exactly when the flag, the text between the first two
    slashes, trimmed and in lower case, is true or yes. *)
Theorem levelsGrids_records (excelData : list object) (h : jsstring) :
  findTruthy (fun h => eqb (trim (toLowerCase h))
                           (lit "levels-grids / element is pinned"))
             (Qaqc.headersOf excelData) = Some h ->
  exists lg,
    QaqcPage.levelsGridsPinnedCheck excelData = Some lg
    /\ length (QaqcPage.levels lg) + length (QaqcPage.grids lg)
       <= length excelData
    /\ Props.levelsGridsKnown h excelData
                              (QaqcPage.levels lg, QaqcPage.grids lg).
Proof.
  intros Hh. unfold QaqcPage.levelsGridsPinnedCheck. rewrite Hh.
  eexists; split; [reflexivity|]. cbn [QaqcPage.levels QaqcPage.grids].
  assert (G : forall rows st,
             (forall r, In r rows -> In r excelData) ->
             Props.levelsGridsKnown h excelData st ->
             Props.levelsGridsKnown
               h excelData (fold_left (QaqcPage.levelsGridsRow h) rows st)
             /\ length (fst (fold_left (QaqcPage.levelsGridsRow h) rows st))
                + length (snd (fold_left (QaqcPage.levelsGridsRow h) rows st))
                <= length (fst st) + length (snd st) + length rows).
  { induction rows as [|row rows IH]; intros st Hin Hst; simpl.
    - split; [exact Hst | lia].
    - destruct (IH (QaqcPage.levelsGridsRow h st row)) as [Hk Hlen].
      + intros r Hr. apply Hin. right; exact Hr.
      + apply levelsGridsRow_known; [apply Hin; left; reflexivity | exact Hst].
      + split; [exact Hk|].
        pose proof (levelsGridsRow_length h st row). lia. }
  destruct (G excelData ([], [])) as [Hk Hlen].
  - intros r Hr; exact Hr.
  - split; intros item [].
  - split; [simpl in Hlen; lia|].
    destruct (fold_left (QaqcPage.levelsGridsRow h) excelData ([], []));
      exact Hk.
Qed.

End LevelsGrids.

(* ================================================================== *)
(** * The summary of the QA/QC page *)
(* ================================================================== *)

Section SummaryData.
Context {RT : Runtime}.
Hypothesis latin : Props.basicLatinCase.

Lemma passedOf_validCount (res : list Qaqc.ValidationResultItem) :
  QaqcPage.passedOf res = Props.validCount res.
Proof.
  unfold QaqcPage.passedOf, Props.validCount. f_equal.
  apply filter_ext. intros r.
  assert (Hs : Spec.basicLatin (QaqcPage.statusText (Qaqc.status r))).
  { unfold Spec.basicLatin.
    destruct (Qaqc.status r); vm_compute;
      repeat (constructor; [reflexivity|]); constructor. }
  rewrite (proj1 (@latin _ Hs)).
  destruct (Qaqc.status r); reflexivity.
Qed.

Lemma validCount_le (res : list Qaqc.ValidationResultItem) :
  Props.validCount res <= length res.
Proof. apply filter_length_le. Qed.

End SummaryData.

(** X7.  In the summary a check that ran has one entry: its total is the
    number of its records, its passed count the number of the Valid ones,
    never more than the total, and with no record at all its percentage is
    100.  A check that did not run has no entry. *)
Theorem pushCheck_entry (RT : Runtime) (data : list QaqcPage.SummaryDataItem)
        (res : list Qaqc.ValidationResultItem) (title : jsstring) :
  Props.basicLatinCase ->
  QaqcPage.pushCheck data None title = data
  /\ exists item,
      QaqcPage.pushCheck data (Some res) title = data ++ [item]
      /\ QaqcPage.title item = title
      /\ QaqcPage.total item = length res
      /\ QaqcPage.passed item = Props.validCount res
      /\ QaqcPage.passed item <= QaqcPage.total item
      /\ (res = [] -> QaqcPage.percentage item = 100%float).
Proof.
  intros latin. split; [reflexivity|].
  eexists. split; [reflexivity|]. cbn.
  rewrite (passedOf_validCount latin).
  repeat split.
  - apply validCount_le.
  - intros ->. reflexivity.
Qed.

(** X8.  With its column found and every cell of it empty, the RVT-link
    check stands in the summary as one record passed out of one, 100 per
    cent, and the Navisworks check as none passed out of one, 0 per cent. *)
Theorem empty_columns_in_summary (RT : Runtime)
        (rvtData navisData : list object) (hr hn title : jsstring) :
  Props.basicLatinCase ->
  findTruthy Qaqc.isRvtHeader (Qaqc.headersOf rvtData) = Some hr ->
  (forall r, In r rvtData -> Qaqc.cellNullish r hr = []) ->
  findTruthy Qaqc.isNavisworksHeader (Qaqc.headersOf navisData) = Some hn ->
  (forall r, In r navisData -> Qaqc.cellNullish r hn = []) ->
  QaqcPage.pushCheck [] (Qaqc.rvtLinkPinnedCheck rvtData) title
  = [{| QaqcPage.title := title; QaqcPage.percentage := 100%float;
        QaqcPage.passed := 1; QaqcPage.total := 1;
        QaqcPage.subtitle := None |}]
  /\ QaqcPage.pushCheck [] (Qaqc.navisworksViewNameCheck navisData) title
     = [{| QaqcPage.title := title; QaqcPage.percentage := 0%float;
           QaqcPage.passed := 0; QaqcPage.total := 1;
           QaqcPage.subtitle := None |}].
Proof.
  intros latin Hr Er Hn En.
  unfold Qaqc.rvtLinkPinnedCheck, Qaqc.rvtLinkPinnedFor,
    Qaqc.navisworksViewNameCheck, Qaqc.navisworksFor.
  rewrite Hr, Hn, (filter_all_empty _ _ Er), (filter_all_empty _ _ En).
  cbn [length Nat.eqb]. unfold QaqcPage.pushCheck.
  rewrite !(passedOf_validCount latin). split; reflexivity.
Qed.

(* ================================================================== *)
(** * The checks that compare a cell with the text or with a keyword *)
(* ================================================================== *)

Lemma Forall2_map_self (A B : Type) (R : A -> B -> Prop) (f : A -> B)
      (l : list A) :
  (forall x, In x l -> R x (f x)) -> Forall2 R l (map f l).
Proof.
  induction l as [|x l IH]; intros H; simpl; constructor.
  - apply H. left; reflexivity.
  - apply IH. intros y Hy. apply H. right; exact Hy.
Qed.

Lemma includes_more (s sub before after : jsstring) :
  includes s sub = true -> includes (before ++ s ++ after) sub = true.
Proof.
  rewrite !includes_spec. intros (b & a & ->).
  exists (before ++ b), (a ++ after). rewrite <- !app_assoc. reflexivity.
Qed.

Section KeywordChecks.
Context {RT : Runtime}.


(** X10.  In the checks of the survey point and of the base point a record
    is Valid exactly when the cell, as it is written, occurs in the text;
    so a text that contains the former text keeps every Valid record Valid,
    and the records are those of the same rows. *)
Theorem checkPoints_more_text (sourceText before after : jsstring)
        (names : list jsstring) (excelData : list object) (h : jsstring) :
  findTruthy (fun h => Qaqc.arrayIncludes names (trim (toLowerCase h)))
             (Qaqc.headersOf excelData) = Some h ->
  exists out out',
    QaqcPage.checkPoints sourceText names excelData = Some out
    /\ QaqcPage.checkPoints (before ++ sourceText ++ after) names excelData
       = Some out'
    /\ Forall2 (fun r item =>
                  Qaqc.status item = Qaqc.Valid
                  <-> exists b a,
                      sourceText = b ++ toString (prop r h) ++ a)
               (QaqcPage.rowsWithCell h excelData) out
    /\ Forall2 (fun item item' =>
                  Qaqc.originalRecord item = Qaqc.originalRecord item'
                  /\ (Qaqc.status item = Qaqc.Valid ->
                      Qaqc.status item' = Qaqc.Valid))
               out out'.
Proof.
  intros Hh. unfold QaqcPage.checkPoints. rewrite Hh.
  eexists; eexists. split; [reflexivity|]. split; [reflexivity|]. split.
  - apply Forall2_map_self. intros r _. unfold QaqcPage.pointRow.
    cbn [Qaqc.status]. rewrite <- includes_spec.
    destruct (includes sourceText (toString (prop r h)));
      split; intros H; try reflexivity; try discriminate; congruence.
  - induction (QaqcPage.rowsWithCell h excelData) as [|r rows IH];
      simpl; constructor; [|exact IH].
    unfold QaqcPage.pointRow. cbn [Qaqc.originalRecord Qaqc.status].
    split; [reflexivity|].
    destruct (includes sourceText (toString (prop r h))) eqn:E;
      [|discriminate].
    rewrite (includes_more _ _ before after E). reflexivity.
Qed.

End KeywordChecks.

(* ================================================================== *)
(** * The upload of a manifest *)
(* ================================================================== *)

Lemma find_first (A : Type) (f : A -> bool) (l : list A) (x : A) :
  find f l = Some x ->
  f x = true
  /\ exists pre post, l = pre ++ x :: post
                      /\ forall y, In y pre -> f y = false.
Proof.
  induction l as [|a l IH]; simpl; [discriminate|].
  destruct (f a) eqn:E.
  - intros H. injection H as <-. split; [exact E|].
    exists [], l. split; [reflexivity | intros y []].
  - intros H. destruct (IH H) as (Hx & pre & post & -> & Hpre).
    split; [exact Hx|]. exists (a :: pre), post. split; [reflexivity|].
    intros y [<-|Hy]; [exact E | apply Hpre, Hy].
Qed.

Lemma findTruthy_nonempty (p : jsstring -> bool) (headers : list jsstring) :
  Forall (fun h => h <> []) headers ->
  findTruthy p headers = find p headers.
Proof.
  intros Hne. unfold findTruthy. destruct (find p headers) as [h|] eqn:E;
    [|reflexivity].
  apply find_some in E. destruct E as [Hin _].
  rewrite Forall_forall in Hne. specialize (Hne h Hin).
  destruct h; [congruence | reflexivity].
Qed.

Section Headers.
Context {RT : Runtime}.

(** X11.  With headers that are not empty, [findHeader] finds no header
    exactly when no header is equal to a candidate name once both are
    normalized.  The header it finds is, for the first candidate that has a
    match, the first header that matches it. *)
Theorem findHeader_spec (headers possibleNames : list jsstring) :
  Forall (fun h => h <> []) headers ->
  (MidpPage.findHeader headers possibleNames = None
   <-> forall name h, In name possibleNames -> In h headers ->
                      MidpPage.normalize h <> MidpPage.normalize name)
  /\ (forall h,
         MidpPage.findHeader headers possibleNames = Some h ->
         exists before name after hbefore hafter,
           possibleNames = before ++ name :: after
           /\ headers = hbefore ++ h :: hafter
           /\ MidpPage.normalize h = MidpPage.normalize name
           /\ (forall h', In h' hbefore ->
                          MidpPage.normalize h' <> MidpPage.normalize name)
           /\ (forall n h', In n before -> In h' headers ->
                            MidpPage.normalize h' <> MidpPage.normalize n)).
Proof.
  intros Hne.
  assert (Hnone : forall name,
             find (fun h => eqb (MidpPage.normalize h)
                                (MidpPage.normalize name)) headers = None
             <-> forall h, In h headers ->
                           MidpPage.normalize h <> MidpPage.normalize name).
  { intros name. split.
    - intros H h Hin. apply eqb_neq. apply (find_none _ _ H h Hin).
    - intros H. destruct (find _ headers) as [h|] eqn:E; [|reflexivity].
      apply find_some in E. destruct E as [Hin Heq].
      apply eqb_eq in Heq. exfalso. apply (H h Hin Heq). }
  induction possibleNames as [|name names [IHn IHs]]; simpl.
  - split; [split; [intros _ n h [] | reflexivity] | discriminate].
  - rewrite (findTruthy_nonempty _ Hne).
    destruct (find (fun h => eqb (MidpPage.normalize h)
                                 (MidpPage.normalize name)) headers)
      as [h0|] eqn:E.
    + split.
      * split; [discriminate|]. intros H. exfalso.
        apply find_some in E. destruct E as [Hin Heq]. apply eqb_eq in Heq.
        apply (H name h0); [left; reflexivity | exact Hin | exact Heq].
      * intros h Hh. injection Hh as <-.
        destruct (find_first _ _ E) as (Heq & hb & ha & -> & Hb).
        apply eqb_eq in Heq.
        exists [], name, names, hb, ha.
        split; [reflexivity|]. split; [reflexivity|]. split; [exact Heq|].
        split.
        -- intros h' Hh'. apply eqb_neq, Hb, Hh'.
        -- intros n h' [].
    + pose proof (proj1 (Hnone name) E) as Hno. split.
      * rewrite IHn. split.
        -- intros H n h [<-|Hn] Hh; [apply Hno, Hh | apply H; assumption].
        -- intros H n h Hn Hh. apply H; [right; exact Hn | exact Hh].
      * intros h Hh.
        destruct (IHs h Hh) as (b & n & a & hb & ha & -> & -> & H1 & H2 & H3).
        exists (name :: b), n, a, hb, ha.
        split; [reflexivity|]. split; [reflexivity|]. split; [exact H1|].
        split; [exact H2|].
        intros n' h' [<-|Hn'] Hh'; [apply Hno, Hh' | apply H3; assumption].
Qed.

End Headers.

Section UploadOutcome.
Context {RT : Runtime}.

Lemma mapSet_length (V : Type) (m : StrMap V) (k : jsstring) (v : V) :
  length (mapSet m k v) <= S (length m).
Proof.
  induction m as [|[k0 v0] rest IH]; simpl; [lia|].
  destruct (eqb k k0); simpl; lia.
Qed.

Lemma ingestRow_sizes (nameH fmtH : jsstring) (msHeaders : StrMap jsstring)
      (st : Midp.FileDataMap * nat) (row : object) :
  let st' := Midp.ingestRow nameH fmtH msHeaders st row in
  let named := if isEmpty (Midp.baseNameOf nameH row) then 0 else 1 in
  snd st' = snd st + named
  /\ length (fst st') <= length (fst st) + named.
Proof.
  cbv zeta. unfold Midp.ingestRow.
  destruct (isEmpty (Midp.baseNameOf nameH row)); [lia|].
  cbn [fst snd]. split; [lia|].
  unfold Midp.countFormat, Midp.touchBaseName.
  set (k := toLowerCase (Midp.baseNameOf nameH row)).
  destruct (mapGet (fst st) k) as [i|] eqn:E.
  - assert (Hsame : forall (m : Midp.FileDataMap) v,
               mapGet m k <> None -> length (mapSet m k v) = length m).
    { induction m as [|[k0 v0] rest IHm]; intros v Hm; simpl in *.
      - congruence.
      - destruct (eqb k k0); simpl; [reflexivity|].
        rewrite IHm by exact Hm. reflexivity. }
    destruct (isEmpty (Midp.extensionOf fmtH row)).
    + rewrite Hsame by congruence. lia.
    + rewrite mapGet_mapSet, eqb_refl.
      rewrite Hsame by (rewrite mapGet_mapSet, eqb_refl; discriminate).
      rewrite Hsame by congruence. lia.
  - assert (Hsame : forall (m : Midp.FileDataMap) v,
               mapGet m k <> None -> length (mapSet m k v) = length m).
    { induction m as [|[k0 v0] rest IHm]; intros v Hm; simpl in *.
      - congruence.
      - destruct (eqb k k0); simpl; [reflexivity|].
        rewrite IHm by exact Hm. reflexivity. }
    destruct (isEmpty (Midp.extensionOf fmtH row)).
    + pose proof (mapSet_length (fst st) k
                    {| Midp.originalCase := Midp.baseNameOf nameH row;
                       Midp.formatCounts := [];
                       Midp.milestones :=
                         Midp.rowMilestonesOf msHeaders row |}). lia.
    + rewrite mapGet_mapSet, eqb_refl.
      rewrite Hsame by (rewrite mapGet_mapSet, eqb_refl; discriminate).
      pose proof (mapSet_length (fst st) k
                    {| Midp.originalCase := Midp.baseNameOf nameH row;
                       Midp.formatCounts := [];
                       Midp.milestones :=
                         Midp.rowMilestonesOf msHeaders row |}). lia.
Qed.

(** The number of rows counted and the number of entries of the map. *)
Lemma ingest_sizes (nameH fmtH : jsstring) (msHeaders : StrMap jsstring)
      (rows : list object) :
  snd (Midp.ingest nameH fmtH msHeaders rows)
  = length (filter (fun row => negb (isEmpty (Midp.baseNameOf nameH row)))
                   rows)
  /\ length (fst (Midp.ingest nameH fmtH msHeaders rows))
     <= snd (Midp.ingest nameH fmtH msHeaders rows).
Proof.
  unfold Midp.ingest.
  set (named := fun row : object =>
                  negb (isEmpty (Midp.baseNameOf nameH row))).
  assert (G : forall rows st,
             snd (fold_left (Midp.ingestRow nameH fmtH msHeaders) rows st)
             = snd st + length (filter named rows)
             /\ length (fst (fold_left (Midp.ingestRow nameH fmtH msHeaders)
                                       rows st))
                <= length (fst st) + length (filter named rows)).
  { clear rows. induction rows as [|row rows IH]; intros st;
      cbn [fold_left filter]; [simpl; lia|].
    destruct (IH (Midp.ingestRow nameH fmtH msHeaders st row)) as [H1 H2].
    destruct (ingestRow_sizes nameH fmtH msHeaders st row) as [H3 H4].
    assert (Hn : named row = negb (isEmpty (Midp.baseNameOf nameH row)))
      by reflexivity.
    rewrite Hn. unfold Midp.FileDataMap, StrMap in *.
    destruct (isEmpty (Midp.baseNameOf nameH row)); cbn [negb length];
      split; lia. }
  destruct (G rows ([], 0)) as [H1 H2]. simpl in H1, H2. lia.
Qed.

(** X12.  An upload fails exactly when the sheet has no row, or no header
    is one of the name columns, or no header is the format column (headers
    and names compared normalized).  Otherwise its map is the scan of the
    cleaned rows under the headers found, its row count is the number of
    cleaned rows with a base name, at most the number of rows, and the map
    has at most that many base names. *)
Theorem upload_outcome (nameColumns : list jsstring) (formatColumn : jsstring)
        (milestoneColumns : option (list jsstring)) (json : list object) :
  let headers := Qaqc.headersOf (Sheet.cleanRows json) in
  match MidpPage.upload nameColumns formatColumn milestoneColumns json with
  | MidpPage.UploadError _ =>
    json = [] \/ MidpPage.findHeader headers nameColumns = None
    \/ MidpPage.findHeader headers [formatColumn] = None
  | MidpPage.Uploaded data totalRows _ =>
    json <> []
    /\ exists nameH fmtH,
        MidpPage.findHeader headers nameColumns = Some nameH
        /\ MidpPage.findHeader headers [formatColumn] = Some fmtH
        /\ data = Midp.columnDataOf
                    nameH fmtH
                    (MidpPage.actualMilestoneHeaders headers milestoneColumns)
                    (Sheet.cleanRows json)
        /\ totalRows
           = length (filter (fun row =>
                               negb (isEmpty (Midp.baseNameOf nameH row)))
                            (Sheet.cleanRows json))
        /\ totalRows <= length json
        /\ length (mapKeys data) <= totalRows
  end.
Proof.
  cbv zeta. unfold MidpPage.upload.
  destruct json as [|row rows]; [left; reflexivity|].
  cbn [length Nat.eqb].
  change (match Sheet.cleanRows (row :: rows) with
          | r :: _ => keys r
          | [] => []
          end) with (Qaqc.headersOf (Sheet.cleanRows (row :: rows))).
  set (headers := Qaqc.headersOf (Sheet.cleanRows (row :: rows))).
  destruct (MidpPage.findHeader headers nameColumns) as [nameH|] eqn:En;
    [|right; left; reflexivity].
  destruct (MidpPage.findHeader headers [formatColumn]) as [fmtH|] eqn:Ef;
    [|right; right; reflexivity].
  split; [discriminate|]. exists nameH, fmtH.
  split; [reflexivity|]. split; [reflexivity|]. split; [reflexivity|].
  destruct (ingest_sizes nameH fmtH
              (MidpPage.actualMilestoneHeaders headers milestoneColumns)
              (Sheet.cleanRows (row :: rows))) as [H1 H2].
  split; [exact H1|]. split.
  - rewrite H1. unfold Sheet.cleanRows.
    etransitivity; [apply filter_length_le|]. rewrite length_map.
    apply Nat.le_refl.
  - unfold mapKeys. rewrite length_map. exact H2.
Qed.

End UploadOutcome.

(* ================================================================== *)
(** * The counts of the comparison *)
(* ================================================================== *)

Lemma list_sum_perm (l l' : list nat) :
  Permutation l l' -> list_sum l = list_sum l'.
Proof.
  induction 1; simpl; lia.
Qed.

Lemma list_sum_map_add (A : Type) (f g : A -> nat) (l : list A) :
  list_sum (map (fun x => f x + g x) l)
  = list_sum (map f l) + list_sum (map g l).
Proof. induction l as [|x l IH]; simpl; lia. Qed.

(** Over a list without repeats, one element is met once. *)
Lemma list_sum_indicator (x : jsstring * jsstring)
      (l : list (jsstring * jsstring)) :
  NoDup l -> In x l ->
  list_sum (map (fun p => if Spec.pair_dec x p then 1 else 0) l) = 1.
Proof.
  induction 1 as [|y l Hy Hl IH]; intros Hin; [destruct Hin|].
  simpl. destruct (Spec.pair_dec x y) as [->|Hne].
  - assert (Hz : list_sum (map (fun p => if Spec.pair_dec y p then 1 else 0) l)
                 = 0).
    { clear IH Hl Hin. induction l as [|z l IHl]; [reflexivity|].
      simpl. destruct (Spec.pair_dec y z) as [->|_].
      - exfalso. apply Hy. left; reflexivity.
      - apply IHl. intros H. apply Hy. right; exact H. }
    lia.
  - destruct Hin as [->|Hin]; [congruence|]. apply IH, Hin.
Qed.

(** Over a list without repeats that holds every element of [xs], the
    numbers of occurrences in [xs] add up to the length of [xs]. *)
Lemma list_sum_count_occ (xs l : list (jsstring * jsstring)) :
  NoDup l -> incl xs l ->
  list_sum (map (count_occ Spec.pair_dec xs) l) = length xs.
Proof.
  intros Hl. induction xs as [|x xs IH]; intros Hincl.
  - clear Hl Hincl. induction l as [|y l IHl]; [reflexivity|].
    simpl. exact IHl.
  - rewrite (map_ext (count_occ Spec.pair_dec (x :: xs))
                     (fun p => (if Spec.pair_dec x p then 1 else 0)
                               + count_occ Spec.pair_dec xs p)).
    + rewrite list_sum_map_add, IH.
      * rewrite list_sum_indicator; [reflexivity | exact Hl|].
        apply Hincl. left; reflexivity.
      * intros p Hp. apply Hincl. right; exact Hp.
    + intros p. simpl. destruct (Spec.pair_dec x p); reflexivity.
Qed.

Section Conservation.
Context {RT : Runtime}.
Variables (nameA fmtA : jsstring) (msA : StrMap jsstring) (rowsA : list object).
Variables (nameB fmtB : jsstring) (msB : StrMap jsstring) (rowsB : list object).

(** X13.  The required counts of the results of a comparison add up to the
    number of rows of the required manifest that have a base name and a
    format, and the actual counts to that number for the actual manifest:
    no such row is lost and none is counted twice. *)
Theorem handleCompare_counts_add_up :
  list_sum (map Midp.midpCount
                (Midp.handleCompare
                   (Midp.columnDataOf nameA fmtA msA rowsA)
                   (Midp.columnDataOf nameB fmtB msB rowsB)))
  = length (Spec.manifestPairs nameA fmtA rowsA)
  /\ list_sum (map Midp.accCount
                   (Midp.handleCompare
                      (Midp.columnDataOf nameA fmtA msA rowsA)
                      (Midp.columnDataOf nameB fmtB msB rowsB)))
     = length (Spec.manifestPairs nameB fmtB rowsB).
Proof.
  set (A := Midp.columnDataOf nameA fmtA msA rowsA).
  set (B := Midp.columnDataOf nameB fmtB msB rowsB).
  assert (Hperm : Permutation (Midp.handleCompare A B)
                              (Midp.unsortedResults A B))
    by apply sortBy_perm.
  split.
  - rewrite (list_sum_perm (Permutation_map Midp.midpCount Hperm)).
    unfold Midp.unsortedResults. rewrite map_map.
    rewrite (map_ext _ (count_occ Spec.pair_dec
                                  (Spec.manifestPairs nameA fmtA rowsA))).
    + apply list_sum_count_occ; [apply visitedPairs_NoDup|].
      intros p Hp. apply visitedPairs_manifests.
      apply in_or_app. left; exact Hp.
    + intros [k f]. unfold Midp.resultFor. cbn [Midp.midpCount fst snd].
      apply countOf_columnDataOf.
  - rewrite (list_sum_perm (Permutation_map Midp.accCount Hperm)).
    unfold Midp.unsortedResults. rewrite map_map.
    rewrite (map_ext _ (count_occ Spec.pair_dec
                                  (Spec.manifestPairs nameB fmtB rowsB))).
    + apply list_sum_count_occ; [apply visitedPairs_NoDup|].
      intros p Hp. apply visitedPairs_manifests.
      apply in_or_app. right; exact Hp.
    + intros [k f]. unfold Midp.resultFor. cbn [Midp.accCount fst snd].
      apply countOf_columnDataOf.
Qed.

End Conservation.

(* ================================================================== *)
(** * The order of the results *)
(* ================================================================== *)

Lemma insertBy_sorted (A : Type) (cmp : A -> A -> Z) (x : A) (l : list A) :
  (forall a b, (0 < cmp a b)%Z -> (cmp b a <= 0)%Z) ->
  Sorted (fun a b => (cmp a b <= 0)%Z) l ->
  Sorted (fun a b => (cmp a b <= 0)%Z) (Midp.insertBy cmp x l).
Proof.
  intros Htot. induction 1 as [|y t Ht IH Hy]; simpl.
  - constructor; constructor.
  - destruct (Z.leb_spec (cmp x y) 0) as [Hle|Hgt].
    + constructor; [constructor; assumption|]. constructor. exact Hle.
    + constructor; [exact IH|].
      destruct t as [|z t']; simpl.
      * constructor. apply Htot, Hgt.
      * destruct (Z.leb_spec (cmp x z) 0).
        -- constructor. apply Htot, Hgt.
        -- constructor. inversion Hy; assumption.
Qed.

Lemma sortBy_sorted (A : Type) (cmp : A -> A -> Z) (l : list A) :
  (forall a b, (0 < cmp a b)%Z -> (cmp b a <= 0)%Z) ->
  Sorted (fun a b => (cmp a b <= 0)%Z) (Midp.sortBy cmp l).
Proof.
  intros Htot. induction l as [|x l IH]; simpl; [constructor|].
  apply insertBy_sorted; assumption.
Qed.

Lemma compareUnits_opp (a b : jsstring) :
  BasicLatin.compareUnits b a = (- BasicLatin.compareUnits a b)%Z.
Proof.
  revert b. induction a as [|x a IH]; intros [|y b]; simpl; try reflexivity.
  rewrite (N.compare_antisym x y). destruct (x ?= y)%N; simpl;
    [apply IH | reflexivity | reflexivity].
Qed.

(** X14.  When [localeCompare] orders the strings both ways alike, the
    array that [handleCompare] returns is in order: each result is before
    the next by its name, and by its format when the names compare equal. *)
Theorem handleCompare_sorted (RT : Runtime)
        (midpMap accMap : Midp.FileDataMap) :
  Props.consistentCompare ->
  Sorted (fun a b => (Midp.compareResults a b <= 0)%Z)
         (Midp.handleCompare midpMap accMap).
Proof.
  intros [Hanti Hzero]. unfold Midp.handleCompare. apply sortBy_sorted.
  intros a b. unfold Midp.compareResults.
  destruct (Z.eqb_spec (localeCompare (Midp.baseName a) (Midp.baseName b)) 0)
    as [E|E].
  - intros Hpos. rewrite (Hzero _ _ E). cbn [Z.eqb].
    apply Hanti in Hpos. lia.
  - intros Hpos. apply Hanti in Hpos.
    destruct (Z.eqb_spec (localeCompare (Midp.baseName b) (Midp.baseName a)) 0);
      lia.
Qed.

Lemma handleCompare_sorted_witness :
  Sorted (fun a b => (Midp.compareResults (RT := BasicLatin.runtime) a b
                      <= 0)%Z)
         (Midp.handleCompare (RT := BasicLatin.runtime)
                             Examples.midpMap Examples.accMap).
Proof.
  apply (@handleCompare_sorted BasicLatin.runtime
           Examples.midpMap Examples.accMap).
  split; intros a b; cbn [localeCompare BasicLatin.runtime];
    rewrite (compareUnits_opp a b); lia.
Defined.

(* ================================================================== *)
(** * The summary of the comparison, and the two manifests exchanged *)
(* ================================================================== *)

Lemma filter_length_perm (A : Type) (p : A -> bool) (l l' : list A) :
  Permutation l l' -> length (filter p l) = length (filter p l').
Proof.
  induction 1 as [|x l l' _ IH|x y l|l l' l'' _ IH1 _ IH2]; simpl.
  - reflexivity.
  - destruct (p x); simpl; congruence.
  - destruct (p x), (p y); reflexivity.
  - congruence.
Qed.

Lemma filter_length_map (A B : Type) (p : B -> bool) (g : A -> B) (l : list A) :
  length (filter p (map g l)) = length (filter (fun x => p (g x)) l).
Proof.
  induction l as [|x l IH]; simpl; [reflexivity|].
  destruct (p (g x)); simpl; congruence.
Qed.

Section Summary.
Context {RT : Runtime}.

Lemma classify_swapped (a b : nat) :
  Midp.classify b a = Props.swapped (Midp.classify a b).
Proof.
  unfold Midp.classify.
  destruct a as [|a], b as [|b]; cbn [Nat.ltb Nat.leb Nat.eqb andb negb];
    try reflexivity.
  rewrite (Nat.eqb_sym b a). destruct (a =? b); reflexivity.
Qed.

Lemma hasStatus_spec (s : Midp.ComparisonStatus)
      (r : Midp.MIDPComparisonResultItem) :
  MidpPage.hasStatus s r = true <-> Midp.status r = s.
Proof.
  unfold MidpPage.hasStatus.
  destruct (Midp.status r), s; split; congruence.
Qed.

Lemma hasStatus_swapped (s : Midp.ComparisonStatus)
      (r r' : Midp.MIDPComparisonResultItem) :
  Midp.status r' = Props.swapped (Midp.status r) ->
  MidpPage.hasStatus (Props.swapped s) r' = MidpPage.hasStatus s r.
Proof.
  unfold MidpPage.hasStatus. intros ->.
  destruct (Midp.status r), s; reflexivity.
Qed.

(** The number of results with a status, counted on the visited pairs. *)
Lemma statusCount_pairs (s : Midp.ComparisonStatus)
      (midpMap accMap : Midp.FileDataMap) :
  length (filter (MidpPage.hasStatus s) (Midp.handleCompare midpMap accMap))
  = length (filter (fun p => MidpPage.hasStatus
                               s (Midp.resultFor midpMap accMap (fst p) (snd p)))
                   (Midp.visitedPairs midpMap accMap)).
Proof.
  unfold Midp.handleCompare, Midp.unsortedResults.
  etransitivity; [apply filter_length_perm, sortBy_perm|].
  apply filter_length_map.
Qed.

Lemma visitedPairs_swap (midpMap accMap : Midp.FileDataMap) :
  Permutation (Midp.visitedPairs midpMap accMap)
              (Midp.visitedPairs accMap midpMap).
Proof.
  apply NoDup_Permutation; try apply visitedPairs_NoDup.
  intros [k f]. rewrite !visitedPairs_In. tauto.
Qed.

Lemma statusCount_swap (s : Midp.ComparisonStatus)
      (midpMap accMap : Midp.FileDataMap) :
  length (filter (MidpPage.hasStatus (Props.swapped s))
                 (Midp.handleCompare accMap midpMap))
  = length (filter (MidpPage.hasStatus s)
                   (Midp.handleCompare midpMap accMap)).
Proof.
  rewrite !statusCount_pairs.
  rewrite (filter_length_perm _ (visitedPairs_swap accMap midpMap)).
  f_equal. apply filter_ext. intros [k f].
  apply hasStatus_swapped. cbn [fst snd Midp.resultFor Midp.status].
  apply classify_swapped.
Qed.

(** X15.  With the two manifests exchanged, a pair has its two counts
    exchanged and its status seen from the other side, and the summary
    has the same total, the same numbers of matches and of count
    mismatches, and the numbers of missing and of extra files exchanged. *)
Theorem handleCompare_manifests_exchanged (midpMap accMap : Midp.FileDataMap) :
  (forall k f,
      let r := Midp.resultFor midpMap accMap k f in
      let r' := Midp.resultFor accMap midpMap k f in
      Midp.midpCount r' = Midp.accCount r
      /\ Midp.accCount r' = Midp.midpCount r
      /\ Midp.format r' = Midp.format r
      /\ Midp.status r' = Props.swapped (Midp.status r))
  /\ (let s := MidpPage.summary (Midp.handleCompare midpMap accMap) in
      let s' := MidpPage.summary (Midp.handleCompare accMap midpMap) in
      MidpPage.all s' = MidpPage.all s
      /\ MidpPage.sumMatched s' = MidpPage.sumMatched s
      /\ MidpPage.sumCountMismatch s' = MidpPage.sumCountMismatch s
      /\ MidpPage.sumMissingInAcc s' = MidpPage.sumExtraInAcc s
      /\ MidpPage.sumExtraInAcc s' = MidpPage.sumMissingInAcc s).
Proof.
  split.
  - intros k f. cbv zeta.
    cbn [Midp.resultFor Midp.midpCount Midp.accCount Midp.format Midp.status].
    repeat split. apply classify_swapped.
  - cbv zeta. unfold MidpPage.summary.
    cbn [MidpPage.all MidpPage.sumMatched MidpPage.sumCountMismatch
         MidpPage.sumMissingInAcc MidpPage.sumExtraInAcc].
    split; [|split; [|split; [|split]]].
    + unfold Midp.handleCompare, Midp.unsortedResults.
      rewrite !sortBy_length, !length_map.
      apply Permutation_length, visitedPairs_swap.
    + apply (statusCount_swap Midp.matched).
    + apply (statusCount_swap Midp.count_mismatch).
    + apply (statusCount_swap Midp.extra_in_acc).
    + apply (statusCount_swap Midp.missing_in_acc).
Qed.

(** X16.  The total of the summary is the sum of its four numbers, each of
    them is the number of rows the table shows under the filter of that
    status when all milestones and all formats are chosen, and under the
    filter for all statuses the table shows every result. *)
Theorem summary_partition
        (comparisonResult : list Midp.MIDPComparisonResultItem) :
  let s := MidpPage.summary comparisonResult in
  let shown := MidpPage.filteredResults (lit "All Milestones")
                                        (lit "All Formats") in
  MidpPage.all s
  = MidpPage.sumMatched s + MidpPage.sumCountMismatch s
    + MidpPage.sumMissingInAcc s + MidpPage.sumExtraInAcc s
  /\ length (shown (Some Midp.matched) comparisonResult)
     = MidpPage.sumMatched s
  /\ length (shown (Some Midp.count_mismatch) comparisonResult)
     = MidpPage.sumCountMismatch s
  /\ length (shown (Some Midp.missing_in_acc) comparisonResult)
     = MidpPage.sumMissingInAcc s
  /\ length (shown (Some Midp.extra_in_acc) comparisonResult)
     = MidpPage.sumExtraInAcc s
  /\ shown None comparisonResult = comparisonResult.
Proof.
  cbv zeta. unfold MidpPage.summary, MidpPage.filteredResults.
  cbn [MidpPage.all MidpPage.sumMatched MidpPage.sumCountMismatch
       MidpPage.sumMissingInAcc MidpPage.sumExtraInAcc].
  assert (Hshown : forall flt item,
             MidpPage.resultShown (lit "All Milestones") (lit "All Formats")
                                  flt item
             = match flt with
               | None => true
               | Some s => MidpPage.hasStatus s item
               end).
  { intros flt item. unfold MidpPage.resultShown.
    replace (eqb (lit "All Milestones") (lit "All Milestones")) with true
      by (symmetry; apply eqb_refl).
    replace (eqb (lit "All Formats") (lit "All Formats")) with true
      by (symmetry; apply eqb_refl).
    reflexivity. }
  split; [|split; [|split; [|split; [|split]]]];
    try (f_equal; apply filter_ext; intros r; apply Hshown).
  - induction comparisonResult as [|r l IH]; [reflexivity|].
    cbn [filter].
    assert (Hone : forall s, MidpPage.hasStatus s r
                             = MidpPage.hasStatus
                                 s {| Midp.baseName := [];
                                      Midp.format := [];
                                      Midp.status := Midp.status r;
                                      Midp.midpCount := 0;
                                      Midp.accCount := 0;
                                      Midp.resultMilestones := [] |})
      by reflexivity.
    rewrite !Hone.
    destruct (Midp.status r); cbn [MidpPage.hasStatus Midp.status length]; lia.
  - rewrite (filter_ext _ (fun _ => true)) by (intros r; apply Hshown).
    induction comparisonResult as [|r l IH]; simpl; congruence.
Qed.

End Summary.

(* ================================================================== *)
(** * The order of the rows of a manifest *)
(* ================================================================== *)

Section RowOrder.
Context {RT : Runtime}.
Variables (nameA fmtA : jsstring) (msA : StrMap jsstring).
Variables (nameB fmtB : jsstring) (msB : StrMap jsstring).

Lemma manifestPairs_perm (nameH fmtH : jsstring) (rows rows' : list object) :
  Permutation rows rows' ->
  Permutation (Spec.manifestPairs nameH fmtH rows)
              (Spec.manifestPairs nameH fmtH rows').
Proof. intros H. unfold Spec.manifestPairs. apply Permutation_flat_map, H. Qed.

Lemma countOf_perm (nameH fmtH : jsstring) (ms : StrMap jsstring)
      (rows rows' : list object) (k f : jsstring) :
  Permutation rows rows' ->
  Midp.countOf (mapGet (Midp.columnDataOf nameH fmtH ms rows) k) f
  = Midp.countOf (mapGet (Midp.columnDataOf nameH fmtH ms rows') k) f.
Proof.
  intros H. rewrite !countOf_columnDataOf.
  apply Permutation_count_occ, manifestPairs_perm, H.
Qed.

(** X17.  The rows of a manifest taken in another order give, for every
    base name and format, the same two counts and the same status, and
    the comparison has the same summary. *)
Theorem handleCompare_row_order (rowsA rowsA' rowsB rowsB' : list object) :
  Permutation rowsA rowsA' -> Permutation rowsB rowsB' ->
  let midpMap := Midp.columnDataOf nameA fmtA msA rowsA in
  let accMap := Midp.columnDataOf nameB fmtB msB rowsB in
  let midpMap' := Midp.columnDataOf nameA fmtA msA rowsA' in
  let accMap' := Midp.columnDataOf nameB fmtB msB rowsB' in
  (forall k f,
      let r := Midp.resultFor midpMap accMap k f in
      let r' := Midp.resultFor midpMap' accMap' k f in
      Midp.midpCount r' = Midp.midpCount r
      /\ Midp.accCount r' = Midp.accCount r
      /\ Midp.format r' = Midp.format r
      /\ Midp.status r' = Midp.status r)
  /\ MidpPage.summary (Midp.handleCompare midpMap' accMap')
     = MidpPage.summary (Midp.handleCompare midpMap accMap).
Proof.
  intros HA HB. cbv zeta.
  assert (Hres : forall k f,
             Midp.status (Midp.resultFor
                            (Midp.columnDataOf nameA fmtA msA rowsA')
                            (Midp.columnDataOf nameB fmtB msB rowsB') k f)
             = Midp.status (Midp.resultFor
                              (Midp.columnDataOf nameA fmtA msA rowsA)
                              (Midp.columnDataOf nameB fmtB msB rowsB) k f)).
  { intros k f. cbn [Midp.resultFor Midp.status].
    rewrite (countOf_perm nameA fmtA msA k f HA).
    rewrite (countOf_perm nameB fmtB msB k f HB). reflexivity. }
  assert (Hpairs :
            Permutation
              (Midp.visitedPairs (Midp.columnDataOf nameA fmtA msA rowsA')
                                 (Midp.columnDataOf nameB fmtB msB rowsB'))
              (Midp.visitedPairs (Midp.columnDataOf nameA fmtA msA rowsA)
                                 (Midp.columnDataOf nameB fmtB msB rowsB))).
  { apply NoDup_Permutation; try apply visitedPairs_NoDup.
    intros p. rewrite !visitedPairs_manifests, !in_app_iff.
    rewrite (Permutation_in' (eq_refl p) (manifestPairs_perm nameA fmtA HA)).
    rewrite (Permutation_in' (eq_refl p) (manifestPairs_perm nameB fmtB HB)).
    reflexivity. }
  assert (Hcount : forall s,
             length (filter (MidpPage.hasStatus s)
                            (Midp.handleCompare
                               (Midp.columnDataOf nameA fmtA msA rowsA')
                               (Midp.columnDataOf nameB fmtB msB rowsB')))
             = length (filter (MidpPage.hasStatus s)
                              (Midp.handleCompare
                                 (Midp.columnDataOf nameA fmtA msA rowsA)
                                 (Midp.columnDataOf nameB fmtB msB rowsB)))).
  { intros s. rewrite !statusCount_pairs.
    rewrite (filter_length_perm _ Hpairs). f_equal.
    apply filter_ext. intros [k f]. cbn [fst snd].
    unfold MidpPage.hasStatus. rewrite Hres. reflexivity. }
  split.
  - intros k f.
    cbn [Midp.resultFor Midp.midpCount Midp.accCount Midp.format Midp.status].
    rewrite (countOf_perm nameA fmtA msA k f HA).
    rewrite (countOf_perm nameB fmtB msB k f HB). repeat split.
  - unfold MidpPage.summary. rewrite !Hcount. f_equal.
    unfold Midp.handleCompare, Midp.unsortedResults.
    rewrite !sortBy_length, !length_map.
    apply Permutation_length, Hpairs.
Qed.

End RowOrder.

Section RowOrderExample.
#[local] Existing Instance BasicLatin.runtime.

Lemma handleCompare_row_order_witness :
  (forall k f,
      let r := Midp.resultFor Examples.midpMap Examples.accMap k f in
      let r' := Midp.resultFor
                  (Midp.columnDataOf Examples.nameHeader Examples.formatHeader
                                     Examples.milestoneHeaders
                                     (rev Examples.midpRows))
                  (Midp.columnDataOf Examples.nameHeader Examples.formatHeader
                                     [] (rev Examples.accRows)) k f in
      Midp.midpCount r' = Midp.midpCount r
      /\ Midp.accCount r' = Midp.accCount r
      /\ Midp.format r' = Midp.format r
      /\ Midp.status r' = Midp.status r)
  /\ MidpPage.summary
       (Midp.handleCompare
          (Midp.columnDataOf Examples.nameHeader Examples.formatHeader
                             Examples.milestoneHeaders
                             (rev Examples.midpRows))
          (Midp.columnDataOf Examples.nameHeader Examples.formatHeader
                             [] (rev Examples.accRows)))
     = MidpPage.summary (Midp.handleCompare Examples.midpMap Examples.accMap).
Proof.
  apply (@handleCompare_row_order BasicLatin.runtime
           Examples.nameHeader Examples.formatHeader Examples.milestoneHeaders
           Examples.nameHeader Examples.formatHeader []
           Examples.midpRows (rev Examples.midpRows)
           Examples.accRows (rev Examples.accRows));
    apply Permutation_rev.
Defined.

End RowOrderExample.

(* ================================================================== *)
(** * The milestones of a result *)
(* ================================================================== *)

Section Milestones.
Context {RT : Runtime}.

(** The milestones of a row: those whose cell is none of the values that
    stand for no. *)
Lemma rowMilestonesOf_In (msHeaders : StrMap jsstring) (row : object)
      (m : jsstring) :
  In m (Midp.rowMilestonesOf msHeaders row)
  <-> exists h,
      In (m, h) msHeaders
      /\ existsb (eqb (toLowerCase
                         (trim (toString (nullishEmpty (prop row h))))))
                 Midp.falseValues = false.
Proof.
  unfold Midp.rowMilestonesOf.
  assert (Hgen : forall acc,
             In m (fold_left
                     (fun acc kh =>
                        let s := toLowerCase
                                   (trim (toString
                                            (nullishEmpty (prop row (snd kh)))))
                        in
                        if existsb (eqb s) Midp.falseValues then acc
                        else setAdd acc (fst kh))
                     msHeaders acc)
             <-> In m acc
                 \/ exists h,
                   In (m, h) msHeaders
                   /\ existsb (eqb (toLowerCase
                                      (trim (toString
                                               (nullishEmpty (prop row h))))))
                              Midp.falseValues = false).
  { induction msHeaders as [|[k h] l IH]; intros acc; cbn [fold_left].
    - split; [tauto | intros [H|(h & [] & _)]; exact H].
    - rewrite IH. cbv zeta. cbn [fst snd].
      destruct (existsb (eqb (toLowerCase
                                (trim (toString (nullishEmpty (prop row h))))))
                        Midp.falseValues) eqn:E.
      + split.
        * intros [H|(h' & Hin & Hv)]; [tauto|].
          right. exists h'. split; [right; exact Hin | exact Hv].
        * intros [H|(h' & [Heq|Hin] & Hv)]; [tauto | | right; exists h'; tauto].
          injection Heq as <- <-. congruence.
      + rewrite setAdd_In. split.
        * intros [[->|H]|(h' & Hin & Hv)]; [|tauto|].
          -- right. exists h. split; [left; reflexivity | exact E].
          -- right. exists h'. split; [right; exact Hin | exact Hv].
        * intros [H|(h' & [Heq|Hin] & Hv)]; [tauto | |right; exists h'; tauto].
          injection Heq as <- <-. left. left. reflexivity. }
  destruct (Hgen []) as [H1 H2]. split.
  - intros H. destruct (H1 H) as [[]|H']. exact H'.
  - intros H. apply H2. right. exact H.
Qed.

Lemma rowMilestonesOf_NoDup (msHeaders : StrMap jsstring) (row : object) :
  NoDup (Midp.rowMilestonesOf msHeaders row).
Proof.
  unfold Midp.rowMilestonesOf.
  assert (Hgen : forall acc,
             NoDup acc ->
             NoDup (fold_left
                      (fun acc kh =>
                         let s := toLowerCase
                                    (trim (toString
                                             (nullishEmpty (prop row (snd kh)))))
                         in
                         if existsb (eqb s) Midp.falseValues then acc
                         else setAdd acc (fst kh))
                      msHeaders acc)).
  { induction msHeaders as [|[k h] l IH]; intros acc Hacc; cbn [fold_left];
      [exact Hacc|].
    apply IH. cbv zeta.
    destruct (existsb _ Midp.falseValues); [exact Hacc|].
    apply setAdd_NoDup, Hacc. }
  apply Hgen. constructor.
Qed.

Variables (nameH fmtH : jsstring) (msHeaders : StrMap jsstring).


End Milestones.

Section ResultMilestones.
Context {RT : Runtime}.
Variables (nameA fmtA : jsstring) (msA : StrMap jsstring) (rowsA : list object).
Variables (nameB fmtB : jsstring) (msB : StrMap jsstring) (rowsB : list object).




End ResultMilestones.

(* ================================================================== *)
(** * The parameter page: the three lists of the compliance *)
(* ================================================================== *)

Lemma fold_left_keep (A : Type) (keep : A -> bool) (l acc : list A) :
  fold_left (fun acc x => if keep x then acc ++ [x] else acc) l acc
  = acc ++ filter keep l.
Proof.
  revert acc. induction l as [|x l IH]; intros acc; simpl.
  - rewrite app_nil_r. reflexivity.
  - rewrite IH. destruct (keep x); [|reflexivity].
    rewrite <- app_assoc. reflexivity.
Qed.

Lemma fold_left_drop (A : Type) (drop : A -> bool) (l acc : list A) :
  fold_left (fun acc x => if drop x then acc else acc ++ [x]) l acc
  = acc ++ filter (fun x => negb (drop x)) l.
Proof.
  revert acc. induction l as [|x l IH]; intros acc; simpl.
  - rewrite app_nil_r. reflexivity.
  - rewrite IH. destruct (drop x); [reflexivity|].
    cbn [negb]. rewrite <- app_assoc. reflexivity.
Qed.

Lemma filter_split_perm (A : Type) (p : A -> bool) (l : list A) :
  Permutation (filter p l ++ filter (fun x => negb (p x)) l) l.
Proof.
  induction l as [|x l IH]; simpl; [constructor|].
  destruct (p x); simpl.
  - constructor. exact IH.
  - apply Permutation_sym, Permutation_cons_app, Permutation_sym, IH.
Qed.

Lemma fold_setAdd_image (f : jsstring -> jsstring) (l : list jsstring)
      (s : StrSet) (y : jsstring) :
  In y (fold_left (fun s h => setAdd s (f h)) l s)
  <-> In y s \/ exists h, In h l /\ f h = y.
Proof.
  revert s. induction l as [|x l IH]; intros s; simpl.
  - split; [tauto | intros [H|(h & [] & _)]; exact H].
  - rewrite IH, setAdd_In. split.
    + intros [[->|H]|(h & Hin & Hf)].
      * right. exists x. split; [left; reflexivity | reflexivity].
      * left. exact H.
      * right. exists h. split; [right; exact Hin | exact Hf].
    + intros [H|(h & [<-|Hin] & Hf)].
      * left. right. exact H.
      * left. left. symmetry. exact Hf.
      * right. exists h. split; assumption.
Qed.

Section ComplianceLists.
Context {RT : Runtime}.

(** X19.  Of the compliance of a data file with a standard: the matched
    and the missing parameters together are the required parameters, each as
    often as it is required; a required parameter is matched when a column of
    the data has its name, the spaces around the two names apart, and missing
    otherwise; the extra columns are the columns whose name is, in that
    sense, the name of no required parameter. *)
Theorem compliance_lists (standardParams analyzableHeaders : list jsstring) :
  let c := Loin.compliance standardParams analyzableHeaders in
  Permutation (Loin.matched c ++ Loin.missing c) standardParams
  /\ (forall p, In p (Loin.matched c)
                <-> In p standardParams
                    /\ exists h, In h analyzableHeaders /\ trim h = trim p)
  /\ (forall p, In p (Loin.missing c)
                <-> In p standardParams
                    /\ ~ exists h, In h analyzableHeaders /\ trim h = trim p)
  /\ (forall h, In h (Loin.extra c)
                <-> In h analyzableHeaders
                    /\ ~ exists p, In p standardParams /\ trim p = trim h).
Proof.
  cbv zeta. unfold Loin.compliance.
  cbn [Loin.matched Loin.missing Loin.extra].
  unfold Loin.sortNames, Loin.matchedOf, Loin.missingOf, Loin.extraOf.
  rewrite fold_left_keep, !fold_left_drop. cbn [app].
  set (hs := fold_left (fun s h => setAdd s (Loin.normalize h))
                       analyzableHeaders []).
  set (ps := fold_left (fun s p => setAdd s (Loin.normalize p))
                       standardParams []).
  assert (Hhs : forall x, setHas hs (Loin.normalize x) = true
                          <-> exists h, In h analyzableHeaders
                                        /\ trim h = trim x).
  { intros x. rewrite setHas_In. unfold hs.
    rewrite fold_setAdd_image. cbn [In]. unfold Loin.normalize. tauto. }
  assert (Hps : forall x, setHas ps (Loin.normalize x) = true
                          <-> exists p, In p standardParams
                                        /\ trim p = trim x).
  { intros x. rewrite setHas_In. unfold ps.
    rewrite fold_setAdd_image. cbn [In]. unfold Loin.normalize. tauto. }
  split; [|split; [|split]].
  - eapply Permutation_trans; [|apply (filter_split_perm
                                         (fun x => setHas hs (Loin.normalize x)))].
    apply Permutation_app; apply sortBy_perm.
  - intros p. rewrite sortBy_In, filter_In, Hhs. reflexivity.
  - intros p. rewrite sortBy_In, filter_In, negb_true_iff, <- Hhs.
    destruct (setHas hs (Loin.normalize p)); split; intros [H1 H2];
      (split; [exact H1|]); congruence.
  - intros h. rewrite sortBy_In, filter_In, negb_true_iff, <- Hps.
    destruct (setHas ps (Loin.normalize h)); split; intros [H1 H2];
      (split; [exact H1|]); congruence.
Qed.

End ComplianceLists.

(* ================================================================== *)
(** * The parameter page: the completion of the parameters *)
(* ================================================================== *)

Lemma list_sum_zero (A : Type) (l : list A) :
  list_sum (map (fun _ => 0) l) = 0.
Proof. induction l as [|x l IH]; simpl; [reflexivity | exact IH]. Qed.

(** Over a list of strings without repeats that holds [x], one string is
    equal to [x]. *)
Lemma list_sum_eqb_one (x : jsstring) (l : list jsstring) :
  NoDup l -> In x l ->
  list_sum (map (fun y => if eqb x y then 1 else 0) l) = 1.
Proof.
  intros Hl. induction Hl as [|y l Hy Hl IH]; intros Hin; [destruct Hin|].
  simpl. destruct (eqb_spec x y) as [->|Hne].
  - rewrite (map_ext_in _ (fun _ => 0)); [rewrite list_sum_zero; reflexivity|].
    intros z Hz. destruct (eqb_spec y z) as [->|]; [contradiction|reflexivity].
  - destruct Hin as [->|Hin]; [congruence|]. apply IH, Hin.
Qed.

(** Over a list without repeats that holds every string of [xs], the
    numbers of strings of [xs] equal to each add up to the length of [xs]. *)
Lemma list_sum_classes (xs l : list jsstring) :
  NoDup l -> incl xs l ->
  list_sum (map (fun y => length (filter (fun x => eqb x y) xs)) l)
  = length xs.
Proof.
  intros Hl. induction xs as [|x xs IH]; intros Hincl.
  - simpl. apply list_sum_zero.
  - rewrite (map_ext _ (fun y => (if eqb x y then 1 else 0)
                                 + length (filter (fun x => eqb x y) xs))).
    + rewrite list_sum_map_add, IH.
      * rewrite list_sum_eqb_one; [reflexivity | exact Hl|].
        apply Hincl. left; reflexivity.
      * intros p Hp. apply Hincl. right; exact Hp.
    + intros y. simpl. destruct (eqb x y); reflexivity.
Qed.

Section Completion.
Context {RT : Runtime}.

Lemma filledCount_filter (header : jsstring) (jsonData : list object) :
  ParamPage.filledCount header jsonData
  = length (filter (fun row => ParamPage.isFilled (prop row header)) jsonData).
Proof.
  unfold ParamPage.filledCount.
  assert (G : forall rows n,
             fold_left (fun count row =>
                          if ParamPage.isFilled (prop row header)
                          then count + 1 else count) rows n
             = n + length (filter (fun row =>
                                     ParamPage.isFilled (prop row header))
                                  rows)).
  { induction rows as [|row rows IH]; intros n; simpl; [lia|].
    rewrite IH. destruct (ParamPage.isFilled (prop row header)); simpl; lia. }
  apply (G jsonData 0).
Qed.

Lemma parameterSummary_parameters (analyzableHeaders : list jsstring)
      (jsonData : list object) :
  map ParamPage.parameter
      (ParamPage.parameterSummary analyzableHeaders jsonData)
  = analyzableHeaders.
Proof.
  unfold ParamPage.parameterSummary. rewrite map_map.
  cbn [ParamPage.parameter]. apply map_id.
Qed.

(** X20.  The global analysis has one entry for each analyzable column, in
    the order of the columns; its filled count is the number of rows whose
    cell is neither null nor undefined nor blank, and its filled and empty
    counts add up to the number of rows. *)
Theorem parameterSummary_counts (analyzableHeaders : list jsstring)
        (jsonData : list object) :
  let res := ParamPage.parameterSummary analyzableHeaders jsonData in
  map ParamPage.parameter res = analyzableHeaders
  /\ Forall (fun e =>
               ParamPage.filled e
               = length (filter (fun row =>
                                   ParamPage.isFilled
                                     (prop row (ParamPage.parameter e)))
                                jsonData)
               /\ ParamPage.filled e + ParamPage.empty e = length jsonData
               /\ ParamPage.percentage e
                  = ParamPage.ratio (ParamPage.filled e) (length jsonData))
            res.
Proof.
  cbv zeta. split; [apply parameterSummary_parameters|].
  unfold ParamPage.parameterSummary.
  - apply Forall_forall. intros e He. apply in_map_iff in He.
    destruct He as (header & <- & _).
    cbn [ParamPage.filled ParamPage.empty ParamPage.parameter
         ParamPage.percentage].
    rewrite filledCount_filter. split; [reflexivity|]. split; [|reflexivity].
    pose proof (filter_length_le
                  (fun row => ParamPage.isFilled (prop row header)) jsonData).
    lia.
Qed.

Lemma countCells_total (analyzableHeaders : list jsstring)
      (rowsForFile : list object) :
  fst (ParamPage.countCells analyzableHeaders rowsForFile)
  + snd (ParamPage.countCells analyzableHeaders rowsForFile)
  = length rowsForFile * length analyzableHeaders.
Proof.
  unfold ParamPage.countCells.
  assert (Hrow : forall row hs counts,
             let c := fold_left
                        (fun counts header =>
                           if ParamPage.isFilled (prop row header)
                           then (S (fst counts), snd counts)
                           else (fst counts, S (snd counts)))
                        hs counts in
             fst c + snd c = fst counts + snd counts + length hs).
  { intros row hs. induction hs as [|h hs IH]; intros counts; cbv zeta;
      cbn [fold_left length]; [lia|].
    specialize (IH (if ParamPage.isFilled (prop row h)
                    then (S (fst counts), snd counts)
                    else (fst counts, S (snd counts)))).
    cbv zeta in IH. rewrite IH.
    destruct (ParamPage.isFilled (prop row h)); cbn [fst snd]; lia. }
  assert (G : forall rows counts,
             let c := fold_left
                        (fun counts row =>
                           fold_left
                             (fun counts header =>
                                if ParamPage.isFilled (prop row header)
                                then (S (fst counts), snd counts)
                                else (fst counts, S (snd counts)))
                             analyzableHeaders counts)
                        rows counts in
             fst c + snd c
             = fst counts + snd counts
               + length rows * length analyzableHeaders).
  { induction rows as [|row rows IH]; intros counts; cbv zeta;
      cbn [fold_left length]; [lia|].
    specialize (IH (fold_left
                      (fun counts header =>
                         if ParamPage.isFilled (prop row header)
                         then (S (fst counts), snd counts)
                         else (fst counts, S (snd counts)))
                      analyzableHeaders counts)).
    cbv zeta in IH. rewrite IH.
    pose proof (Hrow row analyzableHeaders counts) as Hr. cbv zeta in Hr.
    rewrite Hr. lia. }
  apply (G rowsForFile (0, 0)).
Qed.

Lemma uniqueSourceFiles_In (sourceFileHeader : jsstring)
      (jsonData : list object) (sf : jsstring) :
  In sf (ParamPage.uniqueSourceFiles sourceFileHeader jsonData)
  <-> sf <> [] /\ exists row, In row jsonData
                              /\ ParamPage.sourceOf sourceFileHeader row = sf.
Proof.
  unfold ParamPage.uniqueSourceFiles.
  rewrite fold_setAdd_In, filter_In, in_map_iff, negb_true_iff, isEmpty_false.
  cbn [In]. split.
  - intros [[(row & E & Hin) Hne]|[]]. split; [exact Hne|]. exists row. tauto.
  - intros [Hne (row & Hin & E)]. left. split; [|exact Hne]. exists row. tauto.
Qed.

Lemma rowsForFile_length (sourceFileHeader : jsstring)
      (jsonData : list object) (sf : jsstring) :
  sf <> [] ->
  length (filter (fun row => eqb (ParamPage.sourceOf sourceFileHeader row) sf)
                 jsonData)
  = length (filter (fun s => eqb s sf)
                   (filter (fun s => negb (isEmpty s))
                           (map (ParamPage.sourceOf sourceFileHeader)
                                jsonData))).
Proof.
  intros Hne. induction jsonData as [|row rows IH]; [reflexivity|].
  cbn [map filter].
  destruct (eqb_spec (ParamPage.sourceOf sourceFileHeader row) sf) as [E|E].
  - rewrite E. apply isEmpty_false in Hne. rewrite Hne. cbn [negb filter].
    rewrite eqb_refl. cbn [length]. f_equal. exact IH.
  - destruct (isEmpty (ParamPage.sourceOf sourceFileHeader row));
      cbn [negb filter]; [exact IH|].
    destruct (eqb_spec (ParamPage.sourceOf sourceFileHeader row) sf);
      [congruence | exact IH].
Qed.

(** The entry of a source that some row names. *)
Lemma sourceSummary_some (sourceFileHeader : jsstring)
      (analyzableHeaders : list jsstring) (jsonData : list object)
      (sf : jsstring) :
  In sf (ParamPage.uniqueSourceFiles sourceFileHeader jsonData) ->
  exists e,
    ParamPage.sourceSummary sourceFileHeader analyzableHeaders jsonData sf
    = Some e
    /\ ParamPage.sourceFile e = sf
    /\ ParamPage.totalElements e
       = length (filter (fun row =>
                           eqb (ParamPage.sourceOf sourceFileHeader row) sf)
                        jsonData)
    /\ 1 <= ParamPage.totalElements e
    /\ ParamPage.filledCells e + ParamPage.emptyCells e
       = ParamPage.totalElements e * length analyzableHeaders.
Proof.
  intros Hin. apply uniqueSourceFiles_In in Hin.
  destruct Hin as [Hne (row & Hrow & Hsrc)].
  unfold ParamPage.sourceSummary.
  set (rowsForFile := filter (fun row =>
                                eqb (ParamPage.sourceOf sourceFileHeader row) sf)
                             jsonData).
  assert (Hpos : 1 <= length rowsForFile).
  { assert (Hmem : In row rowsForFile).
    { apply filter_In. split; [exact Hrow|]. rewrite Hsrc. apply eqb_refl. }
    destruct rowsForFile; [destruct Hmem | simpl; lia]. }
  destruct (Nat.eqb_spec (length rowsForFile) 0) as [E|_]; [lia|].
  eexists. split; [reflexivity|].
  cbn [ParamPage.sourceFile ParamPage.totalElements ParamPage.filledCells
       ParamPage.emptyCells].
  repeat split; try assumption. apply countCells_total.
Qed.

(** The sources and the numbers of rows of the entries, for a list of
    sources that rows name. *)
Lemma perSourceSummary_columns (sourceFileHeader : jsstring)
      (analyzableHeaders : list jsstring) (jsonData : list object)
      (l : list jsstring) :
  incl l (ParamPage.uniqueSourceFiles sourceFileHeader jsonData) ->
  map ParamPage.sourceFile
      (flat_map (fun sf =>
                   match ParamPage.sourceSummary
                           sourceFileHeader analyzableHeaders jsonData sf with
                   | Some item => [item]
                   | None => []
                   end) l) = l
  /\ map ParamPage.totalElements
         (flat_map (fun sf =>
                      match ParamPage.sourceSummary
                              sourceFileHeader analyzableHeaders jsonData sf
                      with
                      | Some item => [item]
                      | None => []
                      end) l)
     = map (fun sf =>
              length (filter
                        (fun s => eqb s sf)
                        (filter (fun s => negb (isEmpty s))
                                (map (ParamPage.sourceOf sourceFileHeader)
                                     jsonData)))) l.
Proof.
  induction l as [|sf l IH]; intros Hincl; [split; reflexivity|].
  cbn [flat_map]. rewrite !map_app.
  destruct IH as [IH1 IH2];
    [intros x Hx; apply Hincl; right; exact Hx|].
  rewrite IH1, IH2.
  assert (Hsf : In sf (ParamPage.uniqueSourceFiles sourceFileHeader jsonData))
    by (apply Hincl; left; reflexivity).
  destruct (sourceSummary_some sourceFileHeader analyzableHeaders
                               jsonData sf Hsf)
    as (e & -> & Hname & Htot & _).
  cbn [map app]. rewrite Hname, Htot.
  rewrite rowsForFile_length; [split; reflexivity|].
  apply uniqueSourceFiles_In in Hsf. tauto.
Qed.

Lemma perSourceSummary_sources (sourceFileHeader : jsstring)
      (analyzableHeaders : list jsstring) (jsonData : list object) :
  map ParamPage.sourceFile
      (ParamPage.perSourceSummary sourceFileHeader analyzableHeaders jsonData)
  = ParamPage.uniqueSourceFiles sourceFileHeader jsonData.
Proof.
  unfold ParamPage.perSourceSummary.
  apply perSourceSummary_columns, incl_refl.
Qed.

(** X21.  The summary by source file has one entry for each source that a
    row names, in the order the sources first appear and each one once:
    no source is dropped.  The entry of a source counts the rows that name
    it, at least one; its filled and empty cells add up to that number
    times the number of analyzable columns; and the rows of the entries add
    up to the rows that name a source. *)
Theorem perSourceSummary_entries (sourceFileHeader : jsstring)
        (analyzableHeaders : list jsstring) (jsonData : list object) :
  let res := ParamPage.perSourceSummary sourceFileHeader analyzableHeaders
                                        jsonData in
  map ParamPage.sourceFile res
  = ParamPage.uniqueSourceFiles sourceFileHeader jsonData
  /\ NoDup (map ParamPage.sourceFile res)
  /\ Forall (fun e =>
               ParamPage.sourceFile e <> []
               /\ ParamPage.totalElements e
                  = length (filter
                              (fun row =>
                                 eqb (ParamPage.sourceOf sourceFileHeader row)
                                     (ParamPage.sourceFile e))
                              jsonData)
               /\ 1 <= ParamPage.totalElements e
               /\ ParamPage.filledCells e + ParamPage.emptyCells e
                  = ParamPage.totalElements e * length analyzableHeaders)
            res
  /\ list_sum (map ParamPage.totalElements res)
     = length (filter (fun row =>
                         negb (isEmpty (ParamPage.sourceOf sourceFileHeader
                                                           row)))
                      jsonData).
Proof.
  cbv zeta. unfold ParamPage.perSourceSummary.
  set (u := ParamPage.uniqueSourceFiles sourceFileHeader jsonData).
  assert (Hu : NoDup u).
  { unfold u, ParamPage.uniqueSourceFiles. apply fold_setAdd_NoDup.
    constructor. }
  destruct (perSourceSummary_columns sourceFileHeader analyzableHeaders
                                     jsonData (incl_refl u))
    as [Hnames Htotals].
  split; [exact Hnames|]. split; [rewrite Hnames; exact Hu|]. split.
  - apply Forall_forall. intros e He. apply in_flat_map in He.
    destruct He as (sf & Hsf & He).
    destruct (sourceSummary_some sourceFileHeader analyzableHeaders
                                 jsonData sf Hsf)
      as (e' & E & Hname & Htot & Hpos & Hcells).
    rewrite E in He. destruct He as [<-|[]].
    rewrite Hname. apply uniqueSourceFiles_In in Hsf. tauto.
  - rewrite Htotals, list_sum_classes.
    + clear. induction jsonData as [|row rows IH]; [reflexivity|].
      cbn [map filter].
      destruct (isEmpty (ParamPage.sourceOf sourceFileHeader row));
        cbn [negb length]; congruence.
    + exact Hu.
    + intros s Hs. unfold u, ParamPage.uniqueSourceFiles.
      apply fold_setAdd_In. left. exact Hs.
Qed.

End Completion.

(* ================================================================== *)
(** * The parameter page: what [handleAnalyze] returns *)
(* ================================================================== *)

Section Analyze.
Context {RT : Runtime}.

Lemma findTruthy_some (p : jsstring -> bool) (xs : list jsstring)
      (h : jsstring) :
  findTruthy p xs = Some h -> In h xs /\ p h = true /\ h <> [].
Proof.
  unfold findTruthy. destruct (find p xs) as [x|] eqn:E; [|discriminate].
  destruct (isEmpty x) eqn:Ex; [discriminate|]. intros H. injection H as <-.
  apply find_some in E. destruct E as [Hin Hp].
  split; [exact Hin|]. split; [exact Hp|]. apply isEmpty_false, Ex.
Qed.

(** The column of the source files is no analyzable column. *)
Lemma sourceFileHeader_excluded (allHeaders : list jsstring) (h : jsstring) :
  ParamPage.sourceFileHeaderOf allHeaders = Some h ->
  ~ In h (Loin.analyzableHeadersOf allHeaders).
Proof.
  intros Hfind Hin. apply findTruthy_some in Hfind.
  destruct Hfind as (_ & Hp & _).
  apply filter_In in Hin. destruct Hin as [_ Hex].
  unfold Loin.notExcluded in Hex. apply negb_true_iff in Hex.
  assert (Hyes : existsb (eqb (toLowerCase h)) Loin.excludedColumns = true).
  { apply existsb_exists. apply orb_true_iff in Hp. destruct Hp as [Hp|Hp].
    - exists (lit "source file"). split; [|exact Hp].
      right. right. left. reflexivity.
    - exists (lit "file name"). split; [|exact Hp].
      right. right. right. left. reflexivity. }
  congruence.
Qed.

(** X22.  [handleAnalyze] fails exactly when the data file has no row, or
    when the first row has no column named source file or file name, the
    letter case apart.  Otherwise the number of elements is the number of
    rows, there is a compliance result exactly when a standard with a row
    is given, and the column of the source files is not among the analysed
    parameters, which are columns of the first row. *)
Theorem handleAnalyze_outcome (jsonData : list object)
        (standardData : option (list object)) :
  match ParamPage.handleAnalyze jsonData standardData with
  | ParamPage.Failed _ =>
    jsonData = []
    \/ exists first rest,
        jsonData = first :: rest
        /\ ParamPage.sourceFileHeaderOf (keys first) = None
  | ParamPage.Analyzed a =>
    exists first rest sourceFileHeader,
      jsonData = first :: rest
      /\ ParamPage.sourceFileHeaderOf (keys first) = Some sourceFileHeader
      /\ ParamPage.totalElementsOfFile a = length jsonData
      /\ (ParamPage.complianceResult a = None
          <-> standardData = None \/ standardData = Some [])
      /\ ~ In sourceFileHeader
              (map ParamPage.parameter (ParamPage.analysisSummary a))
      /\ incl (map ParamPage.parameter (ParamPage.analysisSummary a))
              (keys first)
      /\ map ParamPage.sourceFile (ParamPage.sourceFileSummary a)
         = ParamPage.uniqueSourceFiles sourceFileHeader jsonData
  end.
Proof.
  unfold ParamPage.handleAnalyze. destruct jsonData as [|first rest].
  - left. reflexivity.
  - destruct (ParamPage.sourceFileHeaderOf (keys first)) as [h|] eqn:Eh.
    + exists first, rest, h.
      cbn [ParamPage.totalElementsOfFile ParamPage.complianceResult
           ParamPage.analysisSummary ParamPage.sourceFileSummary].
      rewrite parameterSummary_parameters.
      split; [reflexivity|]. split; [exact Eh|]. split; [reflexivity|].
      split; [|split; [|split]].
      * destruct standardData as [[|row more]|].
        -- split; [intros _; right; reflexivity | reflexivity].
        -- split; [discriminate | intros [H|H]; discriminate].
        -- split; [intros _; left; reflexivity | reflexivity].
      * apply sourceFileHeader_excluded, Eh.
      * intros x Hx. apply filter_In in Hx. apply Hx.
      * apply perSourceSummary_sources.
    + right. exists first, rest. split; [reflexivity | exact Eh].
Qed.

End Analyze.

(* ================================================================== *)
(** * The parameter page: the name of the exported report *)
(* ================================================================== *)

Lemma includes_dot_false (s : jsstring) :
  ~ In 46%N s -> includes s (lit ".") = false.
Proof.
  induction s as [|c t IH]; intros Hno; [reflexivity|].
  cbn [includes]. rewrite IH by (intros H; apply Hno; right; exact H).
  change (lit ".") with [46%N]. cbn [startsWith].
  destruct (N.eqb_spec 46 c) as [<-|_]; [|reflexivity].
  exfalso. apply Hno. left. reflexivity.
Qed.

Lemma removelast_snoc (A : Type) (l : list A) (x : A) :
  removelast (l ++ [x]) = l.
Proof. apply removelast_last. Qed.

(** The parts of a name that ends with a dot and an extension without dot:
    the last part is the extension, and the parts before it, joined by
    dots, are what is before that dot. *)
Lemma splitFrom_last_dot (ext stem acc : jsstring) :
  ~ In 46%N ext ->
  exists parts,
    splitFrom [46%N] 0 (stem ++ 46%N :: ext) acc = parts ++ [ext]
    /\ parts <> []
    /\ join [46%N] parts = rev acc ++ stem.
Proof.
  intros Hno. revert acc. induction stem as [|c t IH]; intros acc.
  - exists [rev acc]. cbn [app splitFrom startsWith length Nat.pred].
    rewrite N.eqb_refl. cbn [andb].
    rewrite (@splitFrom_no_match [46%N] ext [] (@includes_dot_false ext Hno)).
    split; [reflexivity|]. split; [discriminate|].
    cbn [join]. rewrite app_nil_r. reflexivity.
  - cbn [app splitFrom startsWith length Nat.pred].
    destruct (N.eqb_spec 46 c) as [<-|Hne]; cbn [andb].
    + destruct (IH []) as (parts & E & Hparts & Hjoin).
      exists (rev acc :: parts). rewrite E. split; [reflexivity|].
      split; [discriminate|].
      destruct parts as [|p ps]; [congruence|].
      change (join [46%N] (rev acc :: p :: ps))
        with (rev acc ++ [46%N] ++ join [46%N] (p :: ps)).
      rewrite Hjoin. reflexivity.
    + destruct (IH (c :: acc)) as (parts & E & Hparts & Hjoin).
      exists parts. split; [exact E|]. split; [exact Hparts|].
      rewrite Hjoin. cbn [rev]. rewrite <- app_assoc. reflexivity.
Qed.

(** X23.  The name of the exported report starts with the name of the data
    file without its extension: for a name that ends with a dot and an
    extension without dot, what is before that dot, other dots included.
    For a name without any dot it starts with the empty string. *)
Theorem baseFileName_extension (stem ext : jsstring) :
  ~ In 46%N ext ->
  ParamPage.baseFileName (stem ++ lit "." ++ ext) = stem
  /\ ParamPage.baseFileName ext = [].
Proof.
  intros Hno. unfold ParamPage.baseFileName, sliceInit.
  change (lit ".") with [46%N]. unfold split. split.
  - destruct (@splitFrom_last_dot ext stem [] Hno) as (parts & E & _ & Hjoin).
    cbn [app]. rewrite E, removelast_snoc. exact Hjoin.
  - rewrite (@splitFrom_no_match [46%N] ext [] (@includes_dot_false ext Hno)).
    reflexivity.
Qed.

Lemma baseFileName_extension_witness :
  ParamPage.baseFileName (lit "Tower.v2" ++ lit "." ++ lit "xlsx")
  = lit "Tower.v2"
  /\ ParamPage.baseFileName (lit "xlsx") = [].
Proof.
  apply (@baseFileName_extension (lit "Tower.v2") (lit "xlsx")).
  vm_compute. intuition discriminate.
Defined.

(* ================================================================== *)
(** * The cleaning of a sheet *)
(* ================================================================== *)

Lemma filter_idem (A : Type) (p : A -> bool) (l : list A) :
  filter p (filter p l) = filter p l.
Proof.
  induction l as [|x l IH]; simpl; [reflexivity|].
  destruct (p x) eqn:E; simpl; [rewrite E, IH|]; auto.
Qed.

(** X24.  Cleaning a string that has no surrogate a second time changes
    nothing.  With surrogates it can: a high and a low surrogate that a
    control character separates are kept and left side by side, and they
    can then be the pair of a format character, which a second cleaning
    removes. *)
Theorem cleanText_twice :
  (forall s, Forall (fun c => Text.isHighSurrogate c = false) s ->
             Text.removeCcCf (Text.removeCcCf s) = Text.removeCcCf s)
  /\ (exists s, Text.removeCcCf s <> []
                /\ Text.removeCcCf (Text.removeCcCf s) = []).
Proof.
  split.
  - intros s Hs. rewrite (removeCcCf_filter Hs).
    rewrite removeCcCf_filter by (apply Forall_filter_keep, Hs).
    apply filter_idem.
  - exists [56128%N; 0%N; 56321%N]. split; [discriminate | reflexivity].
Qed.

Section CleanRow.
Context {RT : Runtime}.














End CleanRow.

(* ================================================================== *)
(** * The checks on the text in lower case, and the checks of defects *)
(* ================================================================== *)

Section MoreKeywordChecks.
Context {RT : Runtime}.

Lemma rowsWithCell_filled (h : jsstring) (excelData : list object) :
  QaqcPage.rowsWithCell h excelData = filter (Spec.filled h) excelData.
Proof. unfold QaqcPage.rowsWithCell. apply filter_filled. Qed.

Lemma nonEmptyCell_notBlank (h : jsstring) (r : object) :
  Qaqc.nonEmptyCell h r = Spec.notBlank h r.
Proof.
  unfold Qaqc.nonEmptyCell, Qaqc.cellNullish, Spec.notBlank, Spec.cellText.
  destruct (prop r h); reflexivity.
Qed.

(** X26.  The checks of the starting view and of the workset name read the
    text in lower case only: two texts that are equal in lower case give the
    same records.  The column of the first check is the first header that
    contains, trimmed and in lower case, the words starting view, the column
    of the second the first that contains the words workset name.  There is
    one record for each row whose cell in that column is truthy and not
    blank, in order; it holds the cell of the row, and it is Valid exactly
    when the cell as it is written, in lower case, occurs in the text in
    lower case. *)
Theorem text_checks_ignore_case (sourceText sourceText' : jsstring)
        (viewData worksetData : list object) (hs hw : jsstring) :
  toLowerCase sourceText = toLowerCase sourceText' ->
  findTruthy (fun h => includes (trim (toLowerCase h)) (lit "starting view"))
             (Qaqc.headersOf viewData) = Some hs ->
  findTruthy (fun h => includes (trim (toLowerCase h)) (lit "workset name"))
             (Qaqc.headersOf worksetData) = Some hw ->
  (exists out,
      QaqcPage.startingViewNameCheck sourceText viewData = Some out
      /\ QaqcPage.startingViewNameCheck sourceText' viewData = Some out
      /\ Forall2 (fun r item =>
                    prop (Qaqc.originalRecord item) hs = prop r hs
                    /\ (Qaqc.status item = Qaqc.Valid
                        <-> exists b a,
                            toLowerCase sourceText
                            = b ++ toLowerCase (toString (prop r hs)) ++ a))
                 (filter (Spec.filled hs) viewData) out)
  /\ (exists out,
         QaqcPage.categoryWorksetNameCheck sourceText worksetData = Some out
         /\ QaqcPage.categoryWorksetNameCheck sourceText' worksetData
            = Some out
         /\ Forall2 (fun r item =>
                       prop (Qaqc.originalRecord item) hw = prop r hw
                       /\ (Qaqc.status item = Qaqc.Valid
                           <-> exists b a,
                               toLowerCase sourceText
                               = b ++ toLowerCase (toString (prop r hw)) ++ a))
                    (filter (Spec.filled hw) worksetData) out).
Proof.
  intros Hcase Hs Hw. split.
  - unfold QaqcPage.startingViewNameCheck. rewrite Hs.
    eexists. split; [reflexivity|]. split.
    + unfold QaqcPage.startingViewRow. rewrite Hcase. reflexivity.
    + rewrite rowsWithCell_filled. apply Forall2_map_self. intros r _.
      unfold QaqcPage.startingViewRow.
      cbn [Qaqc.originalRecord Qaqc.status].
      split; [apply prop_createRowRecord|]. rewrite <- includes_spec.
      destruct (includes (toLowerCase sourceText)
                         (toLowerCase (toString (prop r hs))));
        split; intros H; try reflexivity; try discriminate; congruence.
  - unfold QaqcPage.categoryWorksetNameCheck. rewrite Hw.
    eexists. split; [reflexivity|]. split.
    + unfold QaqcPage.worksetRow. rewrite Hcase. reflexivity.
    + rewrite rowsWithCell_filled. apply Forall2_map_self. intros r _.
      unfold QaqcPage.worksetRow.
      cbn [Qaqc.originalRecord Qaqc.status].
      split; [apply prop_createRowRecord|]. rewrite <- includes_spec.
      destruct (includes (toLowerCase sourceText)
                         (toLowerCase (toString (prop r hw))));
        split; intros H; try reflexivity; try discriminate; congruence.
Qed.


(** X28.  The column of the check of the imported CAD files is the first
    header that is, trimmed and in lower case, imported cad, and the column
    of the check of the views that are on no sheet the first that is views
    not in sheets or views not in sheet.  Each check returns one record for
    each row whose cell in its column is neither null nor undefined nor
    blank, in order; the record holds the cell of the row and is Invalid.
    In the summary such a check has no record passed; it stands at 100 per
    cent with the text for no defect when it has no record, and at 0 per
    cent as soon as it has one. *)
Theorem defect_checks (cadData viewData : list object) (hc hv : jsstring)
        (data : list QaqcPage.SummaryDataItem) (title some none : jsstring) :
  findTruthy (fun h => eqb (trim (toLowerCase h)) (lit "imported cad"))
             (Qaqc.headersOf cadData) = Some hc ->
  findTruthy (fun h => Qaqc.arrayIncludes
                         [lit "views not in sheets"; lit "views not in sheet"]
                         (trim (toLowerCase h)))
             (Qaqc.headersOf viewData) = Some hv ->
  (exists out,
      QaqcPage.importedCadCheck cadData = Some out
      /\ Forall2 (fun r item =>
                    prop (Qaqc.originalRecord item) hc = prop r hc
                    /\ Qaqc.status item = Qaqc.Invalid)
                 (filter (Spec.notBlank hc) cadData) out)
  /\ (exists out,
         QaqcPage.viewsNotInSheetsCheck viewData = Some out
         /\ Forall2 (fun r item =>
                       prop (Qaqc.originalRecord item) hv = prop r hv
                       /\ Qaqc.status item = Qaqc.Invalid)
                    (filter (Spec.notBlank hv) viewData) out)
  /\ QaqcPage.pushDefects data None title some none = data
  /\ (forall res,
         exists item,
           QaqcPage.pushDefects data (Some res) title some none
           = data ++ [item]
           /\ QaqcPage.title item = title
           /\ QaqcPage.passed item = 0
           /\ QaqcPage.total item = length res
           /\ (res = [] -> QaqcPage.percentage item = 100%float
                           /\ QaqcPage.subtitle item = Some none)
           /\ (res <> [] -> QaqcPage.percentage item = 0%float)).
Proof.
  intros Hc Hv. split; [|split; [|split; [reflexivity|]]].
  - unfold QaqcPage.importedCadCheck. rewrite Hc.
    eexists. split; [reflexivity|].
    unfold QaqcPage.rowsWithNullishCell.
    rewrite (filter_ext _ _ (nonEmptyCell_notBlank hc)).
    apply Forall2_map_self. intros r _. unfold QaqcPage.importedCadRow.
    cbn [Qaqc.originalRecord Qaqc.status].
    split; [apply prop_createRowRecord | reflexivity].
  - unfold QaqcPage.viewsNotInSheetsCheck. rewrite Hv.
    eexists. split; [reflexivity|].
    unfold QaqcPage.rowsWithNullishCell.
    rewrite (filter_ext _ _ (nonEmptyCell_notBlank hv)).
    apply Forall2_map_self. intros r _. unfold QaqcPage.viewsNotInSheetsRow.
    cbn [Qaqc.originalRecord Qaqc.status].
    split; [apply prop_createRowRecord | reflexivity].
  - intros res. eexists. split; [reflexivity|].
    cbn [QaqcPage.title QaqcPage.passed QaqcPage.total QaqcPage.percentage
         QaqcPage.subtitle].
    split; [reflexivity|]. split; [reflexivity|]. split; [reflexivity|].
    split.
    + intros ->. split; reflexivity.
    + intros Hne. destruct res as [|r res]; [congruence | reflexivity].
Qed.

End MoreKeywordChecks.

(* ================================================================== *)
(** * The formats offered by the filter of the MIDP page *)
(* ================================================================== *)

Section Formats.
Context {RT : Runtime}.

(** X29.  The formats offered by the filter are the formats of the
    results, each one once, in the order of their code units. *)
Theorem availableFormats_sorted
        (comparisonResult : list Midp.MIDPComparisonResultItem) :
  let formats := MidpPage.availableFormats comparisonResult in
  NoDup formats
  /\ (forall f, In f formats
                <-> exists r, In r comparisonResult /\ Midp.format r = f)
  /\ Sorted (fun a b => (BasicLatin.compareUnits a b <= 0)%Z) formats.
Proof.
  cbv zeta. unfold MidpPage.availableFormats.
  set (fs := fold_left (fun formats item => setAdd formats (Midp.format item))
                       comparisonResult []).
  assert (Hin : forall f, In f fs
                          <-> exists r, In r comparisonResult
                                        /\ Midp.format r = f).
  { intros f. unfold fs.
    assert (G : forall l acc,
               In f (fold_left (fun formats item =>
                                  setAdd formats (Midp.format item)) l acc)
               <-> In f acc \/ exists r, In r l /\ Midp.format r = f).
    { induction l as [|x l IH]; intros acc; simpl.
      - split; [tauto | intros [H|(r & [] & _)]; exact H].
      - rewrite IH, setAdd_In. split.
        + intros [[->|H]|(r & Hr & Hf)].
          * right. exists x. split; [left; reflexivity | reflexivity].
          * left. exact H.
          * right. exists r. split; [right; exact Hr | exact Hf].
        + intros [H|(r & [<-|Hr] & Hf)].
          * left. right. exact H.
          * left. left. symmetry. exact Hf.
          * right. exists r. split; assumption. }
    rewrite G. cbn [In]. tauto. }
  assert (Hnd : NoDup fs).
  { unfold fs.
    assert (G : forall l acc,
               NoDup acc ->
               NoDup (fold_left (fun formats item =>
                                   setAdd formats (Midp.format item)) l acc)).
    { induction l as [|x l IH]; intros acc Hacc; simpl; [exact Hacc|].
      apply IH, setAdd_NoDup, Hacc. }
    apply G. constructor. }
  split; [|split].
  - apply (Permutation_NoDup (Permutation_sym (sortBy_perm _ fs))). exact Hnd.
  - intros f. rewrite sortBy_In. apply Hin.
  - apply sortBy_sorted. intros a b. rewrite (compareUnits_opp a b). lia.
Qed.

End Formats.

(* ================================================================== *)
(** * The analysis page: the chosen files *)
(* ================================================================== *)

Lemma sameFile_refl (f : AnalysisPage.Files.File) :
  AnalysisPage.sameFile f f = true.
Proof. unfold AnalysisPage.sameFile. rewrite eqb_refl, N.eqb_refl. reflexivity. Qed.

Lemma filter_none (A : Type) (p : A -> bool) (l : list A) :
  (forall x, In x l -> p x = false) -> filter p l = [].
Proof.
  induction l as [|x l IH]; intros H; simpl; [reflexivity|].
  rewrite (H x) by (left; reflexivity). apply IH.
  intros y Hy. apply H. right; exact Hy.
Qed.

(** X30.  A selection adds, after the files already chosen, the PDF files
    of the selection that have not the name and the size of a file already
    chosen; the error is set exactly when some selected file is not a PDF;
    no selection changes nothing; and the same selection made a second time
    adds no file. *)
Theorem handleFilesSelected_files (st : AnalysisPage.State)
        (newFiles : list AnalysisPage.Files.File) :
  let st' := AnalysisPage.handleFilesSelected st (Some newFiles) in
  AnalysisPage.handleFilesSelected st None = st
  /\ (exists added,
         AnalysisPage.files st' = AnalysisPage.files st ++ added
         /\ forall f,
             In f added
             <-> In f newFiles /\ AnalysisPage.isPdf f = true
                 /\ forall g, In g (AnalysisPage.files st) ->
                              AnalysisPage.sameFile g f = false)
  /\ (AnalysisPage.error st' = None
      <-> Forall (fun f => AnalysisPage.isPdf f = true) newFiles)
  /\ AnalysisPage.files (AnalysisPage.handleFilesSelected st' (Some newFiles))
     = AnalysisPage.files st'.
Proof.
  cbv zeta. split; [reflexivity|].
  set (pdfFiles := filter AnalysisPage.isPdf newFiles).
  set (fresh := fun fs (newPdf : AnalysisPage.Files.File) =>
                  negb (existsb (fun existingFile =>
                                   AnalysisPage.sameFile existingFile newPdf)
                                fs)).
  assert (Hfresh : forall fs f,
             fresh fs f = true
             <-> forall g, In g fs -> AnalysisPage.sameFile g f = false).
  { intros fs f. unfold fresh. rewrite negb_true_iff. split.
    - intros H g Hg. destruct (AnalysisPage.sameFile g f) eqn:E; [|reflexivity].
      assert (Hex : existsb (fun e => AnalysisPage.sameFile e f) fs = true)
        by (apply existsb_exists; exists g; tauto).
      congruence.
    - intros H. destruct (existsb _ fs) eqn:E; [|reflexivity].
      apply existsb_exists in E. destruct E as (g & Hg & Hs).
      rewrite (H g Hg) in Hs. discriminate. }
  assert (Hfiles : AnalysisPage.files
                     (AnalysisPage.handleFilesSelected st (Some newFiles))
                   = AnalysisPage.files st
                     ++ filter (fresh (AnalysisPage.files st)) pdfFiles).
  { unfold AnalysisPage.handleFilesSelected. fold pdfFiles.
    destruct (Nat.eqb_spec (length pdfFiles) 0) as [E|E].
    - cbn [AnalysisPage.files]. destruct pdfFiles; [|discriminate].
      rewrite app_nil_r. reflexivity.
    - reflexivity. }
  split; [|split].
  - exists (filter (fresh (AnalysisPage.files st)) pdfFiles).
    split; [exact Hfiles|]. intros f. unfold pdfFiles.
    rewrite !filter_In, Hfresh. tauto.
  - assert (Herr : AnalysisPage.error
                     (AnalysisPage.handleFilesSelected st (Some newFiles))
                   = if negb (length pdfFiles =? length newFiles)
                     then Some (lit "Some selected files were not PDFs and have been ignored.")
                     else None).
    { unfold AnalysisPage.handleFilesSelected. fold pdfFiles.
      destruct (length pdfFiles =? 0); reflexivity. }
    rewrite Herr. unfold pdfFiles. clear.
    assert (Hlen : length (filter AnalysisPage.isPdf newFiles)
                   = length newFiles
                   <-> Forall (fun f => AnalysisPage.isPdf f = true) newFiles).
    { induction newFiles as [|f l IH]; [split; [constructor | reflexivity]|].
      cbn [filter]. pose proof (filter_length_le AnalysisPage.isPdf l) as Hle.
      destruct (AnalysisPage.isPdf f) eqn:E; cbn [length]; split.
      - intros H. constructor; [exact E | apply IH; lia].
      - intros H. inversion H; subst. f_equal. apply IH. assumption.
      - intros H. lia.
      - intros H. inversion H; subst. congruence. }
    destruct (Nat.eqb_spec (length (filter AnalysisPage.isPdf newFiles))
                           (length newFiles)) as [E|E]; cbn [negb].
    + split; [intros _; apply Hlen, E | reflexivity].
    + split; [discriminate | intros H; apply Hlen in H; contradiction].
  - set (st' := AnalysisPage.handleFilesSelected st (Some newFiles)) in *.
    assert (Hfiles' : AnalysisPage.files
                        (AnalysisPage.handleFilesSelected st' (Some newFiles))
                      = AnalysisPage.files st'
                        ++ filter (fresh (AnalysisPage.files st')) pdfFiles).
    { unfold AnalysisPage.handleFilesSelected at 1. fold pdfFiles.
      destruct (Nat.eqb_spec (length pdfFiles) 0) as [E|E].
      - cbn [AnalysisPage.files]. destruct pdfFiles; [|discriminate].
        rewrite app_nil_r. reflexivity.
      - reflexivity. }
    rewrite Hfiles', filter_none; [apply app_nil_r|].
    intros f Hf. destruct (fresh (AnalysisPage.files st') f) eqn:E;
      [|reflexivity].
    exfalso. rewrite Hfresh in E.
    destruct (fresh (AnalysisPage.files st) f) eqn:E0.
    + assert (Hin : In f (AnalysisPage.files st')).
      { rewrite Hfiles. apply in_or_app. right. apply filter_In. tauto. }
      specialize (E f Hin). rewrite sameFile_refl in E. discriminate.
    + assert (Hex : existsb (fun e => AnalysisPage.sameFile e f)
                            (AnalysisPage.files st) = true).
      { unfold fresh in E0. apply negb_false_iff in E0. exact E0. }
      apply existsb_exists in Hex. destruct Hex as (g & Hg & Hs).
      assert (Hin : In g (AnalysisPage.files st')).
      { rewrite Hfiles. apply in_or_app. left. exact Hg. }
      rewrite (E g Hin) in Hs. discriminate.
Qed.

Lemma removeFile_from (l : list AnalysisPage.Files.File) (i start : nat) :
  map fst (filter (fun p => negb (snd p =? start + i))
                  (combine l (seq start (length l))))
  = firstn i l ++ skipn (S i) l.
Proof.
  revert i start. induction l as [|x l IH]; intros i start.
  - destruct i; reflexivity.
  - cbn [length seq combine filter snd]. destruct i as [|i].
    + rewrite Nat.add_0_r, Nat.eqb_refl. cbn [negb firstn skipn app].
      clear IH.
      assert (G : forall (l : list AnalysisPage.Files.File) s,
                 start < s ->
                 map fst (filter (fun p => negb (snd p =? start))
                                 (combine l (seq s (length l)))) = l).
      { induction l0 as [|y l0 IH0]; intros s Hs; [reflexivity|].
        cbn [length seq combine filter snd].
        destruct (Nat.eqb_spec s start) as [E|_]; [lia|].
        cbn [negb map fst]. f_equal. apply IH0. lia. }
      apply G. lia.
    + destruct (Nat.eqb_spec start (start + S i)) as [E|_]; [lia|].
      cbn [negb map fst firstn skipn app]. f_equal.
      replace (start + S i) with (S start + i) by lia. apply IH.
Qed.

(** Removing the file at an index keeps the files before it and the
    files after it, in their order; an index past the end removes nothing. *)
Theorem removeFile_at (prevFiles : list AnalysisPage.Files.File)
        (indexToRemove : nat) :
  AnalysisPage.removeFile prevFiles indexToRemove
  = firstn indexToRemove prevFiles ++ skipn (S indexToRemove) prevFiles
  /\ (length prevFiles <= indexToRemove ->
      AnalysisPage.removeFile prevFiles indexToRemove = prevFiles)
  /\ (indexToRemove < length prevFiles ->
      S (length (AnalysisPage.removeFile prevFiles indexToRemove))
      = length prevFiles).
Proof.
  assert (E : AnalysisPage.removeFile prevFiles indexToRemove
              = firstn indexToRemove prevFiles
                ++ skipn (S indexToRemove) prevFiles)
    by apply (removeFile_from prevFiles indexToRemove 0).
  split; [exact E|]. rewrite E. split.
  - intros Hle. rewrite firstn_all2 by exact Hle.
    rewrite skipn_all2 by lia. apply app_nil_r.
  - intros Hlt. rewrite length_app, length_firstn, length_skipn. lia.
Qed.

(* ================================================================== *)
(** * The properties on the sample data *)
(* ================================================================== *)

Section SampleChecks.
#[local] Existing Instance BasicLatin.runtime.

Lemma levelsGrids_records_witness :
  exists lg,
    QaqcPage.levelsGridsPinnedCheck Samples.qaqcSheet = Some lg
    /\ length (QaqcPage.levels lg) + length (QaqcPage.grids lg)
       <= length Samples.qaqcSheet
    /\ Props.levelsGridsKnown (lit "Levels-Grids / Element is pinned")
                              Samples.qaqcSheet
                              (QaqcPage.levels lg, QaqcPage.grids lg).
Proof.
  apply (@levelsGrids_records BasicLatin.runtime Samples.qaqcSheet
           (lit "Levels-Grids / Element is pinned")).
  reflexivity.
Defined.

Lemma pushCheck_entry_witness :
  QaqcPage.pushCheck [] None (lit "File Name") = []
  /\ exists item,
      QaqcPage.pushCheck [] (Some Samples.records) (lit "File Name")
      = [] ++ [item]
      /\ QaqcPage.title item = lit "File Name"
      /\ QaqcPage.total item = length Samples.records
      /\ QaqcPage.passed item = Props.validCount Samples.records
      /\ QaqcPage.passed item <= QaqcPage.total item
      /\ (Samples.records = [] -> QaqcPage.percentage item = 100%float).
Proof.
  apply (@pushCheck_entry BasicLatin.runtime [] Samples.records
           (lit "File Name")).
  intros s _. split; reflexivity.
Defined.

Lemma empty_columns_in_summary_witness :
  QaqcPage.pushCheck [] (Qaqc.rvtLinkPinnedCheck Examples.sheet)
                     (lit "RVT Link Pinned")
  = [{| QaqcPage.title := lit "RVT Link Pinned";
        QaqcPage.percentage := 100%float;
        QaqcPage.passed := 1; QaqcPage.total := 1;
        QaqcPage.subtitle := None |}]
  /\ QaqcPage.pushCheck [] (Qaqc.navisworksViewNameCheck Examples.sheet)
                        (lit "RVT Link Pinned")
     = [{| QaqcPage.title := lit "RVT Link Pinned";
           QaqcPage.percentage := 0%float;
           QaqcPage.passed := 0; QaqcPage.total := 1;
           QaqcPage.subtitle := None |}].
Proof.
  apply (@empty_columns_in_summary BasicLatin.runtime
           Examples.sheet Examples.sheet
           (lit "RVT link is pinned") (lit "Navisworks View Name")
           (lit "RVT Link Pinned")).
  - intros s _. split; reflexivity.
  - reflexivity.
  - intros r [<-|[<-|[<-|[]]]]; reflexivity.
  - reflexivity.
  - intros r [<-|[<-|[<-|[]]]]; reflexivity.
Defined.


Lemma checkPoints_more_text_witness :
  exists out out',
    QaqcPage.checkPoints Samples.text QaqcPage.surveyPointNames
                         Samples.qaqcSheet = Some out
    /\ QaqcPage.checkPoints (lit "Rules. " ++ Samples.text ++ lit " End.")
                            QaqcPage.surveyPointNames Samples.qaqcSheet
       = Some out'
    /\ Forall2 (fun r item =>
                  Qaqc.status item = Qaqc.Valid
                  <-> exists b a,
                      Samples.text
                      = b ++ toString (prop r (lit "Survey Point")) ++ a)
               (QaqcPage.rowsWithCell (lit "Survey Point") Samples.qaqcSheet)
               out
    /\ Forall2 (fun item item' =>
                  Qaqc.originalRecord item = Qaqc.originalRecord item'
                  /\ (Qaqc.status item = Qaqc.Valid ->
                      Qaqc.status item' = Qaqc.Valid))
               out out'.
Proof.
  apply (@checkPoints_more_text BasicLatin.runtime
           Samples.text (lit "Rules. ") (lit " End.")
           QaqcPage.surveyPointNames Samples.qaqcSheet (lit "Survey Point")).
  reflexivity.
Defined.

Lemma findHeader_spec_witness :
  (MidpPage.findHeader Samples.headers MidpPage.pageNameColumns = None
   <-> forall name h, In name MidpPage.pageNameColumns ->
                      In h Samples.headers ->
                      MidpPage.normalize h <> MidpPage.normalize name)
  /\ (forall h,
         MidpPage.findHeader Samples.headers MidpPage.pageNameColumns = Some h ->
         exists before name after hbefore hafter,
           MidpPage.pageNameColumns = before ++ name :: after
           /\ Samples.headers = hbefore ++ h :: hafter
           /\ MidpPage.normalize h = MidpPage.normalize name
           /\ (forall h', In h' hbefore ->
                          MidpPage.normalize h' <> MidpPage.normalize name)
           /\ (forall n h', In n before -> In h' Samples.headers ->
                            MidpPage.normalize h' <> MidpPage.normalize n)).
Proof.
  apply (@findHeader_spec BasicLatin.runtime
           Samples.headers MidpPage.pageNameColumns).
  repeat constructor; discriminate.
Defined.


Lemma text_checks_ignore_case_witness :
  (exists out,
      QaqcPage.startingViewNameCheck Samples.text Samples.qaqcSheet = Some out
      /\ QaqcPage.startingViewNameCheck Samples.textUpper Samples.qaqcSheet
         = Some out
      /\ Forall2 (fun r item =>
                    prop (Qaqc.originalRecord item) (lit "Starting View")
                    = prop r (lit "Starting View")
                    /\ (Qaqc.status item = Qaqc.Valid
                        <-> exists b a,
                            toLowerCase Samples.text
                            = b ++ toLowerCase
                                     (toString (prop r (lit "Starting View")))
                                ++ a))
                 (filter (Spec.filled (lit "Starting View"))
                         Samples.qaqcSheet) out)
  /\ (exists out,
         QaqcPage.categoryWorksetNameCheck Samples.text Samples.qaqcSheet
         = Some out
         /\ QaqcPage.categoryWorksetNameCheck Samples.textUpper
                                              Samples.qaqcSheet
            = Some out
         /\ Forall2 (fun r item =>
                       prop (Qaqc.originalRecord item) (lit "Workset Name")
                       = prop r (lit "Workset Name")
                       /\ (Qaqc.status item = Qaqc.Valid
                           <-> exists b a,
                               toLowerCase Samples.text
                               = b ++ toLowerCase
                                        (toString
                                           (prop r (lit "Workset Name")))
                                   ++ a))
                    (filter (Spec.filled (lit "Workset Name"))
                            Samples.qaqcSheet) out).
Proof.
  apply (@text_checks_ignore_case BasicLatin.runtime
           Samples.text Samples.textUpper
           Samples.qaqcSheet Samples.qaqcSheet
           (lit "Starting View") (lit "Workset Name"));
    vm_compute; reflexivity.
Defined.

Lemma defect_checks_witness :
  (exists out,
      QaqcPage.importedCadCheck Samples.defectSheet = Some out
      /\ Forall2 (fun r item =>
                    prop (Qaqc.originalRecord item) (lit "Imported CAD")
                    = prop r (lit "Imported CAD")
                    /\ Qaqc.status item = Qaqc.Invalid)
                 (filter (Spec.notBlank (lit "Imported CAD"))
                         Samples.defectSheet) out)
  /\ (exists out,
         QaqcPage.viewsNotInSheetsCheck Samples.defectSheet = Some out
         /\ Forall2 (fun r item =>
                       prop (Qaqc.originalRecord item)
                            (lit "Views not in Sheets")
                       = prop r (lit "Views not in Sheets")
                       /\ Qaqc.status item = Qaqc.Invalid)
                    (filter (Spec.notBlank (lit "Views not in Sheets"))
                            Samples.defectSheet) out)
  /\ QaqcPage.pushDefects [] None (lit "Imported CAD")
                          (lit " CAD imports") (lit "None") = []
  /\ (forall res,
         exists item,
           QaqcPage.pushDefects [] (Some res) (lit "Imported CAD")
                                (lit " CAD imports") (lit "None")
           = [] ++ [item]
           /\ QaqcPage.title item = lit "Imported CAD"
           /\ QaqcPage.passed item = 0
           /\ QaqcPage.total item = length res
           /\ (res = [] -> QaqcPage.percentage item = 100%float
                           /\ QaqcPage.subtitle item = Some (lit "None"))
           /\ (res <> [] -> QaqcPage.percentage item = 0%float)).
Proof.
  apply (@defect_checks BasicLatin.runtime
           Samples.defectSheet Samples.defectSheet
           (lit "Imported CAD") (lit "Views not in Sheets")
           [] (lit "Imported CAD") (lit " CAD imports") (lit "None"));
    vm_compute; reflexivity.
Defined.


(** The two columns named [10] once cleaned leave one cell, the cell of the
    column that the loop visits last, and the tab of the name is removed. *)
Example cleanRow_indexedRow :
  Sheet.cleanRow Samples.indexedRow
  = [(lit "10", VString (lit "first")); (lit "Name", VString (lit "Tower"))].
Proof. vm_compute. reflexivity. Qed.


End SampleChecks.
